(** * Rize.io local MCP server: client and tool dispatcher

    A shallow embedding of [rize_client.py] (the GraphQL client) and
    [server_simple.py] (the tool dispatcher), with the properties stated in
    the specification proved, or refuted, against it.

    Conventions of the embedding.
    - Python [str] is [string]: a sequence of bytes.  Non-ASCII literals of
      the source are kept as their UTF-8 bytes.
    - JSON values and Python dictionaries are the type [json]; a dictionary
      is an association list in insertion order.  Numbers are integers.
    - Python exceptions are the type [exn]; a computation that can raise and
      that can send requests is a value of the monad [Py].
    - Everything outside the process is read from an environment [Env]: the
      configured token, the clock and the answer of the upstream service. *)

From Stdlib Require Import String Ascii ZArith List Lia Bool.
Set Warnings "-register-all".
From ExtLib Require Import Structures.Monad Structures.MonadExc.
Import ListNotations.
Import MonadNotation.

Open Scope list_scope.
Open Scope string_scope.
Open Scope Z_scope.

(** ** Python strings *)

Module PyStr.

Definition char_in (c : ascii) (chars : string) : bool :=
  existsb (Ascii.eqb c) (list_ascii_of_string chars).

(** [s.replace(c, '')] for a one-character [c]. *)
Fixpoint remove_char (c : ascii) (s : string) : string :=
  match s with
  | EmptyString => EmptyString
  | String x s' =>
      if Ascii.eqb x c then remove_char c s' else String x (remove_char c s')
  end.

(** [s.rstrip(chars)]: drops the longest suffix made of characters of
    [chars]. *)
Fixpoint rstrip (chars : string) (s : string) : string :=
  match s with
  | EmptyString => EmptyString
  | String x s' =>
      match rstrip chars s' with
      | EmptyString => if char_in x chars then EmptyString else String x EmptyString
      | r => String x r
      end
  end.

(** [c.isspace()] on ASCII: tab to carriage return, the four separators
    28 to 31, and the space. *)
Definition is_space (c : ascii) : bool :=
  let n := nat_of_ascii c in
  ((9 <=? n) && (n <=? 13))%nat || ((28 <=? n) && (n <=? 32))%nat.

Fixpoint lstrip_space (s : string) : string :=
  match s with
  | EmptyString => EmptyString
  | String x s' => if is_space x then lstrip_space s' else s
  end.

Fixpoint rstrip_space (s : string) : string :=
  match s with
  | EmptyString => EmptyString
  | String x s' =>
      match rstrip_space s' with
      | EmptyString => if is_space x then EmptyString else String x EmptyString
      | r => String x r
      end
  end.

(** [s.strip()] *)
Definition strip (s : string) : string := rstrip_space (lstrip_space s).

(** [s[:n]] *)
Fixpoint take (n : nat) (s : string) : string :=
  match n, s with
  | S n', String x s' => String x (take n' s')
  | _, _ => EmptyString
  end.

Fixpoint drop (n : nat) (s : string) : string :=
  match n, s with
  | S n', String _ s' => drop n' s'
  | _, _ => s
  end.

(** [s[-n:]] for [n > 0] *)
Definition last_n (n : nat) (s : string) : string :=
  drop (String.length s - n) s.

(** [sep.join(l)] *)
Fixpoint join (sep : string) (l : list string) : string :=
  match l with
  | [] => EmptyString
  | [x] => x
  | x :: l' => x ++ sep ++ join sep l'
  end.

Definition digit_char (d : Z) : ascii := ascii_of_nat (48 + Z.to_nat d).

Definition is_digit (c : ascii) : bool :=
  let n := nat_of_ascii c in ((48 <=? n) && (n <=? 57))%nat.

Definition digit_val (c : ascii) : Z := Z.of_nat (nat_of_ascii c) - 48.

(** Decimal digits of a non-negative integer, most significant first. *)
Fixpoint str_digits (fuel : nat) (n : Z) (acc : string) : string :=
  let acc' := String (digit_char (n mod 10)) acc in
  match fuel with
  | O => acc'
  | S fuel' => if n <? 10 then acc' else str_digits fuel' (n / 10) acc'
  end.

(** [str(n)] for an integer [n]. *)
Definition str_int (n : Z) : string :=
  if n <? 0
  then String "-" (str_digits (Z.to_nat (Z.log2 (- n))) (- n) EmptyString)
  else str_digits (Z.to_nat (Z.log2 n)) n EmptyString.

Fixpoint zeros (n : nat) : string :=
  match n with
  | O => EmptyString
  | S n' => String "0" (zeros n')
  end.

(** ["%0wd" % n] for [n >= 0]. *)
Definition pad_d (w : nat) (n : Z) : string :=
  let s := str_int n in zeros (w - String.length s) ++ s.

(** [int(s)] on a string of ASCII digits. *)
Definition int_of_digits (s : string) : Z :=
  fold_left (fun acc c => 10 * acc + digit_val c) (list_ascii_of_string s) 0.

(** [s.startswith(p)] *)
Fixpoint startswith (p s : string) : bool :=
  match p, s with
  | EmptyString, _ => true
  | String a p', String b s' => Ascii.eqb a b && startswith p' s'
  | String _ _, EmptyString => false
  end.

(** [sub in s] *)
Fixpoint contains (sub s : string) : bool :=
  startswith sub s ||
  match s with
  | EmptyString => false
  | String _ s' => contains sub s'
  end.

End PyStr.

(** ** JSON values, Python objects and exceptions *)

Module PyVal.
Import PyStr.

(** A decoded JSON document, which is also the Python object the code
    handles: [dict] is [JObj], [list] is [JArr], [None] is [JNull]. *)
Inductive json : Type :=
| JNull
| JBool (b : bool)
| JNum (n : Z)
| JStr (s : string)
| JArr (items : list json)
| JObj (fields : list (string * json)).

Definition dict := list (string * json).

(** The exception classes the two source files raise or can meet.
    [HttpxRequestError] is any [httpx.RequestError] other than a connect
    timeout; [OtherException] is any other subclass of [Exception]. *)
Inductive exn : Type :=
| ConnectionError (msg : string)
| ValueError (msg : string)
| TypeError (msg : string)
| KeyError (msg : string)
| AttributeError (msg : string)
| OverflowError (msg : string)
| HttpxConnectTimeout (msg : string)
| HttpxRequestError (msg : string)
| HttpxHTTPStatusError (msg : string) (code : Z) (response_text : string)
| OtherException (msg : string).

(** [str(e)] *)
Definition str_exn (e : exn) : string :=
  match e with
  | ConnectionError m | ValueError m | TypeError m
  | KeyError m | AttributeError m | OverflowError m
  | HttpxConnectTimeout m | HttpxRequestError m
  | HttpxHTTPStatusError m _ _ | OtherException m => m
  end.

Definition Exc (A : Type) : Type := sum exn A.

#[global] Instance Monad_Exc : Monad Exc :=
  {| ret := fun _ x => inr x;
     bind := fun _ _ c f => match c with inl e => inl e | inr x => f x end |}.

#[global] Instance MonadExc_Exc : MonadExc exn Exc :=
  {| raise := fun _ e => inl e;
     catch := fun _ c h => match c with inl e => h e | inr x => inr x end |}.

Definition type_name (v : json) : string :=
  match v with
  | JNull => "NoneType"
  | JBool _ => "bool"
  | JNum _ => "int"
  | JStr _ => "str"
  | JArr _ => "list"
  | JObj _ => "dict"
  end.

(** Truth value of an object, as [if v:] and [not v] test it. *)
Definition truthy (v : json) : bool :=
  match v with
  | JNull => false
  | JBool b => b
  | JNum n => negb (n =? 0)
  | JStr s => negb (String.eqb s "")
  | JArr l => match l with [] => false | _ => true end
  | JObj l => match l with [] => false | _ => true end
  end.

Fixpoint lookup (k : string) (d : dict) : option json :=
  match d with
  | [] => None
  | (k', v) :: d' => if String.eqb k k' then Some v else lookup k d'
  end.

(** [d[k] = v]: replaces the value of a key in place, or appends the key. *)
Fixpoint setitem (k : string) (v : json) (d : dict) : dict :=
  match d with
  | [] => [(k, v)]
  | (k', v') :: d' =>
      if String.eqb k k' then (k, v) :: d' else (k', v') :: setitem k v d'
  end.

Definition hex_digit (n : nat) : ascii :=
  if (n <? 10)%nat then ascii_of_nat (48 + n) else ascii_of_nat (87 + n).

(** [repr(s)] of a string: quotes chosen as CPython does, control
    characters escaped, bytes above 127 left as they are. *)
Definition repr_char (quote : ascii) (c : ascii) : string :=
  let n := nat_of_ascii c in
  if Ascii.eqb c "\" then "\\"
  else if Ascii.eqb c quote then String "\" (String quote "")
  else if (n =? 10)%nat then "\n"
  else if (n =? 13)%nat then "\r"
  else if (n =? 9)%nat then "\t"
  else if ((n <? 32) || (n =? 127))%nat
       then String "\" (String "x" (String (hex_digit (n / 16)) (String (hex_digit (n mod 16)) "")))
  else String c "".

Definition dquote : ascii := ascii_of_nat 34.

Definition repr_str (s : string) : string :=
  let quote : ascii :=
    if char_in "'" s && negb (char_in dquote s) then dquote else "'"%char in
  String quote
    (String.concat "" (map (repr_char quote) (list_ascii_of_string s))
     ++ String quote "").

(** [repr(v)] and [str(v)]; they differ on strings only. *)
Fixpoint repr (v : json) : string :=
  match v with
  | JNull => "None"
  | JBool true => "True"
  | JBool false => "False"
  | JNum n => str_int n
  | JStr s => repr_str s
  | JArr l => "[" ++ join ", " (map repr l) ++ "]"
  | JObj l =>
      "{" ++ join ", " (map (fun kv => repr_str (fst kv) ++ ": " ++ repr (snd kv)) l) ++ "}"
  end.

Definition str (v : json) : string :=
  match v with
  | JStr s => s
  | _ => repr v
  end.

(** [v.get(k, default)]: only dictionaries have the method. *)
Definition get (v : json) (k : string) (default : json) : Exc json :=
  match v with
  | JObj d => inr (match lookup k d with Some x => x | None => default end)
  | _ => inl (AttributeError ("'" ++ type_name v ++ "' object has no attribute 'get'"))
  end.

(** [v[k]] for a string key. *)
Definition getitem (v : json) (k : string) : Exc json :=
  match v with
  | JObj d =>
      match lookup k d with
      | Some x => inr x
      | None => inl (KeyError (repr_str k))
      end
  | JArr _ => inl (TypeError "list indices must be integers or slices, not str")
  | JStr _ => inl (TypeError "string indices must be integers")
  | _ => inl (TypeError ("'" ++ type_name v ++ "' object is not subscriptable"))
  end.

Definition json_is_str (k : string) (v : json) : bool :=
  match v with
  | JStr s => String.eqb s k
  | _ => false
  end.

(** [k in v] for a string [k]: key of a dictionary, element of a list,
    substring of a string. *)
Definition contains_key (k : string) (v : json) : Exc bool :=
  match v with
  | JObj d => inr (match lookup k d with Some _ => true | None => false end)
  | JArr l => inr (existsb (json_is_str k) l)
  | JStr s => inr (contains k s)
  | _ => inl (TypeError ("argument of type '" ++ type_name v ++ "' is not iterable"))
  end.

(** The elements [for x in v] goes through. *)
Definition iterate (v : json) : Exc (list json) :=
  match v with
  | JArr l => inr l
  | JObj d => inr (map (fun kv => JStr (fst kv)) d)
  | JStr s => inr (map (fun c => JStr (String c "")) (list_ascii_of_string s))
  | _ => inl (TypeError ("'" ++ type_name v ++ "' object is not iterable"))
  end.

(** [len(v)] *)
Definition len (v : json) : Exc Z :=
  match v with
  | JArr l => inr (Z.of_nat (List.length l))
  | JObj d => inr (Z.of_nat (List.length d))
  | JStr s => inr (Z.of_nat (String.length s))
  | _ => inl (TypeError ("object of type '" ++ type_name v ++ "' has no len()"))
  end.

(** [v < n] and [v > n] for an integer [n]; [bool] compares as 0 or 1. *)
Definition as_int (op : string) (v : json) : Exc Z :=
  match v with
  | JNum x => inr x
  | JBool b => inr (if b then 1 else 0)
  | _ => inl (TypeError ("'" ++ op ++ "' not supported between instances of '"
                         ++ type_name v ++ "' and 'int'"))
  end.

Definition lt_int (v : json) (n : Z) : Exc bool :=
  match as_int "<" v with inl e => inl e | inr x => inr (x <? n) end.

Definition gt_int (v : json) (n : Z) : Exc bool :=
  match as_int ">" v with inl e => inl e | inr x => inr (n <? x) end.

(** [a + b] where the right operand is a string. *)
Definition add_str (a : json) (b : string) : Exc string :=
  match a with
  | JStr s => inr (s ++ b)
  | _ => inl (TypeError ("unsupported operand type(s) for +: '" ++ type_name a ++ "' and 'str'"))
  end.

End PyVal.

(** ** The [datetime] module of the interpreter

    The parts of CPython's [datetime] and [_strptime] that [create_session]
    goes through: proleptic Gregorian ordinals, [datetime + timedelta],
    [datetime - datetime], [isoformat] and [strptime]. *)

Module Datetime.
Import PyStr PyVal.

(** [tzinfo] is the fixed UTC offset of an aware value, in microseconds;
    [None] for a naive one. *)
Record datetime : Type := mkDatetime {
  year : Z;
  month : Z;
  day : Z;
  hour : Z;
  minute : Z;
  second : Z;
  microsecond : Z;
  tzinfo : option Z
}.

Definition MINYEAR : Z := 1.
Definition MAXYEAR : Z := 9999.
Definition MAXORDINAL : Z := 3652059.

Definition DAYS_IN_MONTH : list Z :=
  [-1; 31; 28; 31; 30; 31; 30; 31; 31; 30; 31; 30; 31].

Definition DAYS_BEFORE_MONTH : list Z :=
  [-1; 0; 31; 59; 90; 120; 151; 181; 212; 243; 273; 304; 334].

Definition index (l : list Z) (i : Z) : Z := nth (Z.to_nat i) l 0.

Definition is_leap (y : Z) : bool :=
  (y mod 4 =? 0) && (negb (y mod 100 =? 0) || (y mod 400 =? 0)).

Definition days_before_year (y : Z) : Z :=
  let y := y - 1 in y * 365 + y / 4 - y / 100 + y / 400.

Definition days_in_month (y m : Z) : Z :=
  if (m =? 2) && is_leap y then 29 else index DAYS_IN_MONTH m.

Definition days_before_month (y m : Z) : Z :=
  index DAYS_BEFORE_MONTH m + (if (2 <? m) && is_leap y then 1 else 0).

Definition ymd2ord (y m d : Z) : Z :=
  days_before_year y + days_before_month y m + d.

Definition DI400Y : Z := 146097.
Definition DI100Y : Z := 36524.
Definition DI4Y : Z := 1461.

(** The end of [_ord2ymd]: month and day of the [n]-th day of a year,
    counted from 0. *)
Definition month_and_day (leapyear : bool) (n : Z) : Z * Z :=
  let m := Z.shiftr (n + 50) 5 in
  let preceding :=
    index DAYS_BEFORE_MONTH m + (if (2 <? m) && leapyear then 1 else 0) in
  if n <? preceding
  then
    let m := m - 1 in
    let preceding :=
      preceding
      - (index DAYS_IN_MONTH m + (if (m =? 2) && leapyear then 1 else 0)) in
    (m, n - preceding + 1)
  else (m, n - preceding + 1).

Definition ord2ymd (n : Z) : Z * Z * Z :=
  let n := n - 1 in
  let n400 := n / DI400Y in
  let n := n mod DI400Y in
  let y := n400 * 400 + 1 in
  let n100 := n / DI100Y in
  let n := n mod DI100Y in
  let n4 := n / DI4Y in
  let n := n mod DI4Y in
  let n1 := n / 365 in
  let n := n mod 365 in
  let y := y + n100 * 100 + n4 * 4 + n1 in
  if (n1 =? 4) || (n100 =? 4) then (y - 1, 12, 31)
  else
    let leapyear := (n1 =? 3) && (negb (n4 =? 24) || (n100 =? 3)) in
    let '(m, d) := month_and_day leapyear n in
    (y, m, d).

Definition toordinal (dt : datetime) : Z :=
  ymd2ord (year dt) (month dt) (day dt).

(** The constructor's range checks ([_check_date_fields],
    [_check_time_fields]); every failure is a [ValueError]. *)
Definition check_fields (y m d hh mm ss us : Z) : bool :=
  (MINYEAR <=? y) && (y <=? MAXYEAR) &&
  (1 <=? m) && (m <=? 12) &&
  (1 <=? d) && (d <=? days_in_month y m) &&
  (0 <=? hh) && (hh <=? 23) &&
  (0 <=? mm) && (mm <=? 59) &&
  (0 <=? ss) && (ss <=? 59) &&
  (0 <=? us) && (us <=? 999999).

Definition valid (dt : datetime) : bool :=
  check_fields (year dt) (month dt) (day dt)
    (hour dt) (minute dt) (second dt) (microsecond dt).

Definition is_naive (dt : datetime) : bool :=
  match tzinfo dt with
  | None => true
  | Some _ => false
  end.

Definition US_PER_DAY : Z := 86400000000.

(** Microseconds since the start of ordinal 0, ignoring [tzinfo]. *)
Definition to_us (dt : datetime) : Z :=
  toordinal dt * US_PER_DAY
  + ((hour dt * 60 + minute dt) * 60 + second dt) * 1000000
  + microsecond dt.

(** A [timedelta], as its total of microseconds; the constructor and the
    arithmetic refuse a value of more than 999999999 days either way. *)
Definition check_delta (us : Z) : Exc Z :=
  let days := us / US_PER_DAY in
  if Z.abs days <=? 999999999
  then inr us
  else inl (OverflowError ("days=" ++ str_int days ++ "; must have magnitude <= 999999999")).

(** [timedelta(minutes=v)]: the argument must be an integer ([bool]
    counts as one). *)
Definition timedelta_minutes (v : json) : Exc Z :=
  match v with
  | JNum n => check_delta (n * 60000000)
  | JBool b => check_delta (if b then 60000000 else 0)
  | _ => inl (TypeError ("unsupported type for timedelta minutes component: " ++ type_name v))
  end.

(** [dt + delta] *)
Definition add (dt : datetime) (delta : Z) : Exc datetime :=
  match check_delta (to_us dt + delta) with
  | inl e => inl e
  | inr total =>
      let days := total / US_PER_DAY in
      let rem := total mod US_PER_DAY in
      let secs := rem / 1000000 in
      let us := rem mod 1000000 in
      let hh := secs / 3600 in
      let rem := secs mod 3600 in
      let mm := rem / 60 in
      let ss := rem mod 60 in
      if (0 <? days) && (days <=? MAXORDINAL)
      then
        let '(y, m, d) := ord2ymd days in
        inr (mkDatetime y m d hh mm ss us (tzinfo dt))
      else inl (OverflowError "date value out of range")
  end.

(** [dt - delta] is [dt + (-delta)]. *)
Definition sub_delta (dt : datetime) (delta : Z) : Exc datetime :=
  match check_delta (- delta) with
  | inl e => inl e
  | inr d => add dt d
  end.


(** [_format_offset]: the UTC offset as [+HH:MM], with seconds and
    microseconds only when they are not zero. *)
Definition format_offset (off : option Z) : string :=
  match off with
  | None => EmptyString
  | Some off =>
      let sign := if off <? 0 then "-" else "+" in
      let off := Z.abs off in
      let hh := off / 3600000000 in
      let rem := off mod 3600000000 in
      let mm := rem / 60000000 in
      let ss := rem mod 60000000 in
      sign ++ pad_d 2 hh ++ ":" ++ pad_d 2 mm ++
      (if ss =? 0 then EmptyString
       else ":" ++ pad_d 2 (ss / 1000000) ++
            (if ss mod 1000000 =? 0 then EmptyString
             else "." ++ pad_d 6 (ss mod 1000000)))
  end.

(** [dt.isoformat()] *)
Definition isoformat (dt : datetime) : string :=
  pad_d 4 (year dt) ++ "-" ++ pad_d 2 (month dt) ++ "-" ++ pad_d 2 (day dt)
  ++ "T" ++ pad_d 2 (hour dt) ++ ":" ++ pad_d 2 (minute dt) ++ ":"
  ++ pad_d 2 (second dt)
  ++ (if microsecond dt =? 0 then EmptyString
      else "." ++ pad_d 6 (microsecond dt))
  ++ format_offset (tzinfo dt).

(** *** [strptime]

    [_strptime] turns the format into a regular expression, matched at the
    start of the text with [re.IGNORECASE], and refuses text left over.
    Each directive is a group of alternatives tried in order; white space
    in the format stands for one or more white-space characters. *)

Inductive charclass : Type :=
| CRange (lo hi : ascii)
| CDigit
| CChar (c : ascii).

Inductive directive : Type := DY | Dm | Dd | DH | DM | DS.

Inductive item : Type :=
| Lit (c : ascii)
| Spaces
| Dir (d : directive).

(** The alternatives of a directive, in the order of the expression:
[[
   %Y  \d\d\d\d                           %H  2[0-3]|[0-1]\d|\d
   %m  1[0-2]|0[1-9]|[1-9]                %M  [0-5]\d|\d
   %d  3[0-1]|[1-2]\d|0[1-9]|[1-9]| [1-9]  %S  6[0-1]|[0-5]\d|\d
]] *)
Definition alternatives (d : directive) : list (list charclass) :=
  match d with
  | DY => [[CDigit; CDigit; CDigit; CDigit]]
  | Dm => [[CChar "1"; CRange "0" "2"]; [CChar "0"; CRange "1" "9"]; [CRange "1" "9"]]
  | Dd => [[CChar "3"; CRange "0" "1"]; [CRange "1" "2"; CDigit];
           [CChar "0"; CRange "1" "9"]; [CRange "1" "9"]; [CChar " "; CRange "1" "9"]]
  | DH => [[CChar "2"; CRange "0" "3"]; [CRange "0" "1"; CDigit]; [CDigit]]
  | DM => [[CRange "0" "5"; CDigit]; [CDigit]]
  | DS => [[CChar "6"; CRange "0" "1"]; [CRange "0" "5"; CDigit]; [CDigit]]
  end.

Definition directive_of_char (c : ascii) : option directive :=
  if Ascii.eqb c "Y" then Some DY
  else if Ascii.eqb c "m" then Some Dm
  else if Ascii.eqb c "d" then Some Dd
  else if Ascii.eqb c "H" then Some DH
  else if Ascii.eqb c "M" then Some DM
  else if Ascii.eqb c "S" then Some DS
  else None.

(** The items of a format string; [None] for a directive outside the six
    above (the source uses no other). *)
Fixpoint compile_format (fmt : string) : option (list item) :=
  match fmt with
  | EmptyString => Some []
  | String c fmt' =>
      if Ascii.eqb c "%" then
        match fmt' with
        | EmptyString => None
        | String d fmt'' =>
            match directive_of_char d, compile_format fmt'' with
            | Some dir, Some items => Some (Dir dir :: items)
            | _, _ => None
            end
        end
      else
        match compile_format fmt' with
        | Some items =>
            if is_space c then
              match items with
              | Spaces :: _ => Some items
              | _ => Some (Spaces :: items)
              end
            else Some (Lit c :: items)
        | None => None
        end
  end.

Definition lower (c : ascii) : ascii :=
  let n := nat_of_ascii c in
  if ((65 <=? n) && (n <=? 90))%nat then ascii_of_nat (n + 32) else c.

Definition class_matches (cl : charclass) (x : ascii) : bool :=
  match cl with
  | CRange lo hi =>
      ((nat_of_ascii lo <=? nat_of_ascii x) && (nat_of_ascii x <=? nat_of_ascii hi))%nat
  | CDigit => is_digit x
  | CChar c => Ascii.eqb c x
  end.

(** One alternative against the start of the text: the text it takes and
    the text after it. *)
Fixpoint match_classes (cls : list charclass) (s : string) : option (string * string) :=
  match cls with
  | [] => Some (EmptyString, s)
  | cl :: cls' =>
      match s with
      | EmptyString => None
      | String x s' =>
          if class_matches cl x then
            match match_classes cls' s' with
            | Some (t, r) => Some (String x t, r)
            | None => None
            end
          else None
      end
  end.

(** The first alternative after which the continuation [k] succeeds. *)
Fixpoint first_alt {A : Type} (alts : list (list charclass))
  (k : string -> string -> option A) (s : string) : option A :=
  match alts with
  | [] => None
  | cls :: alts' =>
      match match_classes cls s with
      | Some (t, r) =>
          match k t r with
          | Some a => Some a
          | None => first_alt alts' k s
          end
      | None => first_alt alts' k s
      end
  end.

(** [\s+]: as many white-space characters as possible, then fewer. *)
Fixpoint spaces1 {A : Type} (k : string -> option A) (s : string) : option A :=
  match s with
  | EmptyString => None
  | String x s' =>
      if is_space x then
        match spaces1 k s' with
        | Some a => Some a
        | None => k s'
        end
      else None
  end.

Record fields : Type := mkFields {
  fY : Z; fm : Z; fd : Z; fH : Z; fM : Z; fS : Z
}.

Definition default_fields : fields := mkFields 1900 1 1 0 0 0.

Definition set_field (d : directive) (v : Z) (f : fields) : fields :=
  match d with
  | DY => mkFields v (fm f) (fd f) (fH f) (fM f) (fS f)
  | Dm => mkFields (fY f) v (fd f) (fH f) (fM f) (fS f)
  | Dd => mkFields (fY f) (fm f) v (fH f) (fM f) (fS f)
  | DH => mkFields (fY f) (fm f) (fd f) v (fM f) (fS f)
  | DM => mkFields (fY f) (fm f) (fd f) (fH f) v (fS f)
  | DS => mkFields (fY f) (fm f) (fd f) (fH f) (fM f) v
  end.

(** [int(text)] of a matched group; the group of [%d] may start with a
    space, which [int] skips. *)
Definition int_of_group (t : string) : Z := int_of_digits (lstrip_space t).

(** [format_regex.match(data_string)]: the groups and the text left. *)
Fixpoint match_items (items : list item) (s : string) (f : fields)
  : option (fields * string) :=
  match items with
  | [] => Some (f, s)
  | Lit c :: items' =>
      match s with
      | EmptyString => None
      | String x s' =>
          if Ascii.eqb (lower c) (lower x) then match_items items' s' f else None
      end
  | Spaces :: items' => spaces1 (fun s' => match_items items' s' f) s
  | Dir d :: items' =>
      first_alt (alternatives d)
        (fun t r => match_items items' r (set_field d (int_of_group t) f)) s
  end.

(** [datetime.strptime(s, fmt)]; [None] stands for the [ValueError] of a
    text that does not match, of text left over, or of fields that are not
    a date and time. *)
Definition strptime (s fmt : string) : option datetime :=
  match compile_format fmt with
  | None => None
  | Some items =>
      match match_items items s default_fields with
      | Some (f, EmptyString) =>
          if check_fields (fY f) (fm f) (fd f) (fH f) (fM f) (fS f) 0
          then Some (mkDatetime (fY f) (fm f) (fd f) (fH f) (fM f) (fS f) 0 None)
          else None
      | _ => None
      end
  end.

(** *** [fromisoformat], as documented for Python 3.7 to 3.10

    The grammar is [YYYY-MM-DD[*HH[:MM[:SS[.fff[fff]]]][+HH:MM[:SS[.ffffff]]]]],
    where [*] is any one character.  Later interpreters accept more, so the
    client takes the function from its environment; this definition is the
    one used to run the client on concrete inputs. *)

Fixpoint all_digits (s : string) : bool :=
  match s with
  | EmptyString => true
  | String x s' => is_digit x && all_digits s'
  end.

(** [n] digits at the start of the text, as a number, and what follows. *)
Definition digits_prefix (n : nat) (s : string) : option (Z * string) :=
  let t := take n s in
  if (String.length t =? n)%nat && all_digits t
  then Some (int_of_digits t, drop n s)
  else None.

(** [_parse_hh_mm_ss_ff]: [HH[:MM[:SS[.fff[fff]]]]] *)
Definition parse_hh_mm_ss_ff (s : string) : option (Z * Z * Z * Z) :=
  match digits_prefix 2 s with
  | None => None
  | Some (hh, EmptyString) => Some (hh, 0, 0, 0)
  | Some (hh, String c1 r1) =>
      if negb (Ascii.eqb c1 ":") then None else
      match digits_prefix 2 r1 with
      | None => None
      | Some (mm, EmptyString) => Some (hh, mm, 0, 0)
      | Some (mm, String c2 r2) =>
          if negb (Ascii.eqb c2 ":") then None else
          match digits_prefix 2 r2 with
          | None => None
          | Some (ss, EmptyString) => Some (hh, mm, ss, 0)
          | Some (ss, String c3 frac) =>
              if negb (Ascii.eqb c3 ".") then None
              else if negb (all_digits frac) then None
              else if (String.length frac =? 3)%nat
                   then Some (hh, mm, ss, int_of_digits frac * 1000)
              else if (String.length frac =? 6)%nat
                   then Some (hh, mm, ss, int_of_digits frac)
              else None
          end
      end
  end.

(** The text before the first occurrence of a character, the text after
    it; [None] when the character does not occur. *)
Fixpoint split_at (c : ascii) (s : string) : option (string * string) :=
  match s with
  | EmptyString => None
  | String x s' =>
      if Ascii.eqb x c then Some (EmptyString, s')
      else match split_at c s' with
           | Some (a, b) => Some (String x a, b)
           | None => None
           end
  end.

(** [_parse_isoformat_time]: the time of day and the offset, if any. *)
Definition parse_isoformat_time (s : string) : option (Z * Z * Z * Z * option Z) :=
  let with_tz (sign : Z) (timestr tzstr : string) :=
    let n := String.length tzstr in
    if negb ((n =? 5) || (n =? 8) || (n =? 15))%nat then None else
    match parse_hh_mm_ss_ff timestr, parse_hh_mm_ss_ff tzstr with
    | Some (hh, mm, ss, us), Some (th, tm, ts, tu) =>
        let off := ((th * 60 + tm) * 60 + ts) * 1000000 + tu in
        if off <? 24 * 3600000000
        then Some (hh, mm, ss, us, Some (sign * off))
        else None
    | _, _ => None
    end in
  match split_at "-" s with
  | Some (timestr, tzstr) => with_tz (-1) timestr tzstr
  | None =>
      match split_at "+" s with
      | Some (timestr, tzstr) => with_tz 1 timestr tzstr
      | None =>
          match parse_hh_mm_ss_ff s with
          | Some (hh, mm, ss, us) => Some (hh, mm, ss, us, None)
          | None => None
          end
      end
  end.

Definition fromisoformat_37 (s : string) : option datetime :=
  match digits_prefix 4 s with
  | Some (y, String c1 r1) =>
      if negb (Ascii.eqb c1 "-") then None else
      match digits_prefix 2 r1 with
      | Some (m, String c2 r2) =>
          if negb (Ascii.eqb c2 "-") then None else
          match digits_prefix 2 r2 with
          | Some (d, r3) =>
              let tstr := drop 1 r3 in
              let time :=
                match tstr with
                | EmptyString => Some (0, 0, 0, 0, None)
                | _ => parse_isoformat_time tstr
                end in
              match time with
              | Some (hh, mm, ss, us, tz) =>
                  if check_fields y m d hh mm ss us
                  then Some (mkDatetime y m d hh mm ss us tz)
                  else None
              | None => None
              end
          | None => None
          end
      | _ => None
      end
  | _ => None
  end.

End Datetime.

(** ** The GraphQL documents of [rize_client.py]

    Each is the text between the triple quotes of the method named, kept
    character for character. *)

Module Documents.

Definition test_connection : string :=
"
            query TestConnection {
                currentUser {
                    email
                }
            }
            ".

Definition get_current_user : string :=
"
        query GetCurrentUser {
            currentUser {
                email
                id
            }
        }
        ".

Definition get_projects : string :=
"
        query GetProjects($first: Int) {
            projects(first: $first) {
                edges {
                    node {
                        id
                        name
                        color
                        emoji
                        status
                        defaultFlag
                        timeBudget
                        timeBudgetInterval
                        lastUsedAt
                        createdAt
                        updatedAt
                        client {
                            id
                            name
                        }
                        team {
                            id
                            name
                        }
                    }
                }
                pageInfo {
                    hasNextPage
                    endCursor
                }
            }
        }
        ".

Definition get_project : string :=
"
        query GetProject($id: ID!) {
            project(id: $id) {
                id
                name
                color
                emoji
                status
                defaultFlag
                timeSpent
                timeBudget
                timeBudgetInterval
                lastUsedAt
                createdAt
                updatedAt
                keywords
                client {
                    id
                    name
                    color
                }
                team {
                    id
                    name
                }
                currentTimeBudget {
                    timeBudget
                    timeSpent
                    budgetIntervalStartTime
                    budgetIntervalEndTime
                }
            }
        }
        ".

Definition create_project : string :=
"
        mutation CreateProject($input: CreateProjectInput!) {
            createProject(input: $input) {
                project {
                    id
                    name
                    color
                    emoji
                    status
                    timeSpent
                    timeBudget
                    timeBudgetInterval
                    createdAt
                    client {
                        id
                        name
                    }
                }
                errors {
                    message
                    path
                }
            }
        }
        ".

Definition update_project : string :=
"
        mutation UpdateProject($input: UpdateProjectInput!) {
            updateProject(input: $input) {
                project {
                    id
                    name
                    color
                    emoji
                    timeSpent
                    timeBudget
                    timeBudgetInterval
                    updatedAt
                }
                errors {
                    message
                    path
                }
            }
        }
        ".

Definition delete_project : string :=
"
        mutation DeleteProject($input: DeleteProjectInput!) {
            deleteProject(input: $input) {
                project {
                    id
                    name
                }
                errors {
                    message
                    path
                }
            }
        }
        ".

Definition get_tasks : string :=
"
        query GetTasks($first: Int, $projectId: ID) {
            tasks(first: $first, project: $projectId) {
                edges {
                    node {
                        id
                        name
                        color
                        emoji
                        status
                        defaultFlag
                        timeSpent
                        timeBudget
                        timeBudgetInterval
                        lastUsedAt
                        createdAt
                        updatedAt
                        project {
                            id
                            name
                        }
                        assignee {
                            id
                            name
                            email
                        }
                        team {
                            id
                            name
                        }
                    }
                }
                pageInfo {
                    hasNextPage
                    endCursor
                }
            }
        }
        ".

Definition get_task : string :=
"
        query GetTask($id: ID!) {
            task(id: $id) {
                id
                name
                color
                emoji
                status
                defaultFlag
                timeSpent
                timeBudget
                timeBudgetInterval
                lastUsedAt
                createdAt
                updatedAt
                keywords
                project {
                    id
                    name
                    color
                    client {
                        id
                        name
                    }
                }
                assignee {
                    id
                    name
                    email
                }
                team {
                    id
                    name
                }
                currentTimeBudget {
                    timeBudget
                    timeSpent
                    budgetIntervalStartTime
                    budgetIntervalEndTime
                }
            }
        }
        ".

Definition create_task : string :=
"
        mutation CreateTask($input: CreateTaskInput!) {
            createTask(input: $input) {
                task {
                    id
                    name
                    color
                    emoji
                    status
                    timeSpent
                    timeBudget
                    timeBudgetInterval
                    createdAt
                    project {
                        id
                        name
                    }
                    assignee {
                        id
                        name
                    }
                }
                errors {
                    message
                    path
                }
            }
        }
        ".

Definition update_task : string :=
"
        mutation UpdateTask($input: UpdateTaskInput!) {
            updateTask(input: $input) {
                task {
                    id
                    name
                    color
                    emoji
                    timeSpent
                    timeBudget
                    timeBudgetInterval
                    updatedAt
                    project {
                        id
                        name
                    }
                    assignee {
                        id
                        name
                    }
                }
                errors {
                    message
                    path
                }
            }
        }
        ".

Definition delete_task : string :=
"
        mutation DeleteTask($input: DeleteTaskInput!) {
            deleteTask(input: $input) {
                task {
                    id
                    name
                }
                errors {
                    message
                    path
                }
            }
        }
        ".

Definition get_sessions : string :=
"
        query GetSessions($first: Int) {
            sessions(first: $first) {
                edges {
                    node {
                        id
                        title
                        description
                        type
                        source
                        startTime
                        endTime
                        createdAt
                        updatedAt
                        clients {
                            id
                            name
                        }
                        projects {
                            id
                            name
                        }
                        tasks {
                            id
                            name
                        }
                    }
                }
                pageInfo {
                    hasNextPage
                    endCursor
                }
            }
        }
        ".

Definition get_current_session : string :=
"
        query GetCurrentSession {
            currentSession {
                id
                title
                description
                type
                source
                startTime
                endTime
                createdAt
                updatedAt
                clients {
                    id
                    name
                }
                projects {
                    id
                    name
                }
                tasks {
                    id
                    name
                }
            }
        }
        ".

Definition create_session : string :=
"
        mutation CreateSession($input: CreateSessionInput!) {
            createSession(input: $input) {
                session {
                    id
                    title
                    description
                    type
                    startTime
                    endTime
                    createdAt
                }
            }
        }
        ".

Definition update_session : string :=
"
        mutation UpdateSession($input: UpdateSessionInput!) {
            updateSession(input: $input) {
                session {
                    id
                    title
                    description
                    type
                    startTime
                    endTime
                    updatedAt
                }
                errors {
                    message
                    path
                }
            }
        }
        ".

Definition delete_session : string :=
"
        mutation DeleteSession($input: DeleteSessionInput!) {
            deleteSession(input: $input) {
                session {
                    id
                    title
                }
                errors {
                    message
                    path
                }
            }
        }
        ".

Definition start_session_timer : string :=
"
        mutation StartSessionTimer($input: StartSessionTimerInput!) {
            startSessionTimer(input: $input) {
                session {
                    id
                    type
                    startTime
                }
                errors {
                    message
                    path
                }
            }
        }
        ".

Definition stop_session_timer : string :=
"
        mutation StopSessionTimer($input: StopSessionTimerInput!) {
            stopSessionTimer(input: $input) {
                session {
                    id
                    type
                    startTime
                    endTime
                }
                errors {
                    message
                    path
                }
            }
        }
        ".

Definition extend_current_session : string :=
"
        mutation ExtendCurrentSession($input: ExtendCurrentSessionInput!) {
            extendCurrentSession(input: $input) {
                session {
                    id
                    type
                    startTime
                    endTime
                }
                errors {
                    message
                    path
                }
            }
        }
        ".

End Documents.

(** ** [rize_client.py] *)

Module Rize.
Import PyStr PyVal Datetime.
Local Open Scope monad_scope.

(** What [httpx] hands to [client.post]. *)
Record Request : Type := mkRequest {
  url : string;
  headers : list (string * string);
  body : json
}.

(** [response.json()]: the decoded body, or the message of the decoding
    error (a [ValueError]). *)
Inductive Decoded : Type :=
| Json (v : json)
| NotJson (err : string).

Record Response : Type := mkResponse {
  status_code : Z;
  text : string;
  decoded : Decoded
}.

(** What [await client.post(...)] does: it raises or it returns. *)
Inductive Outcome : Type :=
| Raises (e : exn)
| Returns (r : Response).

(** Everything the program reads from outside: the two settings, the two
    clocks ([datetime.now()] and [int(time.time())]), the interpreter's
    [datetime.fromisoformat] and the upstream service with the network in
    front of it.  No operation and no tool sends more than one request, so
    one answer for each request is all that a call can observe. *)
Record Env : Type := mkEnv {
  RIZE_API_TOKEN : option string;
  RIZE_API_URL : option string;
  now : datetime;
  time : Z;
  fromisoformat : string -> option datetime;
  upstream : Request -> Outcome
}.

(** A computation that may raise and that sends requests: the requests
    sent so far are threaded through, and are kept when it raises. *)
Definition Py (A : Type) : Type := list Request -> Exc A * list Request.

#[global] Instance Monad_Py : Monad Py :=
  {| ret := fun _ x log => (inr x, log);
     bind := fun _ _ c f log =>
       match c log with
       | (inl e, log') => (inl e, log')
       | (inr x, log') => f x log'
       end |}.

#[global] Instance MonadExc_Py : MonadExc exn Py :=
  {| raise := fun _ e log => (inl e, log);
     catch := fun _ c h log =>
       match c log with
       | (inl e, log') => h e log'
       | (inr x, log') => (inr x, log')
       end |}.

Definition lift {A : Type} (r : Exc A) : Py A := fun log => (r, log).

(** [await client.post(url, json=..., headers=...)] *)
Definition post (env : Env) (req : Request) : Py Response :=
  fun log =>
    match upstream env req with
    | Raises e => (inl e, (log ++ [req])%list)
    | Returns r => (inr r, (log ++ [req])%list)
    end.

Record RizeClient : Type := mkClient {
  api_token : string;
  base_url : string;
  client_headers : list (string * string)
}.

(** [RizeClient.__init__] *)
Definition init (env : Env) (token : option string) : Exc RizeClient :=
  let api_token :=
    match token with
    | Some t => if String.eqb t "" then RIZE_API_TOKEN env else Some t
    | None => RIZE_API_TOKEN env
    end in
  let base_url :=
    match RIZE_API_URL env with
    | Some u => u
    | None => "https://api.rize.io/api/v1/graphql"
    end in
  match api_token with
  | Some t =>
      if String.eqb t "" then
        inl (ValueError "❌ Rize API Token 未设置
请在.env文件中设置: RIZE_API_TOKEN=your_token_here
或在Rize应用中生成: Settings > API > Generate new token")
      else
        inr (mkClient t base_url
               [("Authorization", "Bearer " ++ t);
                ("Content-Type", "application/json");
                ("User-Agent", "Rize-AI-Scheduler/1.0")])
  | None =>
      inl (ValueError "❌ Rize API Token 未设置
请在.env文件中设置: RIZE_API_TOKEN=your_token_here
或在Rize应用中生成: Settings > API > Generate new token")
  end.

(** [response.raise_for_status()]: anything but a 2xx status raises. *)
Definition raise_for_status (r : Response) : Py unit :=
  if (200 <=? status_code r) && (status_code r <=? 299)
  then ret tt
  else raise (HttpxHTTPStatusError "HTTP status error" (status_code r) (text r)).

Definition response_json (r : Response) : Py json :=
  match decoded r with
  | Json v => ret v
  | NotJson err => raise (ValueError err)
  end.

(** The loop of [execute_query] over [result["errors"]]. *)
Fixpoint graphql_error_msg (errors : list json) (error_msg : string) : Exc string :=
  match errors with
  | [] => ret error_msg
  | error :: rest =>
      m <- get error "message" (JStr "未知错误") ;;
      piece <- add_str m "; " ;;
      graphql_error_msg rest (error_msg ++ piece)
  end.

(** The check of [execute_query] for GraphQL errors in a decoded body. *)
Definition check_graphql_errors (result : json) : Exc json :=
  has_errors <- contains_key "errors" result ;;
  if has_errors : bool then
    errors <- getitem result "errors" ;;
    items <- iterate errors ;;
    error_msg <- graphql_error_msg items "GraphQL错误: " ;;
    raise (ValueError (rstrip "; " error_msg))
  else ret result.

(** The [except] clauses of [execute_query], first match first: the
    exception each one raises for the exception it catches. *)
Definition reraise (self : RizeClient) (e : exn) : exn :=
  match e with
  | HttpxConnectTimeout _ =>
      ConnectionError "🔌 连接Rize API超时，请检查网络连接"
  | HttpxHTTPStatusError _ status body =>
      if status =? 401 then
        ValueError ("🔐 API认证失败，请检查token是否正确
当前token: " ++ take 8 (api_token self) ++ "..." ++ last_n 4 (api_token self))
      else if status =? 429 then
        ValueError "⏱️ API请求频率超限，请稍后重试"
      else if 500 <=? status then
        ConnectionError ("🔥 Rize服务器错误 (" ++ str_int status ++ ")")
      else
        ValueError ("❌ HTTP错误 " ++ str_int status ++ ": " ++ body)
  | HttpxRequestError m =>
      ConnectionError ("🚫 网络请求失败: " ++ m)
  | _ => ValueError ("❌ 未知错误: " ++ str_exn e)
  end.

Definition execute_query (env : Env) (self : RizeClient)
  (query : string) (variables : json) : Py json :=
  let request_data :=
    JObj [("query", JStr query);
          ("variables", if truthy variables then variables else JObj [])] in
  catch
    (response <- post env (mkRequest (base_url self) (client_headers self) request_data) ;;
     raise_for_status response ;;
     result <- response_json response ;;
     lift (check_graphql_errors result))
    (fun e => raise (reraise self e)).

(** [d[k] = v if cond], the pattern of the optional fields. *)
Definition set_if (cond : bool) (k : string) (v : json) (d : dict) : dict :=
  if cond then setitem k v d else d.

Definition is_not_none (v : json) : bool :=
  match v with
  | JNull => false
  | _ => true
  end.

Definition test_connection (env : Env) (self : RizeClient) : Py (bool * string) :=
  catch
    (result <- execute_query env self Documents.test_connection JNull ;;
     data <- lift (get result "data" (JObj [])) ;;
     user <- lift (get data "currentUser" (JObj [])) ;;
     user_email <- lift (get user "email" (JStr "Unknown")) ;;
     ret (true, "[OK] Connection successful! User: " ++ str user_email))
    (fun e => ret (false, "[ERROR] Connection failed: " ++ str_exn e)).

Definition get_current_user (env : Env) (self : RizeClient) : Py json :=
  execute_query env self Documents.get_current_user JNull.

Definition get_projects (env : Env) (self : RizeClient) (limit : json) : Py json :=
  let variables := JObj [("first", limit)] in
  execute_query env self Documents.get_projects variables.

Definition get_project (env : Env) (self : RizeClient) (project_id : json) : Py json :=
  let variables := JObj [("id", project_id)] in
  execute_query env self Documents.get_project variables.

Definition create_project (env : Env) (self : RizeClient)
  (name client_id color emoji time_budget time_budget_interval : json) : Py json :=
  let project_input := [("name", name)] in
  let project_input := set_if (truthy client_id) "clientId" client_id project_input in
  let project_input := set_if (truthy color) "color" color project_input in
  let project_input := set_if (truthy emoji) "emoji" emoji project_input in
  let project_input := set_if (truthy time_budget) "timeBudget" time_budget project_input in
  let project_input :=
    set_if (truthy time_budget_interval) "timeBudgetInterval" time_budget_interval project_input in
  let variables := JObj [("input", JObj project_input)] in
  execute_query env self Documents.create_project variables.

Definition update_project (env : Env) (self : RizeClient)
  (project_id name color emoji time_budget time_budget_interval : json) : Py json :=
  let project_input := [("id", project_id)] in
  let project_input := set_if (is_not_none name) "name" name project_input in
  let project_input := set_if (is_not_none color) "color" color project_input in
  let project_input := set_if (is_not_none emoji) "emoji" emoji project_input in
  let project_input := set_if (is_not_none time_budget) "timeBudget" time_budget project_input in
  let project_input :=
    set_if (is_not_none time_budget_interval) "timeBudgetInterval" time_budget_interval
      project_input in
  let variables := JObj [("input", JObj project_input)] in
  execute_query env self Documents.update_project variables.

Definition delete_project (env : Env) (self : RizeClient) (project_id : json) : Py json :=
  let variables := JObj [("input", JObj [("id", project_id)])] in
  execute_query env self Documents.delete_project variables.

Definition get_tasks (env : Env) (self : RizeClient) (limit project_id : json) : Py json :=
  let variables := [("first", limit)] in
  let variables := set_if (truthy project_id) "projectId" project_id variables in
  execute_query env self Documents.get_tasks (JObj variables).

Definition get_task (env : Env) (self : RizeClient) (task_id : json) : Py json :=
  let variables := JObj [("id", task_id)] in
  execute_query env self Documents.get_task variables.

Definition create_task (env : Env) (self : RizeClient)
  (name project_id assignee_id color emoji time_budget time_budget_interval : json)
  : Py json :=
  let task_input := [("name", name)] in
  let task_input := set_if (truthy project_id) "projectId" project_id task_input in
  let task_input := set_if (truthy assignee_id) "assigneeId" assignee_id task_input in
  let task_input := set_if (truthy color) "color" color task_input in
  let task_input := set_if (truthy emoji) "emoji" emoji task_input in
  let task_input := set_if (truthy time_budget) "timeBudget" time_budget task_input in
  let task_input :=
    set_if (truthy time_budget_interval) "timeBudgetInterval" time_budget_interval task_input in
  let variables := JObj [("input", JObj task_input)] in
  execute_query env self Documents.create_task variables.

Definition update_task (env : Env) (self : RizeClient)
  (task_id name project_id assignee_id color emoji time_budget time_budget_interval : json)
  : Py json :=
  let task_input := [("id", task_id)] in
  let task_input := set_if (is_not_none name) "name" name task_input in
  let task_input := set_if (is_not_none project_id) "projectId" project_id task_input in
  let task_input := set_if (is_not_none assignee_id) "assigneeId" assignee_id task_input in
  let task_input := set_if (is_not_none color) "color" color task_input in
  let task_input := set_if (is_not_none emoji) "emoji" emoji task_input in
  let task_input := set_if (is_not_none time_budget) "timeBudget" time_budget task_input in
  let task_input :=
    set_if (is_not_none time_budget_interval) "timeBudgetInterval" time_budget_interval
      task_input in
  let variables := JObj [("input", JObj task_input)] in
  execute_query env self Documents.update_task variables.

Definition delete_task (env : Env) (self : RizeClient) (task_id : json) : Py json :=
  let variables := JObj [("input", JObj [("id", task_id)])] in
  execute_query env self Documents.delete_task variables.

Definition get_sessions (env : Env) (self : RizeClient) (limit : json) : Py json :=
  let variables := JObj [("first", limit)] in
  execute_query env self Documents.get_sessions variables.

Definition get_current_session (env : Env) (self : RizeClient) : Py json :=
  execute_query env self Documents.get_current_session JNull.

(** The formats [parse_time_string] tries, in order. *)
Definition formats : list string :=
  ["%Y-%m-%dT%H:%M:%S";
   "%Y-%m-%d %H:%M:%S";
   "%Y-%m-%dT%H:%M";
   "%Y-%m-%d %H:%M";
   "%Y-%m-%dT%H:%M:%SZ"].

(** [for fmt in formats: try: return strptime(...) except ValueError: continue] *)
Fixpoint try_formats (s : string) (fmts : list string) : option datetime :=
  match fmts with
  | [] => None
  | fmt :: fmts' =>
      match strptime s fmt with
      | Some dt => Some dt
      | None => try_formats s fmts'
      end
  end.

(** [parse_time_string], local to [create_session]. *)
Definition parse_time_string (env : Env) (time_str : json) : Exc datetime :=
  match time_str with
  | JStr s =>
      match try_formats (remove_char "Z" s) formats with
      | Some dt => ret dt
      | None =>
          match fromisoformat env (remove_char "Z" s) with
          | Some dt => ret dt
          | None => raise (ValueError ("Cannot parse time string: " ++ s))
          end
      end
  | _ =>
      raise (AttributeError ("'" ++ type_name time_str ++ "' object has no attribute 'replace'"))
  end.

(** The four cases of [create_session]: the start and the end of the
    session. *)
Definition resolve_window (env : Env) (duration_minutes start_time end_time : json)
  : Exc (datetime * datetime) :=
  if truthy start_time && truthy end_time then
    start_dt <- parse_time_string env start_time ;;
    end_dt <- parse_time_string env end_time ;;
    ret (start_dt, end_dt)
  else if truthy start_time then
    start_dt <- parse_time_string env start_time ;;
    delta <- timedelta_minutes duration_minutes ;;
    end_dt <- add start_dt delta ;;
    ret (start_dt, end_dt)
  else if truthy end_time then
    end_dt <- parse_time_string env end_time ;;
    delta <- timedelta_minutes duration_minutes ;;
    start_dt <- sub_delta end_dt delta ;;
    ret (start_dt, end_dt)
  else
    let start_dt := now env in
    delta <- timedelta_minutes duration_minutes ;;
    end_dt <- add start_dt delta ;;
    ret (start_dt, end_dt).

Definition create_session (env : Env) (self : RizeClient)
  (session_type title description duration_minutes start_time end_time : json)
  : Py json :=
  '(start_dt, end_dt) <- lift (resolve_window env duration_minutes start_time end_time) ;;
  let session_args :=
    [("startTime", JStr (isoformat start_dt ++ "Z"));
     ("endTime", JStr (isoformat end_dt ++ "Z"))] in
  let session_args := set_if (truthy title) "title" title session_args in
  let session_args := set_if (truthy description) "description" description session_args in
  let variables := JObj [("input", JObj [("args", JObj session_args)])] in
  execute_query env self Documents.create_session variables.



Definition update_session (env : Env) (self : RizeClient)
  (session_id title description : json) : Py json :=
  let session_input := [("id", session_id)] in
  let session_input := set_if (is_not_none title) "title" title session_input in
  let session_input :=
    set_if (is_not_none description) "description" description session_input in
  let variables := JObj [("input", JObj session_input)] in
  execute_query env self Documents.update_session variables.

Definition delete_session (env : Env) (self : RizeClient) (session_id : json) : Py json :=
  let variables := JObj [("input", JObj [("id", session_id)])] in
  execute_query env self Documents.delete_session variables.

Definition start_session_timer (env : Env) (self : RizeClient) (session_type : json)
  : Py json :=
  let variables :=
    JObj [("input",
           JObj [("clientMutationId", JStr ("start_timer_" ++ str_int (time env)))])] in
  execute_query env self Documents.start_session_timer variables.

Definition stop_session_timer (env : Env) (self : RizeClient) : Py json :=
  let variables := JObj [("input", JObj [])] in
  execute_query env self Documents.stop_session_timer variables.

Definition extend_current_session (env : Env) (self : RizeClient) (minutes : json)
  : Py json :=
  let variables := JObj [("input", JObj [("minutes", minutes)])] in
  execute_query env self Documents.extend_current_session variables.

End Rize.

(** ** [server_simple.py] *)

Module Server.
Import PyStr PyVal Datetime Rize.
Local Open Scope monad_scope.

Definition nl : string := String (ascii_of_nat 10) EmptyString.

Record TextContent : Type := mkTextContent {
  type : string;
  text : string
}.

(** [[err['message'] for err in errors]] *)
Fixpoint messages_of (errors : list json) : Exc (list json) :=
  match errors with
  | [] => ret []
  | err :: rest =>
      m <- getitem err "message" ;;
      ms <- messages_of rest ;;
      ret (m :: ms)
  end.

(** [result.get("data", {}).get(field, {})] *)
Definition payload (result : json) (field : string) : Exc json :=
  data <- get result "data" (JObj []) ;;
  get data field (JObj []).

(** The [try] block of [test_connection_handler]. *)
Definition test_connection_try (env : Env) : Py string :=
  client <- lift (init env None) ;;
  '(success, message) <- test_connection env client ;;
  ret message.

Definition test_connection_handler (env : Env) : Py string :=
  catch (test_connection_try env)
    (fun e => ret ("[ERROR] Connection test failed: " ++ str_exn e)).

(** The loop of [list_projects_handler] over the edges. *)
Fixpoint list_projects_lines (projects : list json) (output : string) : Exc string :=
  match projects with
  | [] => ret output
  | edge :: rest =>
      project <- getitem edge "node" ;;
      emoji <- get project "emoji" (JStr "") ;;
      name <- getitem project "name" ;;
      project_id <- getitem project "id" ;;
      list_projects_lines rest
        (output ++ str emoji ++ " " ++ str name ++ " (ID: " ++ str project_id ++ ")" ++ nl)
  end.

(** The [try] block of [list_projects_handler]. *)
Definition list_projects_try (env : Env) (args : json) : Py string :=
  client <- lift (init env None) ;;
  limit <- lift (get args "limit" (JNum 10)) ;;
  result <- get_projects env client limit ;;
  has_errors <- lift (contains_key "errors" result) ;;
  if has_errors : bool then
    errors <- lift (getitem result "errors") ;;
    ret ("[ERROR] Failed to get projects: " ++ str errors)
  else
    data <- lift (get result "data" (JObj [])) ;;
    container <- lift (get data "projects" (JObj [])) ;;
    projects <- lift (get container "edges" (JArr [])) ;;
    if negb (truthy projects) then
      ret "[INFO] No projects found. Use create_project to create one."
    else
      n <- lift (len projects) ;;
      edges <- lift (iterate projects) ;;
      output <- lift (list_projects_lines edges
                        ("[SUCCESS] Found " ++ str_int n ++ " projects:" ++ nl ++ nl)) ;;
      ret (strip output).

Definition list_projects_handler (env : Env) (args : json) : Py string :=
  catch (list_projects_try env args)
    (fun e => ret ("[ERROR] Failed to list projects: " ++ str_exn e)).

(** The [try] block of [create_project_handler]. *)
Definition create_project_try (env : Env) (args : json) : Py string :=
  client <- lift (init env None) ;;
  name <- lift (get args "name" JNull) ;;
  if negb (truthy name) then
    ret "[ERROR] Missing required parameter: name"
  else
    emoji <- lift (get args "emoji" JNull) ;;
    result <- create_project env client name JNull JNull emoji JNull JNull ;;
    p <- lift (payload result "createProject") ;;
    has_errors <- lift (contains_key "errors" p) ;;
    if has_errors : bool then
      data <- lift (getitem result "data") ;;
      p <- lift (getitem data "createProject") ;;
      errors <- lift (getitem p "errors") ;;
      items <- lift (iterate errors) ;;
      ms <- lift (messages_of items) ;;
      ret ("[ERROR] Failed to create project: " ++ str (JArr ms))
    else
      p <- lift (payload result "createProject") ;;
      project <- lift (get p "project" JNull) ;;
      if negb (truthy project) then
        ret "[ERROR] Failed to create project: No response data"
      else
        emoji <- lift (get project "emoji" (JStr "")) ;;
        project_name <- lift (getitem project "name") ;;
        project_id <- lift (getitem project "id") ;;
        ret ("[SUCCESS] Project created: " ++ str emoji ++ " " ++ str project_name
             ++ " (ID: " ++ str project_id ++ ")").

Definition create_project_handler (env : Env) (args : json) : Py string :=
  catch (create_project_try env args)
    (fun e => ret ("[ERROR] Failed to create project: " ++ str_exn e)).

(** The [try] block of [start_session_timer_handler]. *)
Definition start_session_timer_try (env : Env) (args : json) : Py string :=
  client <- lift (init env None) ;;
  session_type <- lift (get args "session_type" (JStr "FOCUS")) ;;
  result <- start_session_timer env client session_type ;;
  p <- lift (payload result "startSessionTimer") ;;
  has_errors <- lift (contains_key "errors" p) ;;
  if has_errors : bool then
    data <- lift (getitem result "data") ;;
    p <- lift (getitem data "startSessionTimer") ;;
    errors <- lift (getitem p "errors") ;;
    items <- lift (iterate errors) ;;
    ms <- lift (messages_of items) ;;
    ret ("[ERROR] Failed to start timer: " ++ str (JArr ms))
  else
    p <- lift (payload result "startSessionTimer") ;;
    session <- lift (get p "session" JNull) ;;
    if negb (truthy session) then
      ret "[ERROR] Failed to start timer: No response data"
    else
      session_id <- lift (getitem session "id") ;;
      start_time <- lift (get session "startTime" (JStr "")) ;;
      ret ("[SUCCESS] Timer started! Session ID: " ++ str session_id
           ++ ", Start time: " ++ str start_time).

Definition start_session_timer_handler (env : Env) (args : json) : Py string :=
  catch (start_session_timer_try env args)
    (fun e => ret ("[ERROR] Failed to start timer: " ++ str_exn e)).

(** The branch of [stop_session_timer_handler] taken with [confirm]. *)
Definition stop_confirmed (env : Env) (client : RizeClient) : Py string :=
  result <- stop_session_timer env client ;;
  p <- lift (payload result "stopSessionTimer") ;;
  has_errors <- lift (contains_key "errors" p) ;;
  if has_errors : bool then
    data <- lift (getitem result "data") ;;
    p <- lift (getitem data "stopSessionTimer") ;;
    errors <- lift (getitem p "errors") ;;
    items <- lift (iterate errors) ;;
    ms <- lift (messages_of items) ;;
    ret ("[ERROR] Failed to stop timer: " ++ str (JArr ms))
  else
    p <- lift (payload result "stopSessionTimer") ;;
    session <- lift (get p "session" JNull) ;;
    if negb (truthy session) then
      ret "[ERROR] Failed to stop timer: No response data"
    else
      session_id <- lift (getitem session "id") ;;
      end_time <- lift (get session "endTime" (JStr "")) ;;
      ret ("[SUCCESS] Timer stopped! Session ID: " ++ str session_id
           ++ ", End time: " ++ str end_time).

(** The branch taken without [confirm]. *)
Definition stop_unconfirmed (env : Env) (client : RizeClient) : Py string :=
  current_result <- get_current_session env client ;;
  data <- lift (get current_result "data" (JObj [])) ;;
  current_session <- lift (get data "currentSession" JNull) ;;
  if negb (truthy current_session) then
    ret "[INFO] 没有活动的会话需要停止。"
  else
    session_id <- lift (getitem current_session "id") ;;
    title <- lift (get current_session "title" (JStr "当前会话")) ;;
    start_time <- lift (get current_session "startTime" (JStr "")) ;;
    let confirm_msg := "[CONFIRM] 即将停止以下会话：" ++ nl ++ nl in
    let confirm_msg := confirm_msg ++ "  - 会话ID: " ++ str session_id ++ nl in
    let confirm_msg := confirm_msg ++ "  - 标题: " ++ str title ++ nl in
    let confirm_msg := confirm_msg ++ "  - 开始时间: " ++ str start_time ++ nl ++ nl in
    let confirm_msg := confirm_msg ++ "这将结束当前会话并记录使用时间。" ++ nl in
    let confirm_msg :=
      confirm_msg ++ "如果确认要停止，请再次调用 stop_session_timer 并添加参数 confirm=true" in
    ret confirm_msg.

(** The [try] block of [stop_session_timer_handler]. *)
Definition stop_session_timer_try (env : Env) (args : json) : Py string :=
  client <- lift (init env None) ;;
  confirm <- lift (get args "confirm" (JBool false)) ;;
  if truthy confirm then stop_confirmed env client
  else stop_unconfirmed env client.

Definition stop_session_timer_handler (env : Env) (args : json) : Py string :=
  catch (stop_session_timer_try env args)
    (fun e => ret ("[ERROR] Failed to process stop request: " ++ str_exn e)).

(** The [try] block of [get_current_session_handler]. *)
Definition get_current_session_try (env : Env) : Py string :=
  client <- lift (init env None) ;;
  result <- get_current_session env client ;;
  has_errors <- lift (contains_key "errors" result) ;;
  if has_errors : bool then
    errors <- lift (getitem result "errors") ;;
    ret ("[ERROR] Failed to get current session: " ++ str errors)
  else
    data <- lift (get result "data" (JObj [])) ;;
    session <- lift (get data "currentSession" JNull) ;;
    if negb (truthy session) then
      ret "[INFO] No active session. Use start_session_timer to begin one."
    else
      session_id <- lift (getitem session "id") ;;
      title <- lift (get session "title" (JStr "Current session")) ;;
      session_type <- lift (get session "type" (JStr "")) ;;
      start_time <- lift (get session "startTime" (JStr "")) ;;
      ret ("[SUCCESS] Active session: " ++ str title ++ " (ID: " ++ str session_id
           ++ ", Type: " ++ str session_type ++ ", Started: " ++ str start_time ++ ")").

Definition get_current_session_handler (env : Env) : Py string :=
  catch (get_current_session_try env)
    (fun e => ret ("[ERROR] Failed to get current session: " ++ str_exn e)).

(** [args.items()]: only a dictionary has the method. *)
Definition items (v : json) : Exc dict :=
  match v with
  | JObj d => ret d
  | _ => raise (AttributeError ("'" ++ type_name v ++ "' object has no attribute 'items'"))
  end.

(** The three checks of [validate_session_params], each adding to the
    issues and to the suggestions. *)
Definition check_times (start_time end_time : json) : list string * list string :=
  if negb (truthy start_time) && negb (truthy end_time)
  then (["开始时间和结束时间都未指定"],
        ["• 指定开始时间 (如: start_time='2025-07-21 14:00')";
         "• 或指定结束时间 (如: end_time='2025-07-21 15:30')"])
  else ([], []).

Definition check_title (title : json) : list string * list string :=
  if negb (truthy title)
  then (["会话标题未指定"], ["• 添加标题 (如: title='专注工作')"])
  else ([], []).

(** [duration_minutes and (duration_minutes < 5 or duration_minutes > 480)] *)
Definition duration_out_of_range (duration_minutes : json) : Exc bool :=
  if truthy duration_minutes then
    below <- lt_int duration_minutes 5 ;;
    if below : bool then ret true else gt_int duration_minutes 480
  else ret false.

Definition check_duration (duration_minutes : json) : Exc (list string * list string) :=
  bad <- duration_out_of_range duration_minutes ;;
  if bad : bool
  then ret (["持续时间 " ++ str duration_minutes ++ " 分钟可能不合理"],
            ["• 建议持续时间在 5-480 分钟之间"])
  else ret ([], []).

Definition issue_lines (issues : list string) : string :=
  String.concat "" (map (fun issue => "  - " ++ issue ++ nl) issues).

Definition suggestion_lines (suggestions : list string) : string :=
  String.concat "" (map (fun suggestion => "  " ++ suggestion ++ nl) suggestions).

Definition echo_lines (d : dict) : string :=
  String.concat "" (map (fun kv => "  - " ++ fst kv ++ ": " ++ str (snd kv) ++ nl) d).

Definition validate_session_params (args : json) : Exc (bool * string) :=
  start_time <- get args "start_time" JNull ;;
  end_time <- get args "end_time" JNull ;;
  duration_minutes <- get args "duration_minutes" JNull ;;
  let '(issues1, suggestions1) := check_times start_time end_time in
  title <- get args "title" JNull ;;
  let '(issues2, suggestions2) := check_title title in
  '(issues3, suggestions3) <- check_duration duration_minutes ;;
  let issues := (issues1 ++ issues2 ++ issues3)%list in
  let suggestions := (suggestions1 ++ suggestions2 ++ suggestions3)%list in
  match issues with
  | [] => ret (false, "")
  | _ =>
      d <- items args ;;
      let confirm_msg := "[CONFIRM] 创建会话前需要确认以下信息：" ++ nl ++ nl in
      let confirm_msg := confirm_msg ++ "发现的问题：" ++ nl in
      let confirm_msg := confirm_msg ++ issue_lines issues in
      let confirm_msg := confirm_msg ++ nl ++ "建议的参数：" ++ nl in
      let confirm_msg := confirm_msg ++ suggestion_lines suggestions in
      let confirm_msg := confirm_msg ++ nl ++ "当前参数：" ++ nl in
      let confirm_msg := confirm_msg ++ echo_lines d in
      let confirm_msg := confirm_msg ++ nl ++ "请明确指定缺失的参数后重新调用 create_session。" in
      ret (true, confirm_msg)
  end.

(** The [try] block of [create_session_handler]. *)
Definition create_session_try (env : Env) (args : json) : Py string :=
  '(needs_confirm, confirm_msg) <- lift (validate_session_params args) ;;
  if needs_confirm : bool then ret confirm_msg
  else
    client <- lift (init env None) ;;
    session_type <- lift (get args "session_type" (JStr "focus")) ;;
    title <- lift (get args "title" JNull) ;;
    description <- lift (get args "description" JNull) ;;
    duration_minutes <- lift (get args "duration_minutes" (JNum 90)) ;;
    start_time <- lift (get args "start_time" JNull) ;;
    end_time <- lift (get args "end_time" JNull) ;;
    result <- create_session env client session_type title description
                duration_minutes start_time end_time ;;
    p <- lift (payload result "createSession") ;;
    has_errors <- lift (contains_key "errors" p) ;;
    if has_errors : bool then
      data <- lift (getitem result "data") ;;
      p <- lift (getitem data "createSession") ;;
      errors <- lift (getitem p "errors") ;;
      items <- lift (iterate errors) ;;
      ms <- lift (messages_of items) ;;
      ret ("[ERROR] Failed to create session: " ++ str (JArr ms))
    else
      p <- lift (payload result "createSession") ;;
      session <- lift (get p "session" JNull) ;;
      if negb (truthy session) then
        ret "[ERROR] Failed to create session: No response data"
      else
        session_id <- lift (getitem session "id") ;;
        session_title <- lift (get session "title" (JStr "New session")) ;;
        session_type <- lift (get session "type" (JStr "")) ;;
        start_time <- lift (get session "startTime" (JStr "")) ;;
        end_time <- lift (get session "endTime" (JStr "")) ;;
        ret ("[SUCCESS] Session created: " ++ str session_title ++ " (ID: "
             ++ str session_id ++ ", Type: " ++ str session_type ++ ", Duration: "
             ++ str start_time ++ " to " ++ str end_time ++ ")").

Definition create_session_handler (env : Env) (args : json) : Py string :=
  catch (create_session_try env args)
    (fun e => ret ("[ERROR] Failed to create session: " ++ str_exn e)).

(** The body of the [try] of [handle_call_tool]. *)
Definition dispatch (env : Env) (name : string) (arguments : json) : Py string :=
  let arguments := if truthy arguments then arguments else JObj [] in
  if String.eqb name "test_connection" then test_connection_handler env
  else if String.eqb name "list_projects" then list_projects_handler env arguments
  else if String.eqb name "create_project" then create_project_handler env arguments
  else if String.eqb name "start_session_timer" then start_session_timer_handler env arguments
  else if String.eqb name "stop_session_timer" then stop_session_timer_handler env arguments
  else if String.eqb name "get_current_session" then get_current_session_handler env
  else if String.eqb name "create_session" then create_session_handler env arguments
  else ret ("[ERROR] Unknown tool: " ++ name).

Definition handle_call_tool (env : Env) (name : string) (arguments : json)
  : Py (list TextContent) :=
  catch
    (result <- dispatch env name arguments ;;
     ret [mkTextContent "text" result])
    (fun e => ret [mkTextContent "text" ("[ERROR] Tool call failed: " ++ str_exn e)]).

(** One call of the host: the result it gets, or the exception that
    reaches it, and the requests sent meanwhile. *)
Definition call_tool (env : Env) (name : string) (arguments : json)
  : Exc (list TextContent) * list Request :=
  handle_call_tool env name arguments [].

(** An entry of the catalogue of tools, [mcp.types.Tool]. *)
Record Tool : Type := mkTool {
  name : string;
  description : string;
  inputSchema : json
}.

(** [handle_list_tools]: the catalogue the host is given. *)
Definition handle_list_tools : list Tool :=
  [mkTool "test_connection" "Test Rize API connection"
     (JObj [("type", JStr "object");
            ("properties", JObj []);
            ("required", JArr [])]);
   mkTool "list_projects" "Get list of projects"
     (JObj [("type", JStr "object");
            ("properties",
             JObj [("limit",
                    JObj [("type", JStr "integer");
                          ("description", JStr "Number of projects to return");
                          ("default", JNum 10)])]);
            ("required", JArr [])]);
   mkTool "create_project" "Create a new project"
     (JObj [("type", JStr "object");
            ("properties",
             JObj [("name",
                    JObj [("type", JStr "string");
                          ("description", JStr "Project name")]);
                   ("emoji",
                    JObj [("type", JStr "string");
                          ("description", JStr "Project emoji (optional)")])]);
            ("required", JArr [JStr "name"])]);
   mkTool "start_session_timer" "Start a work session timer"
     (JObj [("type", JStr "object");
            ("properties",
             JObj [("session_type",
                    JObj [("type", JStr "string");
                          ("description", JStr "Session type (FOCUS, BREAK, etc.)");
                          ("default", JStr "FOCUS")])]);
            ("required", JArr [])]);
   mkTool "stop_session_timer" "Stop the current session timer (requires confirmation)"
     (JObj [("type", JStr "object");
            ("properties",
             JObj [("confirm",
                    JObj [("type", JStr "boolean");
                          ("description",
                           JStr "Confirm that you want to stop the current session");
                          ("default", JBool false)])]);
            ("required", JArr [])]);
   mkTool "get_current_session" "Get current active session"
     (JObj [("type", JStr "object");
            ("properties", JObj []);
            ("required", JArr [])]);
   mkTool "create_session" "Create a new session with flexible time settings"
     (JObj [("type", JStr "object");
            ("properties",
             JObj [("session_type",
                    JObj [("type", JStr "string");
                          ("description", JStr "Session type (focus/break/meeting etc.)");
                          ("default", JStr "focus")]);
                   ("title",
                    JObj [("type", JStr "string");
                          ("description", JStr "Session title (optional)")]);
                   ("description",
                    JObj [("type", JStr "string");
                          ("description", JStr "Session description (optional)")]);
                   ("duration_minutes",
                    JObj [("type", JStr "integer");
                          ("description",
                           JStr "Session duration in minutes (used if specific times not provided)");
                          ("default", JNum 90);
                          ("minimum", JNum 5);
                          ("maximum", JNum 480)]);
                   ("start_time",
                    JObj [("type", JStr "string");
                          ("description",
                           JStr "Session start time (ISO8601 format, e.g., '2024-07-21T09:00:00' or '2024-07-21 09:00')")]);
                   ("end_time",
                    JObj [("type", JStr "string");
                          ("description",
                           JStr "Session end time (ISO8601 format, e.g., '2024-07-21T11:00:00' or '2024-07-21 11:00')")])]);
            ("required", JArr [])])].

End Server.

(** ** Vocabulary of the statements *)

Module Spec.
Import PyStr PyVal Datetime Rize Server.
Local Open Scope monad_scope.

(** A bounded universal quantifier that computes. *)
Fixpoint all_below (k : nat) (P : Z -> bool) : bool :=
  match k with
  | O => true
  | S k' => P (Z.of_nat k') && all_below k' P
  end.

(** What [month_and_day] owes its caller, as a test. *)
Definition month_day_ok (leapyear : bool) (n : Z) : bool :=
  let '(m, d) := month_and_day leapyear n in
  (1 <=? m) && (m <=? 12) && (1 <=? d)
  && (d <=? (if (m =? 2) && leapyear then 29 else index DAYS_IN_MONTH m))
  && (index DAYS_BEFORE_MONTH m + (if (2 <? m) && leapyear then 1 else 0) + d =? n + 1).

(** The request [execute_query] builds. *)
Definition request_of (self : RizeClient) (query : string) (variables : json) : Request :=
  mkRequest (base_url self) (client_headers self)
    (JObj [("query", JStr query);
           ("variables", if truthy variables then variables else JObj [])]).

(** The document and the variables of a request. *)
Definition document_of (r : Request) : option json := 
  match body r with
  | JObj d => lookup "query" d
  | _ => None
  end.

Definition variables_of (r : Request) : option json :=
  match body r with
  | JObj d => lookup "variables" d
  | _ => None
  end.

(** A request is a mutation when its document starts with the keyword,
    after the white space that leads it. *)
Definition is_mutation (r : Request) : bool :=
  match document_of r with
  | Some (JStr q) => startswith "mutation" (lstrip_space q)
  | _ => false
  end.

(** A typed argument as the Python object passed. *)
Definition of_str (s : string) : json := JStr s.
Definition of_int (n : Z) : json := JNum n.

Definition of_opt_str (s : option string) : json :=
  match s with
  | Some x => JStr x
  | None => JNull
  end.

Definition of_opt_int (n : option Z) : json :=
  match n with
  | Some x => JNum x
  | None => JNull
  end.

Definition provided {A : Type} (a : option A) : bool :=
  match a with
  | Some _ => true
  | None => false
  end.

(** The higher-level operations of the client with their typed arguments,
    as the signatures declare them. *)
Inductive operation : Type :=
| GetCurrentUser
| GetProjects (limit : Z)
| GetProject (project_id : string)
| CreateProject (name : string) (client_id color emoji : option string)
    (time_budget : option Z) (time_budget_interval : option string)
| UpdateProject (project_id : string) (name color emoji : option string)
    (time_budget : option Z) (time_budget_interval : option string)
| DeleteProject (project_id : string)
| GetTasks (limit : Z) (project_id : option string)
| GetTask (task_id : string)
| CreateTask (name : string) (project_id assignee_id color emoji : option string)
    (time_budget : option Z) (time_budget_interval : option string)
| UpdateTask (task_id : string) (name project_id assignee_id color emoji : option string)
    (time_budget : option Z) (time_budget_interval : option string)
| DeleteTask (task_id : string)
| GetSessions (limit : Z)
| GetCurrentSession
| CreateSession (session_type : string) (title description : option string)
    (duration_minutes : Z) (start_time end_time : option string)
| UpdateSession (session_id : string) (title description : option string)
| DeleteSession (session_id : string)
| StartSessionTimer (session_type : string)
| StopSessionTimer
| ExtendCurrentSession (minutes : Z).

Definition run (env : Env) (self : RizeClient) (op : operation) : Py json :=
  match op with
  | GetCurrentUser => get_current_user env self
  | GetProjects limit => get_projects env self (of_int limit)
  | GetProject project_id => get_project env self (of_str project_id)
  | CreateProject name client_id color emoji time_budget time_budget_interval =>
      create_project env self (of_str name) (of_opt_str client_id) (of_opt_str color)
        (of_opt_str emoji) (of_opt_int time_budget) (of_opt_str time_budget_interval)
  | UpdateProject project_id name color emoji time_budget time_budget_interval =>
      update_project env self (of_str project_id) (of_opt_str name) (of_opt_str color)
        (of_opt_str emoji) (of_opt_int time_budget) (of_opt_str time_budget_interval)
  | DeleteProject project_id => delete_project env self (of_str project_id)
  | GetTasks limit project_id => get_tasks env self (of_int limit) (of_opt_str project_id)
  | GetTask task_id => get_task env self (of_str task_id)
  | CreateTask name project_id assignee_id color emoji time_budget time_budget_interval =>
      create_task env self (of_str name) (of_opt_str project_id) (of_opt_str assignee_id)
        (of_opt_str color) (of_opt_str emoji) (of_opt_int time_budget)
        (of_opt_str time_budget_interval)
  | UpdateTask task_id name project_id assignee_id color emoji time_budget
      time_budget_interval =>
      update_task env self (of_str task_id) (of_opt_str name) (of_opt_str project_id)
        (of_opt_str assignee_id) (of_opt_str color) (of_opt_str emoji)
        (of_opt_int time_budget) (of_opt_str time_budget_interval)
  | DeleteTask task_id => delete_task env self (of_str task_id)
  | GetSessions limit => get_sessions env self (of_int limit)
  | GetCurrentSession => get_current_session env self
  | CreateSession session_type title description duration_minutes start_time end_time =>
      create_session env self (of_str session_type) (of_opt_str title)
        (of_opt_str description) (of_int duration_minutes) (of_opt_str start_time)
        (of_opt_str end_time)
  | UpdateSession session_id title description =>
      update_session env self (of_str session_id) (of_opt_str title) (of_opt_str description)
  | DeleteSession session_id => delete_session env self (of_str session_id)
  | StartSessionTimer session_type => start_session_timer env self (of_str session_type)
  | StopSessionTimer => stop_session_timer env self
  | ExtendCurrentSession minutes => extend_current_session env self (of_int minutes)
  end.

(** The (document, variables) pairs an operation sends. *)
Definition sent (env : Env) (self : RizeClient) (op : operation)
  : list (option json * option json) :=
  map (fun r => (document_of r, variables_of r)) (snd (run env self op [])).

(** The optional arguments that are passed on as they are: the key each
    one takes in the variables and whether the caller provided it.  The
    start and the end of [create_session] are not among them: the keys
    [startTime] and [endTime] carry computed values. *)
Definition optional_args (op : operation) : list (string * bool) :=
  match op with
  | CreateProject _ client_id color emoji time_budget time_budget_interval =>
      [("clientId", provided client_id); ("color", provided color);
       ("emoji", provided emoji); ("timeBudget", provided time_budget);
       ("timeBudgetInterval", provided time_budget_interval)]
  | UpdateProject _ name color emoji time_budget time_budget_interval =>
      [("name", provided name); ("color", provided color); ("emoji", provided emoji);
       ("timeBudget", provided time_budget);
       ("timeBudgetInterval", provided time_budget_interval)]
  | GetTasks _ project_id => [("projectId", provided project_id)]
  | CreateTask _ project_id assignee_id color emoji time_budget time_budget_interval =>
      [("projectId", provided project_id); ("assigneeId", provided assignee_id);
       ("color", provided color); ("emoji", provided emoji);
       ("timeBudget", provided time_budget);
       ("timeBudgetInterval", provided time_budget_interval)]
  | UpdateTask _ name project_id assignee_id color emoji time_budget time_budget_interval =>
      [("name", provided name); ("projectId", provided project_id);
       ("assigneeId", provided assignee_id); ("color", provided color);
       ("emoji", provided emoji); ("timeBudget", provided time_budget);
       ("timeBudgetInterval", provided time_budget_interval)]
  | CreateSession _ title description _ _ _ =>
      [("title", provided title); ("description", provided description)]
  | UpdateSession _ title description =>
      [("title", provided title); ("description", provided description)]
  | _ => []
  end.

(** The operations whose variables are made from a clock: the timer's
    [clientMutationId], and the window of a session created without a
    start and without an end. *)
Definition reads_clock (op : operation) : bool :=
  match op with
  | StartSessionTimer _ => true
  | CreateSession _ _ _ _ start_time end_time =>
      negb (truthy (of_opt_str start_time)) && negb (truthy (of_opt_str end_time))
  | _ => false
  end.

(** A key occurs somewhere in a JSON value. *)
Fixpoint has_key (k : string) (v : json) : bool :=
  match v with
  | JObj d => existsb (fun kv => String.eqb (fst kv) k || has_key k (snd kv)) d
  | JArr l => existsb (has_key k) l
  | _ => false
  end.

(** *** Decimal digits *)

(** The [w] low decimal digits of [n], most significant first. *)
Fixpoint fixed (w : nat) (n : Z) : string :=
  match w with
  | O => EmptyString
  | S w' => fixed w' (n / 10) ++ String (digit_char (n mod 10)) EmptyString
  end.

(** *** Shapes of time stamps *)

(** A text has a shape when it has its length and, place by place, a
    decimal digit where the shape has [D] and the character of the shape
    elsewhere. *)
Fixpoint matches_shape (shape s : string) : bool :=
  match shape, s with
  | EmptyString, EmptyString => true
  | String c shape', String x s' =>
      (if Ascii.eqb c "D" then is_digit x else Ascii.eqb c x) && matches_shape shape' s'
  | _, _ => false
  end.

(** ISO 8601 date and time with the UTC designator, with or without
    microseconds. *)
Definition is_iso8601_utc (s : string) : bool :=
  matches_shape "DDDD-DD-DDTDD:DD:DDZ" s
  || matches_shape "DDDD-DD-DDTDD:DD:DD.DDDDDDZ" s.



(** A date and time written in one of the listed forms: with [T] or a
    space between date and time, with or without the seconds, with or
    without the designator. *)
Definition render (sep : ascii) (with_seconds with_z : bool) (dt : datetime) : string :=
  fixed 4 (year dt) ++ "-" ++ fixed 2 (month dt) ++ "-" ++ fixed 2 (day dt)
  ++ String sep (fixed 2 (hour dt) ++ ":" ++ fixed 2 (minute dt)
                 ++ (if with_seconds then ":" ++ fixed 2 (second dt) else "")
                 ++ (if with_z then "Z" else "")).

(** A bound of the window that is absent or empty, or that one of the
    five formats of [parse_time_string] reads. *)
Definition by_formats (bound : json) : bool :=
  match bound with
  | JNull => true
  | JStr s =>
      String.eqb s ""
      || match try_formats (remove_char "Z" s) formats with
         | Some _ => true
         | None => false
         end
  | _ => false
  end.

(** *** Reading a field of two digits *)

(** The values a directive of two digits is written for. *)
Definition in_range (d : directive) (v : Z) : bool :=
  match d with
  | DY => false
  | Dm => (1 <=? v) && (v <=? 12)
  | Dd => (1 <=? v) && (v <=? 31)
  | DH => (0 <=? v) && (v <=? 23)
  | DM | DS => (0 <=? v) && (v <=? 59)
  end.

(** Whether the alternative of one character of a directive matches the
    first digit of such a value: [[1-9]] for the month and the day, any
    digit for the others. *)
Definition single (d : directive) (v : Z) : bool :=
  match d with
  | DY => false
  | Dm | Dd => 10 <=? v
  | DH | DM | DS => true
  end.

(** What follows a directive in a format does not start with a digit: the
    format ends, or goes on with white space or with a character that is
    not a digit. *)
Definition no_digit_start (items : list item) : bool :=
  match items with
  | [] => true
  | Lit c :: _ => negb (is_digit (lower c))
  | Spaces :: _ => true
  | Dir _ :: _ => false
  end.

(** *** GraphQL errors *)





(** *** The tools *)

(** [arguments or {}] *)
Definition normalized (arguments : json) : json :=
  if truthy arguments then arguments else JObj [].

(** [args.get(k, default)] on a dictionary. *)
Definition arg (d : dict) (k : string) (default : json) : json :=
  match lookup k d with
  | Some v => v
  | None => default
  end.

(** [result.get("data", {}).get("currentSession")] *)
Definition current_session_of (result : json) : Exc json :=
  data <- get result "data" (JObj []) ;;
  get data "currentSession" JNull.

(** The request of each of the two operations the stop tool uses. *)
Definition current_session_request (self : RizeClient) : Request :=
  request_of self Documents.get_current_session JNull.


(** The [try] block that runs for a tool name, on the normalised
    arguments, and the text its [except] clause puts before the message of
    the exception. *)
Definition tool_try (env : Env) (name : string) (arguments : json) : Py string :=
  let args := normalized arguments in
  if String.eqb name "test_connection" then test_connection_try env
  else if String.eqb name "list_projects" then list_projects_try env args
  else if String.eqb name "create_project" then create_project_try env args
  else if String.eqb name "start_session_timer" then start_session_timer_try env args
  else if String.eqb name "stop_session_timer" then stop_session_timer_try env args
  else if String.eqb name "get_current_session" then get_current_session_try env
  else if String.eqb name "create_session" then create_session_try env args
  else ret ("[ERROR] Unknown tool: " ++ name).

Definition error_label (name : string) : string :=
  if String.eqb name "test_connection" then "[ERROR] Connection test failed: "
  else if String.eqb name "list_projects" then "[ERROR] Failed to list projects: "
  else if String.eqb name "create_project" then "[ERROR] Failed to create project: "
  else if String.eqb name "start_session_timer" then "[ERROR] Failed to start timer: "
  else if String.eqb name "stop_session_timer" then "[ERROR] Failed to process stop request: "
  else if String.eqb name "get_current_session" then "[ERROR] Failed to get current session: "
  else if String.eqb name "create_session" then "[ERROR] Failed to create session: "
  else "[ERROR] Tool call failed: ".

Definition tool_names : list string :=
  ["test_connection"; "list_projects"; "create_project"; "start_session_timer";
   "stop_session_timer"; "get_current_session"; "create_session"].

Definition known_tool (name : string) : bool :=
  existsb (String.eqb name) tool_names.

(** *** More on the operations *)

(** The operations that read: the ones named [get_*]. *)
Definition is_read (op : operation) : bool :=
  match op with
  | GetCurrentUser | GetProjects _ | GetProject _ | GetTasks _ _ | GetTask _
  | GetSessions _ | GetCurrentSession => true
  | _ => false
  end.

(** The operations that test an optional argument with [is not None]: the
    three updates.  The others test its truth value. *)
Definition tests_none (op : operation) : bool :=
  match op with
  | UpdateProject _ _ _ _ _ _ | UpdateTask _ _ _ _ _ _ _ _ | UpdateSession _ _ _ => true
  | _ => false
  end.

(** The optional arguments that are passed on, each with its key and the
    object the caller gave for it. *)
Definition optional_values (op : operation) : list (string * json) :=
  match op with
  | CreateProject _ client_id color emoji time_budget time_budget_interval =>
      [("clientId", of_opt_str client_id); ("color", of_opt_str color);
       ("emoji", of_opt_str emoji); ("timeBudget", of_opt_int time_budget);
       ("timeBudgetInterval", of_opt_str time_budget_interval)]
  | UpdateProject _ name color emoji time_budget time_budget_interval =>
      [("name", of_opt_str name); ("color", of_opt_str color);
       ("emoji", of_opt_str emoji); ("timeBudget", of_opt_int time_budget);
       ("timeBudgetInterval", of_opt_str time_budget_interval)]
  | GetTasks _ project_id => [("projectId", of_opt_str project_id)]
  | CreateTask _ project_id assignee_id color emoji time_budget time_budget_interval =>
      [("projectId", of_opt_str project_id); ("assigneeId", of_opt_str assignee_id);
       ("color", of_opt_str color); ("emoji", of_opt_str emoji);
       ("timeBudget", of_opt_int time_budget);
       ("timeBudgetInterval", of_opt_str time_budget_interval)]
  | UpdateTask _ name project_id assignee_id color emoji time_budget time_budget_interval =>
      [("name", of_opt_str name); ("projectId", of_opt_str project_id);
       ("assigneeId", of_opt_str assignee_id); ("color", of_opt_str color);
       ("emoji", of_opt_str emoji); ("timeBudget", of_opt_int time_budget);
       ("timeBudgetInterval", of_opt_str time_budget_interval)]
  | CreateSession _ title description _ _ _ =>
      [("title", of_opt_str title); ("description", of_opt_str description)]
  | UpdateSession _ title description =>
      [("title", of_opt_str title); ("description", of_opt_str description)]
  | _ => []
  end.

(** The object under a key of the [input] of the variables, one level
    further down for [create_session], whose fields are under [args]. *)
Definition input_field (k : string) (vars : json) : option json :=
  match vars with
  | JObj top =>
      match lookup "input" top with
      | Some (JObj input) =>
          match lookup "args" input with
          | Some (JObj args) => lookup k args
          | _ => lookup k input
          end
      | _ => lookup k top
      end
  | _ => None
  end.

(** *** The catalogue of tools *)

Definition advertised : list string := map name handle_list_tools.

(** The properties of a tool's schema. *)
Definition properties_of (t : Tool) : dict :=
  match inputSchema t with
  | JObj schema =>
      match lookup "properties" schema with
      | Some (JObj properties) => properties
      | _ => []
      end
  | _ => []
  end.

(** The defaults a tool's schema declares: property and value. *)
Definition defaults_of (t : Tool) : list (string * json) :=
  flat_map (fun kv =>
              match snd kv with
              | JObj f =>
                  match lookup "default" f with
                  | Some v => [(fst kv, v)]
                  | None => []
                  end
              | _ => []
              end) (properties_of t).

(** The properties a tool's schema requires. *)
Definition required_of (t : Tool) : list string :=
  match inputSchema t with
  | JObj schema =>
      match lookup "required" schema with
      | Some (JArr l) =>
          flat_map (fun v => match v with JStr s => [s] | _ => [] end) l
      | _ => []
      end
  | _ => []
  end.

(** *** The listing of the projects *)

(** [result.get("data", {}).get("projects", {}).get("edges", [])] *)
Definition edges_of (result : json) : Exc json :=
  data <- get result "data" (JObj []) ;;
  container <- get data "projects" (JObj []) ;;
  get container "edges" (JArr []).

(** What [list_projects_handler] reads from an edge: the emoji, the name
    and the id of its node. *)
Definition project_of (edge : json) : option (json * json * json) :=
  match edge with
  | JObj e =>
      match lookup "node" e with
      | Some (JObj p) =>
          match lookup "name" p, lookup "id" p with
          | Some n, Some i => Some (arg p "emoji" (JStr ""), n, i)
          | _, _ => None
          end
      | _ => None
      end
  | _ => None
  end.

(** The line of the listing for a project. *)
Definition project_line (p : json * json * json) : string :=
  let '(emoji, n, i) := p in
  str emoji ++ " " ++ str n ++ " (ID: " ++ str i ++ ")".

(** The documents a tool can send: the one of the operation it stands
    for; for the stop tool, the mutation with [confirm] and the query for
    the current session without it. *)
Definition tool_documents (tool : string) (arguments : json) : list string :=
  if String.eqb tool "test_connection" then [Documents.test_connection]
  else if String.eqb tool "list_projects" then [Documents.get_projects]
  else if String.eqb tool "create_project" then [Documents.create_project]
  else if String.eqb tool "start_session_timer" then [Documents.start_session_timer]
  else if String.eqb tool "stop_session_timer" then
    match normalized arguments with
    | JObj d =>
        if truthy (arg d "confirm" (JBool false))
        then [Documents.stop_session_timer]
        else [Documents.get_current_session]
    | _ => []
    end
  else if String.eqb tool "get_current_session" then [Documents.get_current_session]
  else if String.eqb tool "create_session" then [Documents.create_session]
  else [].

(** A computation that sends nothing. *)
Definition quiet {A : Type} (c : Py A) : Prop := forall log, snd (c log) = log.

(** A computation that sends nothing, or one request of the client made
    from the settings, with one of the documents [docs]. *)
Definition one_request {A : Type} (env : Env) (docs : list string) (c : Py A) : Prop :=
  forall log,
    snd (c log) = log
    \/ exists client query variables,
         init env None = inr client
         /\ In query docs
         /\ snd (c log) = (log ++ [request_of client query variables])%list.

(** *** The answers of the tools *)

(** The tags an answer starts with. *)
Definition tags : list string := ["[OK]"; "[INFO]"; "[SUCCESS]"; "[CONFIRM]"; "[ERROR]"].

Definition tagged (t : string) : bool := existsb (fun tag => startswith tag t) tags.

(** An answer that reports that the operation was carried out. *)
Definition reports_success (t : string) : bool :=
  startswith "[SUCCESS]" t || startswith "[OK]" t.

(** Every value a computation returns satisfies [P]. *)
Definition returns_only {A : Type} (P : A -> Prop) (c : Py A) : Prop :=
  forall log a log', c log = (inr a, log') -> P a.

(** Every text the computation returns is tagged, and a text that reports
    a success is returned only after a query of the client has returned a
    body, with nothing else sent. *)
Definition honest (env : Env) (c : Py string) : Prop :=
  forall log t log',
    c log = (inr t, log') ->
    tagged t = true
    /\ (reports_success t = true ->
        exists client query variables result,
          execute_query env client query variables log = (inr result, log')).


(** The lines of the listing of the projects, one for each edge. *)
Definition listing (edges : list json) : string :=
  String.concat ""
    (map (fun edge =>
            match project_of edge with
            | Some p => project_line p ++ nl
            | None => ""
            end) edges).


(** *** The end of a text *)

(** The last character of a text is [c], in either case. *)
Fixpoint ends_with_ci (c : ascii) (s : string) : bool :=
  match s with
  | EmptyString => false
  | String x EmptyString => Ascii.eqb (lower c) (lower x)
  | String _ s' => ends_with_ci c s'
  end.

(** [r] is what is left of [s] after some characters are taken from its
    start. *)
Fixpoint is_suffix (r s : string) : bool :=
  String.eqb r s
  || match s with
     | EmptyString => false
     | String _ s' => is_suffix r s'
     end.

(** The two error texts of the server that stand in code no call reaches:
    the label of the [except] clause of the dispatcher itself, and the
    label of the check of [list_projects_handler] for [errors]. *)
Definition never_returned (t : string) : bool :=
  startswith "[ERROR] Tool call failed" t || startswith "[ERROR] Failed to get projects" t.

(** *** A concrete environment, to run the program on *)

Definition example_token : string := "rize_live_0123456789abcdef".

Definition example_now : datetime := mkDatetime 2025 7 21 14 0 0 0 None.

Definition example_env (upstream : Request -> Outcome) : Env :=
  mkEnv (Some example_token) None example_now 1753106400 fromisoformat_37 upstream.

(** The same environment one second later. *)
Definition example_env_later (upstream : Request -> Outcome) : Env :=
  mkEnv (Some example_token) None (mkDatetime 2025 7 21 14 0 1 0 None) 1753106401
    fromisoformat_37 upstream.

Definition example_client : RizeClient :=
  mkClient example_token "https://api.rize.io/api/v1/graphql"
    [("Authorization", "Bearer " ++ example_token);
     ("Content-Type", "application/json");
     ("User-Agent", "Rize-AI-Scheduler/1.0")].

(** A service that answers every request with status 200 and the same
    [data]. *)
Definition answers (data : json) : Request -> Outcome :=
  fun _ => Returns (mkResponse 200 "" (Json (JObj [("data", data)]))).

(** A service that answers every request with the same status and body. *)
Definition answers_status (status : Z) (body : string) : Request -> Outcome :=
  fun _ => Returns (mkResponse status body (NotJson "Expecting value")).

(** A network on which every request fails the same way. *)
Definition fails (e : exn) : Request -> Outcome := fun _ => Raises e.

(** A session as the service describes it, and a service that reports it
    as the current one and as the one it stopped. *)
Definition example_session : dict :=
  [("id", JStr "sess_42"); ("title", JStr "Deep work");
   ("startTime", JStr "2025-07-21T14:00:00Z"); ("endTime", JStr "2025-07-21T15:30:00Z")].

Definition example_data : json :=
  JObj [("currentSession", JObj example_session);
        ("stopSessionTimer", JObj [("session", JObj example_session)]);
        ("createSession", JObj [("session", JObj example_session)])].

(** An environment without a token. *)
Definition example_env_no_token (upstream : Request -> Outcome) : Env :=
  mkEnv None None example_now 1753106400 fromisoformat_37 upstream.

End Spec.

(** * Properties *)

Import PyStr PyVal Datetime Rize Server Spec.
Local Open Scope monad_scope.

(** ** The calendar *)

Lemma all_below_spec k P :
  all_below k P = true -> forall z, 0 <= z < Z.of_nat k -> P z = true.
Proof.
  induction k as [|k IH]; simpl; intros H z Hz; [lia|].
  apply andb_true_iff in H as [H1 H2].
  destruct (Z.eq_dec z (Z.of_nat k)) as [->|Hne]; [exact H1|].
  apply IH; [exact H2|lia].
Qed.

Lemma month_and_day_ok leapyear n :
  0 <= n < 365 -> month_day_ok leapyear n = true.
Proof.
  intros Hn. destruct leapyear.
  - apply (all_below_spec 365 (month_day_ok true)); [vm_compute; reflexivity | lia].
  - apply (all_below_spec 365 (month_day_ok false)); [vm_compute; reflexivity | lia].
Qed.

Lemma days_before_year_cycles a b c d :
  0 <= a -> 0 <= b <= 3 -> 0 <= c <= 24 -> 0 <= d <= 3 ->
  days_before_year (400 * a + 100 * b + 4 * c + d + 1)
  = 146097 * a + 36524 * b + 1461 * c + 365 * d.
Proof.
  intros. unfold days_before_year.
  replace (400 * a + 100 * b + 4 * c + d + 1 - 1) with (400 * a + 100 * b + 4 * c + d) by lia.
  Z.div_mod_to_equations. lia.
Qed.

Lemma is_leap_cycles a b c d :
  0 <= a -> 0 <= b <= 3 -> 0 <= c <= 24 -> 0 <= d <= 3 ->
  is_leap (400 * a + 100 * b + 4 * c + d + 1)
  = (d =? 3) && (negb (c =? 24) || (b =? 3)).
Proof.
  intros. unfold is_leap.
  set (y := 400 * a + 100 * b + 4 * c + d + 1).
  assert (H4 : (y mod 4 =? 0) = (d =? 3)).
  { destruct (Z.eqb_spec (y mod 4) 0), (Z.eqb_spec d 3); try reflexivity;
      exfalso; subst y; Z.div_mod_to_equations; lia. }
  assert (H100 : (y mod 100 =? 0) = (d =? 3) && (c =? 24)).
  { destruct (Z.eqb_spec (y mod 100) 0), (Z.eqb_spec d 3), (Z.eqb_spec c 24);
      try reflexivity; exfalso; subst y; Z.div_mod_to_equations; lia. }
  assert (H400 : (y mod 400 =? 0) = (d =? 3) && (c =? 24) && (b =? 3)).
  { destruct (Z.eqb_spec (y mod 400) 0), (Z.eqb_spec d 3), (Z.eqb_spec c 24),
      (Z.eqb_spec b 3); try reflexivity; exfalso; subst y; Z.div_mod_to_equations; lia. }
  rewrite H4, H100, H400.
  destruct (d =? 3), (c =? 24), (b =? 3); reflexivity.
Qed.

Lemma ord2ymd_spec n :
  1 <= n <= MAXORDINAL ->
  let '(y, m, d) := ord2ymd n in
  1 <= y <= 9999 /\ 1 <= m <= 12 /\ 1 <= d <= days_in_month y m /\ ymd2ord y m d = n.
Proof.
  unfold MAXORDINAL. intros Hn. unfold ord2ymd, DI400Y, DI100Y, DI4Y.
  pose proof (Z.div_mod (n - 1) 146097 ltac:(lia)) as E1.
  pose proof (Z.mod_pos_bound (n - 1) 146097 ltac:(lia)) as B1.
  set (a := (n - 1) / 146097) in *. set (r1 := (n - 1) mod 146097) in *.
  pose proof (Z.div_mod r1 36524 ltac:(lia)) as E2.
  pose proof (Z.mod_pos_bound r1 36524 ltac:(lia)) as B2.
  set (b := r1 / 36524) in *. set (r2 := r1 mod 36524) in *.
  pose proof (Z.div_mod r2 1461 ltac:(lia)) as E3.
  pose proof (Z.mod_pos_bound r2 1461 ltac:(lia)) as B3.
  set (c := r2 / 1461) in *. set (r3 := r2 mod 1461) in *.
  pose proof (Z.div_mod r3 365 ltac:(lia)) as E4.
  pose proof (Z.mod_pos_bound r3 365 ltac:(lia)) as B4.
  set (d := r3 / 365) in *. set (r4 := r3 mod 365) in *.
  clearbody a r1 b r2 c r3 d r4.
  assert (Ha : 0 <= a <= 24) by lia.
  assert (Hb : 0 <= b <= 4) by lia.
  assert (Hc : 0 <= c <= 24) by lia.
  assert (Hd : 0 <= d <= 4) by lia.
  destruct (Z.eqb_spec d 4) as [Hd4|Hd4]; simpl orb.
  - (* the last day of a four-year cycle *)
    assert (r4 = 0) by lia. assert (c <= 23) by lia. assert (b <= 3) by lia.
    replace (a * 400 + 1 + b * 100 + c * 4 + d - 1)
      with (400 * a + 100 * b + 4 * c + 3 + 1) by lia.
    unfold ymd2ord, days_before_month, days_in_month.
    rewrite days_before_year_cycles by lia.
    rewrite is_leap_cycles by lia.
    replace (c =? 24) with false by (symmetry; apply Z.eqb_neq; lia).
    change (12 =? 2) with false. change (2 <? 12) with true. change (3 =? 3) with true.
    change (index DAYS_BEFORE_MONTH 12) with 334.
    change (index DAYS_IN_MONTH 12) with 31.
    cbn [andb orb negb]. lia.
  - destruct (Z.eqb_spec b 4) as [Hb4|Hb4].
    + (* the last day of a 400-year cycle *)
      assert (r2 = 0) by lia. assert (c = 0) by lia. assert (d = 0) by lia.
      subst b c d.
      replace (a * 400 + 1 + 4 * 100 + 0 * 4 + 0 - 1)
        with (400 * a + 100 * 3 + 4 * 24 + 3 + 1) by lia.
      unfold ymd2ord, days_before_month, days_in_month.
      rewrite days_before_year_cycles by lia.
      rewrite is_leap_cycles by lia.
      change (12 =? 2) with false. change (2 <? 12) with true. change (3 =? 3) with true.
      change (24 =? 24) with true.
      change (index DAYS_BEFORE_MONTH 12) with 334.
      change (index DAYS_IN_MONTH 12) with 31.
      cbn [andb orb negb]. lia.
    + assert (Hleap : is_leap (400 * a + 100 * b + 4 * c + d + 1)
                      = (d =? 3) && (negb (c =? 24) || (b =? 3)))
        by (apply is_leap_cycles; lia).
      set (leapyear := (d =? 3) && (negb (c =? 24) || (b =? 3))) in *.
      pose proof (month_and_day_ok leapyear r4 ltac:(lia)) as Hmd.
      unfold month_day_ok in Hmd.
      destruct (month_and_day leapyear r4) as [m dd].
      replace (a * 400 + 1 + b * 100 + c * 4 + d)
        with (400 * a + 100 * b + 4 * c + d + 1) by lia.
      repeat (apply andb_true_iff in Hmd as [Hmd ?]).
      unfold ymd2ord, days_before_month, days_in_month.
      rewrite days_before_year_cycles by lia.
      rewrite Hleap.
      repeat match goal with
      | H : (_ <=? _) = true |- _ => apply Z.leb_le in H
      | H : (_ =? _) = true |- _ => apply Z.eqb_eq in H
      end.
      lia.
Qed.

Lemma check_fields_true y m d hh mm ss us :
  check_fields y m d hh mm ss us = true <->
  (1 <= y <= 9999 /\ 1 <= m <= 12 /\ 1 <= d <= days_in_month y m /\
   0 <= hh <= 23 /\ 0 <= mm <= 59 /\ 0 <= ss <= 59 /\ 0 <= us <= 999999).
Proof.
  unfold check_fields, MINYEAR, MAXYEAR.
  rewrite !andb_true_iff, !Z.leb_le. tauto.
Qed.

Lemma add_spec dt delta e :
  add dt delta = inr e ->
  to_us e = to_us dt + delta /\ valid e = true /\ tzinfo e = tzinfo dt.
Proof.
  unfold add, check_delta.
  destruct (Z.abs ((to_us dt + delta) / US_PER_DAY) <=? 999999999); [|discriminate].
  set (total := to_us dt + delta).
  destruct ((0 <? total / US_PER_DAY) && (total / US_PER_DAY <=? MAXORDINAL)) eqn:Hrange;
    [|discriminate].
  apply andb_true_iff in Hrange as [H0 H1].
  apply Z.ltb_lt in H0. apply Z.leb_le in H1.
  pose proof (ord2ymd_spec (total / US_PER_DAY) ltac:(lia)) as Hord.
  destruct (ord2ymd (total / US_PER_DAY)) as [[y m] d].
  destruct Hord as (Hy & Hm & Hd & Hymd).
  intros [= <-].
  unfold US_PER_DAY in *.
  pose proof (Z.div_mod total 86400000000 ltac:(lia)) as E1.
  pose proof (Z.mod_pos_bound total 86400000000 ltac:(lia)) as B1.
  set (days := total / 86400000000) in *. set (rem := total mod 86400000000) in *.
  pose proof (Z.div_mod rem 1000000 ltac:(lia)) as E2.
  pose proof (Z.mod_pos_bound rem 1000000 ltac:(lia)) as B2.
  set (secs := rem / 1000000) in *. set (us := rem mod 1000000) in *.
  pose proof (Z.div_mod secs 3600 ltac:(lia)) as E3.
  pose proof (Z.mod_pos_bound secs 3600 ltac:(lia)) as B3.
  set (hh := secs / 3600) in *. set (rem2 := secs mod 3600) in *.
  pose proof (Z.div_mod rem2 60 ltac:(lia)) as E4.
  pose proof (Z.mod_pos_bound rem2 60 ltac:(lia)) as B4.
  set (mm := rem2 / 60) in *. set (ss := rem2 mod 60) in *.
  clearbody days rem secs us hh rem2 mm ss.
  split; [|split; [|reflexivity]].
  - unfold to_us at 1, toordinal. cbn [year month day hour minute second microsecond].
    rewrite Hymd. unfold US_PER_DAY. lia.
  - unfold valid. cbn [year month day hour minute second microsecond].
    apply check_fields_true. lia.
Qed.

Lemma sub_delta_spec dt delta e :
  sub_delta dt delta = inr e ->
  to_us e = to_us dt - delta /\ valid e = true /\ tzinfo e = tzinfo dt.
Proof.
  unfold sub_delta, check_delta.
  destruct (Z.abs (- delta / US_PER_DAY) <=? 999999999); [|discriminate].
  intros H. apply add_spec in H. destruct H as (H1 & H2 & H3).
  split; [lia | split; assumption].
Qed.

(** Whenever the sum stays within the years 1 to 9999, [add] returns. *)
Lemma add_returns dt delta :
  US_PER_DAY <= to_us dt + delta < (MAXORDINAL + 1) * US_PER_DAY ->
  exists e, add dt delta = inr e.
Proof.
  unfold add, check_delta, US_PER_DAY, MAXORDINAL. intros H.
  set (total := to_us dt + delta) in *.
  assert (1 <= total / 86400000000 <= 3652059).
  { split.
    - apply Z.div_le_lower_bound; lia.
    - apply Z.lt_succ_r. apply Z.div_lt_upper_bound; lia. }
  replace (Z.abs (total / 86400000000) <=? 999999999) with true
    by (symmetry; apply Z.leb_le; lia).
  replace (0 <? total / 86400000000) with true by (symmetry; apply Z.ltb_lt; lia).
  replace (total / 86400000000 <=? 3652059) with true by (symmetry; apply Z.leb_le; lia).
  cbn [andb]. destruct (ord2ymd (total / 86400000000)) as [[y m] d]. eauto.
Qed.


Lemma check_delta_inr us z : check_delta us = inr z -> z = us.
Proof.
  unfold check_delta. destruct (Z.abs (us / US_PER_DAY) <=? 999999999); congruence.
Qed.

(** ** Inversion of the monads *)

Lemma bind_inr {A B : Type} (c : Exc A) (f : A -> Exc B) (b : B) :
  bind c f = inr b -> exists a, c = inr a /\ f a = inr b.
Proof. destruct c as [e|a]; cbn; [discriminate|eauto]. Qed.

(** ** The window of a created session *)




(** The window is resolved whenever the bound given is read and the other
    bound falls within the years 1 to 9999; here with the start given. *)
Lemma resolve_window_returns env n start_time end_time start_dt :
  truthy start_time = true -> truthy end_time = false ->
  parse_time_string env start_time = inr start_dt ->
  Z.abs (n * 60000000 / US_PER_DAY) <= 999999999 ->
  US_PER_DAY <= to_us start_dt + n * 60000000 < (MAXORDINAL + 1) * US_PER_DAY ->
  exists end_dt,
    resolve_window env (JNum n) start_time end_time = inr (start_dt, end_dt).
Proof.
  intros Hs He Hp Hd Hr. unfold resolve_window. rewrite Hs, He, Hp.
  cbn [andb bind Monad_Exc timedelta_minutes]. unfold check_delta at 1.
  replace (Z.abs (n * 60000000 / US_PER_DAY) <=? 999999999) with true
    by (symmetry; apply Z.leb_le; exact Hd).
  destruct (add_returns start_dt (n * 60000000) Hr) as [end_dt ->].
  exists end_dt. reflexivity.
Qed.

(** ** One query *)

(** What [execute_query] does, by what comes back from the network. *)
Lemma execute_query_spec env self query variables log :
  execute_query env self query variables log
  = (match upstream env (request_of self query variables) with
     | Raises e => inl (reraise self e)
     | Returns r =>
         if (200 <=? status_code r) && (status_code r <=? 299) then
           match decoded r with
           | Json result =>
               match check_graphql_errors result with
               | inl e => inl (reraise self e)
               | inr v => inr v
               end
           | NotJson err => inl (reraise self (ValueError err))
           end
         else inl (reraise self (HttpxHTTPStatusError "HTTP status error"
                                   (status_code r) (Rize.text r)))
     end,
     (log ++ [request_of self query variables])%list).
Proof.
  unfold execute_query, request_of.
  cbn [catch MonadExc_Py bind Monad_Py]. unfold post.
  destruct (upstream env _) as [e|r]; [reflexivity|].
  unfold raise_for_status.
  destruct ((200 <=? status_code r) && (status_code r <=? 299)); [|reflexivity].
  cbn [ret Monad_Py]. unfold response_json.
  destruct (decoded r) as [result|err]; [|reflexivity].
  cbn [ret Monad_Py]. unfold lift.
  destruct (check_graphql_errors result); reflexivity.
Qed.

Lemma execute_query_sends env self query variables log :
  snd (execute_query env self query variables log)
  = (log ++ [request_of self query variables])%list.
Proof. rewrite execute_query_spec. reflexivity. Qed.

(** C5.  [execute_query] classifies a failure by what the transport did.
    A connect timeout, any other network failure and a status of 500 or
    more raise [ConnectionError].  A status 401 raises a [ValueError] whose
    message shows the token as its first 8 characters, three dots and its
    last 4 characters.  A status 429 raises a [ValueError] of its own, not
    the [ConnectionError] of a status 500.  Any other status outside 200 to
    299 raises a [ValueError] that reports the status code and the raw
    body. *)
Theorem execute_query_failure_classes env self query variables log :
  let outcome := upstream env (request_of self query variables) in
  let result := fst (execute_query env self query variables log) in
  (forall m, outcome = Raises (HttpxConnectTimeout m) ->
     result = inl (ConnectionError "🔌 连接Rize API超时，请检查网络连接")) /\
  (forall m, outcome = Raises (HttpxRequestError m) ->
     result = inl (ConnectionError ("🚫 网络请求失败: " ++ m))) /\
  (forall r, outcome = Returns r -> 500 <= status_code r ->
     result = inl (ConnectionError
                     ("🔥 Rize服务器错误 (" ++ str_int (status_code r) ++ ")"))) /\
  (forall r, outcome = Returns r -> status_code r = 401 ->
     result = inl (ValueError ("🔐 API认证失败，请检查token是否正确
当前token: " ++ take 8 (api_token self) ++ "..." ++ last_n 4 (api_token self)))) /\
  (forall r, outcome = Returns r -> status_code r = 429 ->
     result = inl (ValueError "⏱️ API请求频率超限，请稍后重试")) /\
  (forall r, outcome = Returns r ->
     status_code r < 200 \/ 300 <= status_code r < 500 ->
     status_code r <> 401 -> status_code r <> 429 ->
     result = inl (ValueError
                     ("❌ HTTP错误 " ++ str_int (status_code r) ++ ": " ++ Rize.text r))).
Proof.
  intros outcome result. subst outcome result.
  rewrite execute_query_spec. cbn [fst].
  repeat split.
  - intros m ->. reflexivity.
  - intros m ->. reflexivity.
  - intros r -> H.
    replace ((200 <=? status_code r) && (status_code r <=? 299)) with false
      by (symmetry; apply andb_false_iff; right; apply Z.leb_gt; lia).
    unfold reraise.
    replace (status_code r =? 401) with false by (symmetry; apply Z.eqb_neq; lia).
    replace (status_code r =? 429) with false by (symmetry; apply Z.eqb_neq; lia).
    replace (500 <=? status_code r) with true by (symmetry; apply Z.leb_le; lia).
    reflexivity.
  - intros r -> H. rewrite H. reflexivity.
  - intros r -> H. rewrite H. reflexivity.
  - intros r -> H H401 H429.
    replace ((200 <=? status_code r) && (status_code r <=? 299)) with false
      by (symmetry; apply andb_false_iff; destruct H;
          [left; apply Z.leb_gt; lia | right; apply Z.leb_gt; lia]).
    unfold reraise.
    replace (status_code r =? 401) with false by (symmetry; apply Z.eqb_neq; lia).
    replace (status_code r =? 429) with false by (symmetry; apply Z.eqb_neq; lia).
    replace (500 <=? status_code r) with false by (symmetry; apply Z.leb_gt; lia).
    reflexivity.
Qed.

Lemma execute_query_failure_classes_witness :
  fst (execute_query (example_env (answers_status 429 "slow down")) example_client
         "query" JNull [])
  = inl (ValueError "⏱️ API请求频率超限，请稍后重试")
  /\ fst (execute_query (example_env (answers_status 500 "")) example_client
            "query" JNull [])
     = inl (ConnectionError "🔥 Rize服务器错误 (500)")
  /\ fst (execute_query (example_env (answers_status 401 "")) example_client
            "query" JNull [])
     = inl (ValueError "🔐 API认证失败，请检查token是否正确
当前token: rize_liv...cdef")
  /\ fst (execute_query (example_env (answers_status 404 "not found")) example_client
            "query" JNull [])
     = inl (ValueError "❌ HTTP错误 404: not found").
Proof.
  split; [|split; [|split]].
  - destruct (execute_query_failure_classes (example_env (answers_status 429 "slow down"))
                example_client "query" JNull []) as (_ & _ & _ & _ & H & _).
    apply (H (mkResponse 429 "slow down" (NotJson "Expecting value"))); reflexivity.
  - destruct (execute_query_failure_classes (example_env (answers_status 500 ""))
                example_client "query" JNull []) as (_ & _ & H & _).
    apply (H (mkResponse 500 "" (NotJson "Expecting value"))); [reflexivity|cbn; lia].
  - destruct (execute_query_failure_classes (example_env (answers_status 401 ""))
                example_client "query" JNull []) as (_ & _ & _ & H & _).
    apply (H (mkResponse 401 "" (NotJson "Expecting value"))); reflexivity.
  - destruct (execute_query_failure_classes (example_env (answers_status 404 "not found"))
                example_client "query" JNull []) as (_ & _ & _ & _ & _ & H).
    apply (H (mkResponse 404 "not found" (NotJson "Expecting value")));
      [reflexivity|cbn; lia|cbn; lia|cbn; lia].
Defined.

(** ** Strings *)

Lemma append_nil_r s : s ++ "" = s.
Proof. induction s; simpl; congruence. Qed.

Lemma append_assoc (a b c : string) : (a ++ b) ++ c = a ++ (b ++ c).
Proof. induction a; simpl; congruence. Qed.







(** ** GraphQL errors in a decoded body *)











Lemma status_2xx r :
  200 <= status_code r <= 299 ->
  (200 <=? status_code r) && (status_code r <=? 299) = true.
Proof. intros H. apply andb_true_iff. split; apply Z.leb_le; lia. Qed.



(** ** The operations of the client *)

(** The one pair an [execute_query] sends. *)
Lemma sent_pair env self query variables :
  map (fun r => (document_of r, variables_of r))
    (snd (execute_query env self query variables []))
  = [(Some (JStr query),
      Some (if truthy variables then variables else JObj []))].
Proof. rewrite execute_query_sends. reflexivity. Qed.

(** C10.  The [session_type] given to [start_session_timer] has no effect
    on what is sent: the call is the same computation for any two values,
    its document is the fixed text of the mutation, and its variables are an
    [input] object with the one key [clientMutationId].  The handler of the
    tool reads nothing else from its arguments, so it does the same for any
    two dictionaries of arguments. *)
Theorem start_session_timer_ignores_session_type env self t1 t2 :
  start_session_timer env self t1 = start_session_timer env self t2
  /\ map (fun r => (document_of r, variables_of r))
       (snd (start_session_timer env self t1 []))
     = [(Some (JStr Documents.start_session_timer),
         Some (JObj [("input",
                      JObj [("clientMutationId",
                             JStr ("start_timer_" ++ str_int (time env)))])]))]
  /\ (forall args1 args2 log,
        start_session_timer_handler env (JObj args1) log
        = start_session_timer_handler env (JObj args2) log).
Proof.
  split; [reflexivity|split].
  - unfold start_session_timer. rewrite sent_pair. reflexivity.
  - intros args1 args2 log. unfold start_session_timer_handler, start_session_timer_try.
    cbn [catch MonadExc_Py bind Monad_Py lift get].
    destruct (init env None); reflexivity.
Qed.

(** The claim of C9 as it is stated fails: the same call of
    [start_session_timer] one second later sends other variables. *)
Lemma start_session_timer_depends_on_clock :
  sent (example_env (answers JNull)) example_client (StartSessionTimer "FOCUS")
  <> sent (example_env_later (answers JNull)) example_client (StartSessionTimer "FOCUS").
Proof. vm_compute. discriminate. Qed.

Lemma parse_time_string_ext env1 env2 s :
  fromisoformat env1 = fromisoformat env2 ->
  parse_time_string env1 s = parse_time_string env2 s.
Proof. intros H. unfold parse_time_string. rewrite H. reflexivity. Qed.

Lemma resolve_window_ext env1 env2 duration start_time end_time :
  fromisoformat env1 = fromisoformat env2 ->
  (truthy start_time = false -> truthy end_time = false -> now env1 = now env2) ->
  resolve_window env1 duration start_time end_time
  = resolve_window env2 duration start_time end_time.
Proof.
  intros Hf Hn. unfold resolve_window.
  rewrite !(parse_time_string_ext env1 env2) by exact Hf.
  destruct (truthy start_time), (truthy end_time); cbn [andb]; try reflexivity.
  rewrite Hn by reflexivity. reflexivity.
Qed.

Lemma sent_create_session env self session_type title description duration
  start_time end_time :
  map (fun r => (document_of r, variables_of r))
    (snd (create_session env self session_type title description duration
            start_time end_time []))
  = match resolve_window env duration start_time end_time with
    | inl _ => []
    | inr (start_dt, end_dt) =>
        [(Some (JStr Documents.create_session),
          Some (JObj [("input",
                       JObj [("args",
                              JObj (set_if (truthy description) "description" description
                                      (set_if (truthy title) "title" title
                                         [("startTime", JStr (isoformat start_dt ++ "Z"));
                                          ("endTime", JStr (isoformat end_dt ++ "Z"))])))])]))]
    end.
Proof.
  unfold create_session. cbn [bind Monad_Py lift].
  destruct (resolve_window env duration start_time end_time) as [e|[start_dt end_dt]];
    [reflexivity|].
  rewrite sent_pair. reflexivity.
Qed.

Lemma sent_ext env1 env2 self op :
  fromisoformat env1 = fromisoformat env2 ->
  (reads_clock op = true -> time env1 = time env2 /\ now env1 = now env2) ->
  sent env1 self op = sent env2 self op.
Proof.
  intros Hf Hc. unfold sent.
  destruct op; cbn [run];
    try (unfold get_current_user, get_projects, get_project, create_project,
           update_project, delete_project, get_tasks, get_task, create_task,
           update_task, delete_task, get_sessions, get_current_session,
           update_session, delete_session, stop_session_timer,
           extend_current_session;
         rewrite !sent_pair; reflexivity).
  - rewrite !sent_create_session.
    rewrite (resolve_window_ext env1 env2) ; [reflexivity|exact Hf|].
    intros Hs He. apply Hc. cbn [reads_clock]. rewrite Hs, He. reflexivity.
  - unfold start_session_timer. rewrite !sent_pair.
    destruct (Hc eq_refl) as [-> _]. reflexivity.
Qed.

Lemma has_key_cons k k0 v d :
  has_key k (JObj ((k0, v) :: d)) = true ->
  String.eqb k0 k = true \/ has_key k v = true \/ has_key k (JObj d) = true.
Proof.
  cbn [has_key existsb fst snd]. intros H.
  apply orb_true_iff in H as [H|H]; [|auto].
  apply orb_true_iff in H as [H|H]; auto.
Qed.

Lemma has_key_tail k k0 v d :
  has_key k (JObj d) = true -> has_key k (JObj ((k0, v) :: d)) = true.
Proof.
  cbn [has_key existsb fst snd]. intros ->. apply orb_true_r.
Qed.

Lemma has_key_head k k0 v d :
  String.eqb k0 k = true \/ has_key k v = true ->
  has_key k (JObj ((k0, v) :: d)) = true.
Proof.
  cbn [has_key existsb fst snd]. intros [->| ->]; [reflexivity|].
  rewrite orb_true_r. reflexivity.
Qed.

Lemma has_key_setitem k k0 v d :
  has_key k (JObj (setitem k0 v d)) = true ->
  String.eqb k0 k = true \/ has_key k v = true \/ has_key k (JObj d) = true.
Proof.
  induction d as [|[k1 v1] d IH]; cbn [setitem].
  - apply has_key_cons.
  - destruct (String.eqb k0 k1) eqn:E.
    + intros H. apply has_key_cons in H as [H|[H|H]]; auto.
      right. right. apply has_key_tail. exact H.
    + intros H. apply has_key_cons in H as [H|[H|H]].
      * right. right. apply has_key_head. auto.
      * right. right. apply has_key_head. auto.
      * destruct (IH H) as [H'|[H'|H']]; auto.
        right. right. apply has_key_tail. exact H'.
Qed.

Lemma has_key_set_if k c k0 v d :
  has_key k (JObj (set_if c k0 v d)) = true ->
  (c = true /\ (String.eqb k0 k = true \/ has_key k v = true))
  \/ has_key k (JObj d) = true.
Proof.
  unfold set_if. destruct c; [|auto].
  intros H. apply has_key_setitem in H as [H|[H|H]]; auto.
Qed.

Lemma has_key_of_opt_str k x : has_key k (of_opt_str x) = false.
Proof. destruct x; reflexivity. Qed.

Lemma has_key_of_opt_int k x : has_key k (of_opt_int x) = false.
Proof. destruct x; reflexivity. Qed.

Lemma truthy_provided_str x : truthy (of_opt_str x) = true -> provided x = true.
Proof. destruct x; [reflexivity|discriminate]. Qed.

Lemma truthy_provided_int x : truthy (of_opt_int x) = true -> provided x = true.
Proof. destruct x; [reflexivity|discriminate]. Qed.

Lemma not_none_provided_str x : is_not_none (of_opt_str x) = true -> provided x = true.
Proof. destruct x; [reflexivity|discriminate]. Qed.

Lemma not_none_provided_int x : is_not_none (of_opt_int x) = true -> provided x = true.
Proof. destruct x; [reflexivity|discriminate]. Qed.

(** Takes a hypothesis [has_key k v = true] apart, down to the argument
    that put the key [k] there. *)
Ltac crack H :=
  match type of H with
  | has_key _ (JObj (set_if _ _ _ _)) = true =>
      apply has_key_set_if in H as [[? [H|H]]|H]; crack H
  | has_key _ (JObj (_ :: _)) = true =>
      apply has_key_cons in H as [H|[H|H]]; crack H
  | has_key _ (of_opt_str _) = true => rewrite has_key_of_opt_str in H; discriminate
  | has_key _ (of_opt_int _) = true => rewrite has_key_of_opt_int in H; discriminate
  | has_key _ _ = true => discriminate H
  | String.eqb _ _ = true =>
      first [ discriminate H
            | eauto using truthy_provided_str, truthy_provided_int,
                not_none_provided_str, not_none_provided_int ]
  end.

Lemma optional_only_when_provided env self op k p doc vars :
  In (k, p) (optional_args op) ->
  In (doc, Some vars) (sent env self op) ->
  has_key k vars = true ->
  p = true.
Proof.
  intros Hk Hs H. unfold sent in Hs.
  destruct op; cbn [optional_args] in Hk; try contradiction; cbn [run] in Hs.
  all: try rewrite sent_create_session in Hs.
  all: try (unfold create_project, update_project, get_tasks, create_task, update_task,
              update_session in Hs; rewrite sent_pair in Hs).
  all: try (destruct (resolve_window _ _ _ _) as [e|[start_dt end_dt]]; [contradiction|]).
  all: destruct Hs as [Hs|[]]; injection Hs as _ <-.
  all: cbn [In] in Hk;
       repeat match type of Hk with
       | _ \/ _ => destruct Hk as [Hk|Hk]
       | False => contradiction
       end; injection Hk as <- <-.
  all: cbn [truthy] in H.
  all: try match type of H with
       | has_key _ (if match ?x with [] => _ | _ :: _ => _ end then _ else _) = true =>
           let E := fresh "E" in
           destruct x eqn:E; [discriminate H | rewrite <- E in H]
       end.
  all: crack H.
Qed.

(** C9, amended.  On one interpreter, the documents and the variables an
    operation sends are a function of its arguments, and of the clock for
    [start_session_timer] (whose [clientMutationId] carries the time in
    seconds) and for [create_session] without a start and an end (whose
    window starts at the current time): two calls with the same arguments,
    and with the same clock readings where the operation reads the clock,
    send the same documents and variables whatever else differs, the
    answers of the service included.  An optional argument that is passed
    on occurs as a key of the variables only when it was provided. *)
Theorem operations_pure_up_to_clock env1 env2 self op :
  fromisoformat env1 = fromisoformat env2 ->
  (reads_clock op = true -> time env1 = time env2 /\ now env1 = now env2) ->
  sent env1 self op = sent env2 self op
  /\ (forall k p doc vars,
        In (k, p) (optional_args op) ->
        In (doc, Some vars) (sent env1 self op) ->
        has_key k vars = true ->
        p = true).
Proof.
  intros Hf Hc. split.
  - apply sent_ext; assumption.
  - intros k p doc vars. apply optional_only_when_provided.
Qed.

Lemma operations_pure_up_to_clock_witness :
  let op := StartSessionTimer "BREAK" in
  sent (example_env (answers JNull)) example_client op
  = sent (example_env (fails (HttpxConnectTimeout "timed out"))) example_client op.
Proof.
  intros op.
  apply (operations_pure_up_to_clock
           (example_env (answers JNull))
           (example_env (fails (HttpxConnectTimeout "timed out")))
           example_client op).
  - reflexivity.
  - intros _. split; reflexivity.
Defined.

(** ** The tool that stops the timer *)

Lemma startswith_app (s t : string) : startswith s (s ++ t) = true.
Proof.
  induction s as [|a s IH]; simpl; [reflexivity|].
  rewrite Ascii.eqb_refl. exact IH.
Qed.

Lemma contains_app (sub a b : string) : contains sub (a ++ sub ++ b) = true.
Proof.
  induction a as [|x a IH].
  - simpl append. destruct (sub ++ b) eqn:E; unfold contains; fold contains;
      rewrite <- E, startswith_app; reflexivity.
  - simpl append. unfold contains; fold contains. rewrite IH. apply orb_true_r.
Qed.

Lemma contains_here (sub b : string) : contains sub (sub ++ b) = true.
Proof. apply (contains_app sub "" b). Qed.

Lemma contains_skip (sub a b : string) :
  contains sub b = true -> contains sub (a ++ b) = true.
Proof.
  intros H. induction a as [|x a IH]; [exact H|].
  simpl append. unfold contains; fold contains. rewrite IH. apply orb_true_r.
Qed.

(** Finds a piece of a text written as a chain of appends. *)
Ltac find_piece :=
  rewrite ?append_assoc;
  repeat first [ apply contains_here | apply contains_skip ].

(** An [execute_query] that is answered with a body free of errors. *)
Lemma execute_query_answered env self query variables log r result :
  upstream env (request_of self query variables) = Returns r ->
  200 <= status_code r <= 299 ->
  decoded r = Json result ->
  contains_key "errors" result = inr false ->
  execute_query env self query variables log
  = (inr result, (log ++ [request_of self query variables])%list).
Proof.
  intros Hup Hs Hd He.
  rewrite execute_query_spec, Hup, (status_2xx _ Hs), Hd.
  unfold check_graphql_errors. rewrite He. reflexivity.
Qed.






Lemma truthy_with_id fields v : lookup "id" fields = Some v -> truthy (JObj fields) = true.
Proof. destruct fields; [discriminate|reflexivity]. Qed.



(** ** The dispatcher *)

(** A handler is its [try] block with the exception turned into a text. *)
Lemma dispatch_tool_try env name arguments log :
  dispatch env name arguments log
  = match tool_try env name arguments log with
    | (inl e, log') => (inr (error_label name ++ str_exn e), log')
    | (inr t, log') => (inr t, log')
    end.
Proof.
  unfold dispatch, tool_try, error_label. fold (normalized arguments).
  repeat match goal with
  | |- context [String.eqb name ?s] => destruct (String.eqb name s)
  end.
  all: try reflexivity.
  all: unfold test_connection_handler, list_projects_handler, create_project_handler,
         start_session_timer_handler, stop_session_timer_handler,
         get_current_session_handler, create_session_handler;
       cbn [catch MonadExc_Py].
  all: match goal with
       | |- match ?c with _ => _ end = _ => destruct c as [[e|t] log']; reflexivity
       end.
Qed.

Lemma handle_call_tool_dispatch env name arguments log :
  handle_call_tool env name arguments log
  = match tool_try env name arguments log with
    | (inl e, log') =>
        (inr [mkTextContent "text" (error_label name ++ str_exn e)], log')
    | (inr t, log') => (inr [mkTextContent "text" t], log')
    end.
Proof.
  unfold handle_call_tool. cbn [catch MonadExc_Py bind Monad_Py].
  rewrite dispatch_tool_try.
  destruct (tool_try env name arguments log) as [[e|t] log']; reflexivity.
Qed.

Lemma error_label_prefix name e :
  startswith "[ERROR]" (error_label name ++ str_exn e) = true.
Proof.
  unfold error_label.
  repeat match goal with
  | |- context [String.eqb name ?s] => destruct (String.eqb name s)
  end; reflexivity.
Qed.


(** When every query of the client raises, a tool that sent a request
    answers with an error text. *)
Lemma client_failure_is_error_text env name arguments log t log' :
  (forall self query variables lg,
     exists e, fst (execute_query env self query variables lg) = inl e) ->
  handle_call_tool env name arguments log = (inr [mkTextContent "text" t], log') ->
  log' <> log ->
  startswith "[ERROR]" t = true.
Proof.
  intros Hdown H Hlog. rewrite handle_call_tool_dispatch in H.
  unfold tool_try, error_label in H.
  repeat match type of H with
  | context [String.eqb name ?s] => destruct (String.eqb name s)
  end.
  all: unfold test_connection_try, list_projects_try, create_project_try,
         start_session_timer_try, stop_session_timer_try, get_current_session_try,
         create_session_try, stop_confirmed, stop_unconfirmed,
         test_connection, get_projects, create_project, start_session_timer,
         stop_session_timer, get_current_session, create_session in H.
  all: cbn [bind Monad_Py catch MonadExc_Py lift ret] in H.
  all: repeat (cbn beta iota in H; cbn [ret Monad_Py] in H;
               match type of H with
               | context [execute_query ?e ?s ?q ?v ?l] =>
                   let ex := fresh "ex" in let Hex := fresh "Hex" in
                   destruct (Hdown s q v l) as [ex Hex];
                   destruct (execute_query e s q v l) as [[?|?] ?]; cbn [fst] in Hex;
                   [clear Hex|discriminate Hex]
               | context [match ?c with inl _ => _ | inr _ => _ end] => destruct c
               | context [if ?c then _ else _] => destruct c
               | context [match ?c with (pair _ _) => _ end] => is_var c; destruct c
               end).
  all: injection H as <- <-.
  all: try reflexivity.
  all: try (exfalso; apply Hlog; reflexivity).
Qed.

(** C4.  Whatever the tool name and the arguments, absent ones included,
    [handle_call_tool] returns one text and raises nothing.  A name that is
    not in the catalogue gives the text [[ERROR] Unknown tool: name], with
    no request sent.  A failure raised in the [try] block of a handler
    becomes a text that starts with [[ERROR]] and ends with the message of
    the failure.  When the API client raises on every query, a tool that
    sent a request answers with a text that starts with [[ERROR]]. *)
Theorem handle_call_tool_always_text env name arguments log :
  (exists t log',
     handle_call_tool env name arguments log = (inr [mkTextContent "text" t], log'))
  /\ (known_tool name = false ->
      handle_call_tool env name arguments log
      = (inr [mkTextContent "text" ("[ERROR] Unknown tool: " ++ name)], log))
  /\ (forall e log',
        tool_try env name arguments log = (inl e, log') ->
        handle_call_tool env name arguments log
        = (inr [mkTextContent "text" (error_label name ++ str_exn e)], log')
        /\ startswith "[ERROR]" (error_label name ++ str_exn e) = true)
  /\ ((forall self query variables lg,
         exists e, fst (execute_query env self query variables lg) = inl e) ->
      forall t log',
        handle_call_tool env name arguments log = (inr [mkTextContent "text" t], log') ->
        log' <> log ->
        startswith "[ERROR]" t = true).
Proof.
  split; [|split; [|split]].
  - rewrite handle_call_tool_dispatch.
    destruct (tool_try env name arguments log) as [[e|t] log']; eauto.
  - intros Hk. rewrite handle_call_tool_dispatch. unfold tool_try.
    unfold known_tool, tool_names in Hk. cbn [existsb] in Hk.
    repeat (apply orb_false_iff in Hk as [? Hk]).
    repeat match goal with
    | E : String.eqb name ?s = false |- _ => rewrite E; clear E
    end.
    reflexivity.
  - intros e log' H. rewrite handle_call_tool_dispatch, H.
    split; [reflexivity|apply error_label_prefix].
  - intros Hdown t log'. apply client_failure_is_error_text. exact Hdown.
Qed.

Lemma handle_call_tool_always_text_witness :
  handle_call_tool (example_env (answers example_data)) "delete_everything" JNull []
  = (inr [mkTextContent "text" "[ERROR] Unknown tool: delete_everything"], [])
  /\ handle_call_tool (example_env (answers example_data)) "list_projects"
       (JArr [JNum 1]) []
     = (inr [mkTextContent "text"
               "[ERROR] Failed to list projects: 'list' object has no attribute 'get'"], []).
Proof.
  split.
  - destruct (handle_call_tool_always_text (example_env (answers example_data))
                "delete_everything" JNull []) as (_ & H & _).
    apply H. reflexivity.
  - destruct (handle_call_tool_always_text (example_env (answers example_data))
                "list_projects" (JArr [JNum 1]) []) as (_ & _ & H & _).
    apply (H (AttributeError "'list' object has no attribute 'get'") []). reflexivity.
Defined.

(** ** The validation of the tool that creates a session *)

Lemma contains_here3 (a b c rest : string) :
  contains (a ++ b ++ c) (a ++ b ++ c ++ rest) = true.
Proof.
  replace (a ++ b ++ c ++ rest) with ((a ++ b ++ c) ++ rest)
    by (rewrite !append_assoc; reflexivity).
  apply contains_here.
Qed.

(** The test of the duration, on an integer: zero passes. *)
Lemma duration_out_of_range_int n :
  duration_out_of_range (JNum n) = inr (negb (n =? 0) && ((n <? 5) || (480 <? n))).
Proof.
  unfold duration_out_of_range. cbn [truthy].
  destruct (n =? 0); [reflexivity|].
  cbn [negb andb bind Monad_Exc lt_int gt_int as_int ret].
  destruct (n <? 5); reflexivity.
Qed.

Lemma dispatch_create_session env arguments d :
  normalized arguments = JObj d ->
  dispatch env "create_session" arguments = create_session_handler env (JObj d).
Proof. unfold dispatch, normalized. intros ->. reflexivity. Qed.

(** When the validation asks for a confirmation, the tool answers with its
    message and sends nothing. *)
Lemma create_session_confirmation_sends_nothing env arguments d msg :
  normalized arguments = JObj d ->
  validate_session_params (JObj d) = inr (true, msg) ->
  call_tool env "create_session" arguments = (inr [mkTextContent "text" msg], []).
Proof.
  intros Hn Hv. unfold call_tool, handle_call_tool.
  cbn [catch MonadExc_Py bind Monad_Py]. rewrite (dispatch_create_session _ _ _ Hn).
  unfold create_session_handler, create_session_try.
  cbn [catch MonadExc_Py bind Monad_Py lift]. rewrite Hv. reflexivity.
Qed.

(** What the validation answers, for a duration that is absent or an
    integer: it asks for a confirmation when the start and the end are both
    missing, or the title is missing, or the duration is not zero and is
    outside 5 to 480. *)
Lemma validate_session_params_spec d bad :
  duration_out_of_range (arg d "duration_minutes" JNull) = inr bad ->
  let no_times := negb (truthy (arg d "start_time" JNull))
                  && negb (truthy (arg d "end_time" JNull)) in
  let no_title := negb (truthy (arg d "title" JNull)) in
  exists msg,
    validate_session_params (JObj d) = inr (no_times || no_title || bad, msg)
    /\ (no_times || no_title || bad = true ->
        startswith "[CONFIRM]" msg = true
        /\ contains (echo_lines d) msg = true
        /\ (no_times = true -> contains "开始时间和结束时间都未指定" msg = true)
        /\ (no_title = true -> contains "会话标题未指定" msg = true)
        /\ (bad = true ->
            contains ("持续时间 " ++ str (arg d "duration_minutes" JNull)
                      ++ " 分钟可能不合理") msg = true
            /\ contains "• 建议持续时间在 5-480 分钟之间" msg = true)).
Proof.
  intros Hbad no_times no_title.
  unfold validate_session_params.
  cbn [get bind Monad_Exc]. fold (arg d "start_time" JNull) (arg d "end_time" JNull)
    (arg d "duration_minutes" JNull) (arg d "title" JNull).
  unfold check_times, check_title, check_duration. rewrite Hbad.
  fold no_times no_title.
  destruct no_times, no_title, bad; cbn [bind Monad_Exc ret app items orb];
    eexists; (split; [reflexivity|]); intros H; try discriminate H.
  all: split; [reflexivity|].
  all: split; [find_piece|].
  all: repeat split; intros; try discriminate.
  all: cbn [issue_lines suggestion_lines map String.concat].
  all: rewrite ?append_assoc;
       repeat first
         [ match goal with
           | |- contains (?a ++ ?b ++ ?c) (?a ++ ?b ++ ?c ++ _) = true =>
               apply contains_here3
           | |- contains ?a (?a ++ _) = true => apply contains_here
           end
         | apply contains_skip ].
Qed.

(** The validation as the code has it: with a duration that is absent or an
    integer, the tool answers with the confirmation message, and sends
    nothing, when the start and the end are both missing, or the title is
    missing, or the duration is not zero and is outside 5 to 480. *)
Lemma create_session_asks_confirmation env arguments d bad :
  normalized arguments = JObj d ->
  duration_out_of_range (arg d "duration_minutes" JNull) = inr bad ->
  negb (truthy (arg d "start_time" JNull)) && negb (truthy (arg d "end_time" JNull))
  || negb (truthy (arg d "title" JNull)) || bad = true ->
  exists msg,
    call_tool env "create_session" arguments = (inr [mkTextContent "text" msg], [])
    /\ startswith "[CONFIRM]" msg = true
    /\ contains (echo_lines d) msg = true.
Proof.
  intros Hn Hbad Hany.
  destruct (validate_session_params_spec d bad Hbad) as (msg & Hv & Hmsg).
  rewrite Hany in Hv. destruct (Hmsg Hany) as (H1 & H2 & _).
  exists msg. split; [|split; assumption].
  apply (create_session_confirmation_sends_nothing env arguments d); assumption.
Qed.

(** C2 does not hold on the code: a duration of 0 is outside 5 to 480, and
    the tool creates the session.  The validation finds nothing to confirm,
    one request is sent, and the session it asks for ends when it starts. *)
Lemma create_session_zero_duration_reaches_api :
  let args :=
    JObj [("start_time", JStr "2025-07-21 14:00"); ("title", JStr "Focus");
          ("duration_minutes", JNum 0)] in
  validate_session_params args = inr (false, "")
  /\ call_tool (example_env (answers example_data)) "create_session" args
     = (inr [mkTextContent "text"
               "[SUCCESS] Session created: Deep work (ID: sess_42, Type: , Duration: 2025-07-21T14:00:00Z to 2025-07-21T15:30:00Z)"],
        [request_of example_client Documents.create_session
           (JObj [("input",
                   JObj [("args",
                          JObj [("startTime", JStr "2025-07-21T14:00:00Z");
                                ("endTime", JStr "2025-07-21T14:00:00Z");
                                ("title", JStr "Focus")])])])]).
Proof. split; vm_compute; reflexivity. Qed.

(** ** Decimal digits *)

Lemma append_length (a b : string) :
  String.length (a ++ b) = (String.length a + String.length b)%nat.
Proof. induction a; simpl; congruence. Qed.

Lemma fixed_length w n : String.length (fixed w n) = w.
Proof.
  revert n. induction w as [|w IH]; intros n; simpl; [reflexivity|].
  rewrite append_length, IH. simpl. lia.
Qed.

Lemma zeros_snoc j : zeros j ++ "0" = zeros (S j).
Proof. induction j as [|j IH]; simpl; [reflexivity|]. rewrite IH. reflexivity. Qed.

Lemma fixed_zero j : fixed j 0 = zeros j.
Proof.
  induction j as [|j IH]; [reflexivity|].
  cbn [fixed]. change (0 / 10) with 0. change (0 mod 10) with 0.
  rewrite IH. apply zeros_snoc.
Qed.

Lemma fixed_zeros j k n :
  0 <= n < 10 ^ Z.of_nat k -> fixed (j + k) n = zeros j ++ fixed k n.
Proof.
  revert n. induction k as [|k IH]; intros n Hn.
  - rewrite Nat.add_0_r. simpl in Hn. assert (n = 0) by lia. subst n.
    rewrite fixed_zero. simpl. rewrite append_nil_r. reflexivity.
  - rewrite Nat.add_succ_r. cbn [fixed].
    rewrite IH.
    + rewrite append_assoc. reflexivity.
    + rewrite Nat2Z.inj_succ, Z.pow_succ_r in Hn by lia.
      split; [apply Z.div_pos; lia|apply Z.div_lt_upper_bound; lia].
Qed.

(** The loop of [str_int] writes the digits of [n], as many as [n] has. *)
Lemma str_digits_fixed fuel n acc :
  0 <= n < 10 ^ Z.of_nat (S fuel) ->
  exists k, (1 <= k <= S fuel)%nat
            /\ str_digits fuel n acc = fixed k n ++ acc
            /\ n < 10 ^ Z.of_nat k
            /\ (k = 1%nat \/ 10 ^ Z.of_nat (k - 1) <= n).
Proof.
  revert n acc. induction fuel as [|fuel IH]; intros n acc Hn.
  - exists 1%nat. change (10 ^ Z.of_nat 1) with 10 in *.
    repeat split; lia.
  - cbn [str_digits]. destruct (Z.ltb_spec n 10) as [Hlt|Hge].
    + exists 1%nat. change (10 ^ Z.of_nat 1) with 10.
      repeat split; lia.
    + rewrite (Nat2Z.inj_succ (S fuel)), Z.pow_succ_r in Hn by lia.
      destruct (IH (n / 10) (String (digit_char (n mod 10)) acc)) as (k & Hk & Hs & Hu & Hl).
      { split; [apply Z.div_pos; lia|apply Z.div_lt_upper_bound; lia]. }
      exists (S k). split; [lia|]. split; [|split].
      * rewrite Hs. cbn [fixed]. rewrite append_assoc. reflexivity.
      * rewrite Nat2Z.inj_succ, Z.pow_succ_r by lia.
        pose proof (Z.div_mod n 10 ltac:(lia)).
        pose proof (Z.mod_pos_bound n 10 ltac:(lia)). lia.
      * right. replace (S k - 1)%nat with k by lia.
        destruct Hl as [->|Hl].
        -- change (10 ^ Z.of_nat 1) with 10. lia.
        -- replace k with (S (k - 1)) at 1 by lia.
           rewrite Nat2Z.inj_succ, Z.pow_succ_r by lia.
           pose proof (Z.div_mod n 10 ltac:(lia)).
           pose proof (Z.mod_pos_bound n 10 ltac:(lia)). lia.
Qed.

Lemma log2_fuel n : 0 <= n -> n < 10 ^ Z.of_nat (S (Z.to_nat (Z.log2 n))).
Proof.
  intros Hn. rewrite Nat2Z.inj_succ, Z2Nat.id by apply Z.log2_nonneg.
  destruct (Z.eq_dec n 0) as [->|Hnz]; [reflexivity|].
  pose proof (Z.log2_spec n ltac:(lia)) as [_ Hlt].
  pose proof (Z.log2_nonneg n).
  assert (2 ^ Z.succ (Z.log2 n) <= 10 ^ Z.succ (Z.log2 n))
    by (apply Z.pow_le_mono_l; lia).
  lia.
Qed.

(** [%0wd] of a number of at most [w] digits is its [w] digits. *)
Lemma pad_d_fixed w n :
  (1 <= w)%nat -> 0 <= n < 10 ^ Z.of_nat w -> pad_d w n = fixed w n.
Proof.
  intros Hw Hn. unfold pad_d, str_int.
  destruct (Z.ltb_spec n 0) as [|_]; [lia|].
  destruct (str_digits_fixed (Z.to_nat (Z.log2 n)) n "") as (k & Hk & Hs & Hu & Hl).
  { split; [lia|apply log2_fuel; lia]. }
  rewrite Hs, append_nil_r, fixed_length.
  assert (k <= w)%nat.
  { destruct Hl as [->|Hl].
    - exact Hw.
    - destruct (Nat.le_gt_cases k w) as [|Hgt]; [assumption|exfalso].
      assert (10 ^ Z.of_nat w <= 10 ^ Z.of_nat (k - 1))
        by (apply Z.pow_le_mono_r; lia).
      lia. }
  replace w with ((w - k) + k)%nat at 2 by lia.
  rewrite fixed_zeros by lia. reflexivity.
Qed.

(** Case analysis on a decimal digit. *)
Ltac digit_cases d :=
  let H := fresh in
  assert (H : d = 0 \/ d = 1 \/ d = 2 \/ d = 3 \/ d = 4 \/ d = 5 \/ d = 6 \/ d = 7
              \/ d = 8 \/ d = 9) by lia;
  repeat (destruct H as [H|H]; [subst d; try reflexivity|]); [subst d; try reflexivity].

Lemma is_digit_digit_char d : 0 <= d <= 9 -> is_digit (digit_char d) = true.
Proof. intros Hd. digit_cases d. Qed.

Lemma digit_val_digit_char d : 0 <= d <= 9 -> digit_val (digit_char d) = d.
Proof. intros Hd. digit_cases d. Qed.

Lemma is_space_digit x : is_digit x = true -> is_space x = false.
Proof.
  unfold is_digit, is_space. intros H.
  apply andb_true_iff in H as [H1 H2]. apply Nat.leb_le in H1. apply Nat.leb_le in H2.
  apply orb_false_iff. split; apply andb_false_iff.
  - right. apply Nat.leb_gt. lia.
  - right. apply Nat.leb_gt. lia.
Qed.

Lemma digit_mod n : 0 <= n mod 10 <= 9.
Proof. pose proof (Z.mod_pos_bound n 10 ltac:(lia)). lia. Qed.

(** ** The time stamps of a created session *)

Lemma valid_fields dt :
  valid dt = true ->
  1 <= year dt <= 9999 /\ 1 <= month dt <= 12 /\ 1 <= day dt <= 31 /\
  0 <= hour dt <= 23 /\ 0 <= minute dt <= 59 /\ 0 <= second dt <= 59 /\
  0 <= microsecond dt <= 999999.
Proof.
  unfold valid. intros H. apply check_fields_true in H.
  destruct H as (Hy & Hm & Hd & Hrest).
  repeat split; try lia.
  unfold days_in_month in Hd.
  assert (index DAYS_IN_MONTH (month dt) <= 31).
  { assert (Hc : month dt = 1 \/ month dt = 2 \/ month dt = 3 \/ month dt = 4
                 \/ month dt = 5 \/ month dt = 6 \/ month dt = 7 \/ month dt = 8
                 \/ month dt = 9 \/ month dt = 10 \/ month dt = 11 \/ month dt = 12) by lia.
    repeat (destruct Hc as [Hc|Hc]; [rewrite Hc; vm_compute; discriminate|]).
    rewrite Hc. vm_compute. discriminate. }
  destruct ((month dt =? 2) && is_leap (year dt)); lia.
Qed.

(** The text sent for a naive date and time is ISO 8601 with the
    designator [Z]. *)
Lemma isoformat_is_iso8601 dt :
  valid dt = true -> tzinfo dt = None ->
  is_iso8601_utc (isoformat dt ++ "Z") = true.
Proof.
  intros Hv Hn. apply valid_fields in Hv.
  destruct Hv as (Hy & Hm & Hd & Hh & Hmi & Hs & Hus).
  unfold isoformat, is_iso8601_utc. rewrite Hn.
  rewrite (pad_d_fixed 4), !(pad_d_fixed 2) by (try (simpl; lia); lia).
  destruct (microsecond dt =? 0).
  - apply orb_true_iff. left.
    cbn -[digit_char Z.div Z.modulo is_digit].
    rewrite !is_digit_digit_char by apply digit_mod. reflexivity.
  - apply orb_true_iff. right.
    rewrite (pad_d_fixed 6) by (try (simpl; lia); lia).
    cbn -[digit_char Z.div Z.modulo is_digit].
    rewrite !is_digit_digit_char by apply digit_mod. reflexivity.
Qed.

Lemma strptime_naive_valid s fmt dt :
  strptime s fmt = Some dt -> valid dt = true /\ tzinfo dt = None.
Proof.
  unfold strptime. destruct (compile_format fmt) as [its|]; [|discriminate].
  destruct (match_items its s default_fields) as [[f [|c r]]|]; try discriminate.
  destruct (check_fields (fY f) (fm f) (fd f) (fH f) (fM f) (fS f) 0) eqn:E;
    [|discriminate].
  intros [= <-]. split; [exact E|reflexivity].
Qed.

Lemma try_formats_naive_valid s fmts dt :
  try_formats s fmts = Some dt -> valid dt = true /\ tzinfo dt = None.
Proof.
  induction fmts as [|fmt fmts IH]; simpl; [discriminate|].
  destruct (strptime s fmt) as [dt'|] eqn:E; [|exact IH].
  intros [= <-]. eapply strptime_naive_valid. exact E.
Qed.

Lemma parse_by_formats env bound dt :
  by_formats bound = true -> truthy bound = true ->
  parse_time_string env bound = inr dt ->
  valid dt = true /\ tzinfo dt = None.
Proof.
  destruct bound as [| | |s| |]; try discriminate.
  cbn [by_formats truthy parse_time_string]. intros Hb Ht.
  destruct (String.eqb s ""); [discriminate|]. cbn [orb] in Hb.
  destruct (try_formats (remove_char "Z" s) formats) as [dt'|] eqn:E; [|discriminate].
  intros [= <-]. eapply try_formats_naive_valid. exact E.
Qed.

(** For bounds that the five formats read, and for the current time, both
    texts sent are ISO 8601 with the designator. *)
Lemma create_session_timestamps_iso env n start_time end_time start_dt end_dt :
  valid (now env) = true -> tzinfo (now env) = None ->
  by_formats start_time = true -> by_formats end_time = true ->
  resolve_window env (JNum n) start_time end_time = inr (start_dt, end_dt) ->
  is_iso8601_utc (isoformat start_dt ++ "Z") = true
  /\ is_iso8601_utc (isoformat end_dt ++ "Z") = true.
Proof.
  intros Hnv Hnn Hbs Hbe H.
  assert (Hboth : (valid start_dt = true /\ tzinfo start_dt = None)
                  /\ (valid end_dt = true /\ tzinfo end_dt = None)).
  { unfold resolve_window in H.
    destruct (truthy start_time) eqn:Hs, (truthy end_time) eqn:He; cbn [andb] in H.
    all: repeat match type of H with
         | bind _ _ = inr _ =>
             let x := fresh "x" in let E := fresh "E" in
             apply bind_inr in H as (x & E & H)
         end.
    all: injection H as <- <-.
    all: repeat match goal with
         | E : parse_time_string _ _ = inr _ |- _ =>
             apply parse_by_formats in E; [|assumption|assumption]
         | E : add _ _ = inr _ |- _ => apply add_spec in E; destruct E as (_ & ? & ?)
         | E : sub_delta _ _ = inr _ |- _ =>
             apply sub_delta_spec in E; destruct E as (_ & ? & ?)
         end.
    all: repeat match goal with H : _ /\ _ |- _ => destruct H end.
    all: repeat split; try assumption; congruence. }
  destruct Hboth as [[? ?] [? ?]].
  split; apply isoformat_is_iso8601; assumption.
Qed.

(** C8 does not hold on the code: a start and an end with a UTC offset
    are read by [fromisoformat] as aware values, whose [isoformat] ends with
    the offset, and the designator is put after it.  The texts sent are not
    ISO 8601. *)
Lemma create_session_offset_then_designator :
  sent (example_env (answers example_data)) example_client
    (CreateSession "focus" (Some "Focus") None 90
       (Some "2025-07-21T14:00:00+02:00") (Some "2025-07-21T15:30:00+02:00"))
  = [(Some (JStr Documents.create_session),
      Some (JObj [("input",
                   JObj [("args",
                          JObj [("startTime", JStr "2025-07-21T14:00:00+02:00Z");
                                ("endTime", JStr "2025-07-21T15:30:00+02:00Z");
                                ("title", JStr "Focus")])])]))]
  /\ is_iso8601_utc "2025-07-21T14:00:00+02:00Z" = false
  /\ is_iso8601_utc "2025-07-21T15:30:00+02:00Z" = false.
Proof. repeat split; vm_compute; reflexivity. Qed.

(** ** Reading a time string *)

(** Case analysis on a number below a bound written out. *)
Ltac enum_below v n :=
  lazymatch n with
  | O => exfalso; lia
  | S ?n' =>
      let E := fresh "E" in
      destruct (Z.eq_dec v (Z.of_nat n')) as [E|E];
      [ cbv in E; subst v | enum_below v n' ]
  end.

(** A directive of two digits, against a value written with two digits:
    the alternative of two characters that matches comes first, the one of
    a single character after it. *)
Lemma first_alt_two_digits d v (A : Type) (k : string -> string -> option A) rest :
  in_range d v = true ->
  first_alt (alternatives d) k (fixed 2 v ++ rest)
  = match k (fixed 2 v) rest with
    | Some a => Some a
    | None =>
        if single d v
        then k (String (digit_char (v / 10)) "") (String (digit_char (v mod 10)) rest)
        else None
    end.
Proof.
  intros Hr.
  assert (0 <= v < 60).
  { destruct d; cbn [in_range] in Hr; try discriminate;
      apply andb_true_iff in Hr as [H1 H2]; apply Z.leb_le in H1, H2; lia. }
  enum_below v 60%nat.
  all: destruct d; try discriminate Hr.
  all: cbv;
       repeat match goal with
       | |- context [match ?c with Some _ => _ | None => _ end] => destruct c
       end; reflexivity.
Qed.

Lemma lower_digit x : is_digit x = true -> lower x = x.
Proof.
  unfold is_digit, lower. intros H.
  apply andb_true_iff in H as [H1 H2]. apply Nat.leb_le in H1, H2.
  replace (65 <=? nat_of_ascii x)%nat with false
    by (symmetry; apply Nat.leb_gt; lia).
  reflexivity.
Qed.

Lemma int_of_group_fixed2 v : 0 <= v < 100 -> int_of_group (fixed 2 v) = v.
Proof.
  intros Hv. unfold int_of_group. cbn [fixed append lstrip_space].
  rewrite is_space_digit by (apply is_digit_digit_char, digit_mod).
  unfold int_of_digits. cbn [list_ascii_of_string fold_left].
  rewrite !digit_val_digit_char by apply digit_mod.
  pose proof (Z.div_mod v 10 ltac:(lia)).
  pose proof (Z.mod_pos_bound v 10 ltac:(lia)).
  assert (0 <= v / 10 < 10)
    by (split; [apply Z.div_pos; lia|apply Z.div_lt_upper_bound; lia]).
  rewrite (Z.mod_small (v / 10) 10) by lia. lia.
Qed.

Lemma int_of_group_fixed4 y : 0 <= y < 10000 -> int_of_group (fixed 4 y) = y.
Proof.
  intros Hy. unfold int_of_group. cbn [fixed append lstrip_space].
  rewrite is_space_digit by (apply is_digit_digit_char, digit_mod).
  unfold int_of_digits. cbn [list_ascii_of_string fold_left].
  rewrite !digit_val_digit_char by apply digit_mod.
  Z.div_mod_to_equations. lia.
Qed.

(** What follows a directive fails on a digit. *)
Lemma match_items_digit_none it items x rest f :
  no_digit_start (it :: items) = true ->
  is_digit x = true ->
  match_items (it :: items) (String x rest) f = None.
Proof.
  intros Hn Hx. destruct it as [c| |d]; cbn [no_digit_start] in Hn; [| |discriminate].
  - cbn [match_items]. rewrite (lower_digit x Hx).
    destruct (Ascii.eqb (lower c) x) eqn:E; [|reflexivity].
    apply Ascii.eqb_eq in E. rewrite E, Hx in Hn. discriminate.
  - cbn [match_items spaces1]. rewrite (is_space_digit x Hx). reflexivity.
Qed.

(** A directive of two digits reads a value written with two digits, and
    nothing else, when no digit can follow it. *)
Lemma match_items_dir2 d v items rest f :
  in_range d v = true ->
  no_digit_start items = true ->
  match_items (Dir d :: items) (fixed 2 v ++ rest) f
  = match_items items rest (set_field d v f).
Proof.
  intros Hr Hn. cbn [match_items].
  rewrite first_alt_two_digits by exact Hr.
  assert (0 <= v < 100).
  { destruct d; cbn [in_range] in Hr; try discriminate;
      apply andb_true_iff in Hr as [H1 H2]; apply Z.leb_le in H1, H2; lia. }
  rewrite int_of_group_fixed2 by assumption.
  destruct (match_items items rest (set_field d v f)) as [r|] eqn:E; [reflexivity|].
  destruct (single d v); [|reflexivity].
  destruct items as [|it items]; [discriminate E|].
  apply match_items_digit_none; [exact Hn|].
  apply is_digit_digit_char, digit_mod.
Qed.

Lemma match_items_year y items rest f :
  0 <= y < 10000 ->
  match_items (Dir DY :: items) (fixed 4 y ++ rest) f
  = match_items items rest (set_field DY y f).
Proof.
  intros Hy. cbn [match_items alternatives first_alt].
  cbn [fixed append match_classes class_matches].
  rewrite !is_digit_digit_char by apply digit_mod.
  change (String (digit_char (y / 10 / 10 / 10 mod 10))
            (String (digit_char (y / 10 / 10 mod 10))
               (String (digit_char (y / 10 mod 10))
                  (String (digit_char (y mod 10)) ""))))
    with (fixed 4 y).
  rewrite int_of_group_fixed4 by exact Hy.
  destruct (match_items items rest (set_field DY y f)); reflexivity.
Qed.

Lemma match_items_lit c items rest f :
  match_items (Lit c :: items) (String c rest) f = match_items items rest f.
Proof. cbn [match_items]. rewrite Ascii.eqb_refl. reflexivity. Qed.

Lemma match_items_space v items rest f :
  match_items (Spaces :: items) (String " " (fixed 2 v ++ rest)) f
  = match_items items (fixed 2 v ++ rest) f.
Proof.
  cbn [match_items spaces1 fixed append].
  change (is_space " ") with true. cbn iota.
  rewrite is_space_digit by (apply is_digit_digit_char, digit_mod).
  reflexivity.
Qed.

Lemma match_items_lit_ne c x items rest f :
  Ascii.eqb (lower c) (lower x) = false ->
  match_items (Lit c :: items) (String x rest) f = None.
Proof. intros H. cbn [match_items]. rewrite H. reflexivity. Qed.

Lemma match_items_space_ne x items rest f :
  is_space x = false ->
  match_items (Spaces :: items) (String x rest) f = None.
Proof. intros H. cbn [match_items spaces1]. rewrite H. reflexivity. Qed.

Lemma in_range_true d v lo hi :
  in_range d v = ((lo <=? v) && (v <=? hi)) -> lo <= v <= hi -> in_range d v = true.
Proof.
  intros -> H. apply andb_true_iff. split; apply Z.leb_le; lia.
Qed.

(** Runs a compiled format over a text written field by field. *)
Ltac run_format :=
  repeat first
    [ rewrite match_items_year by lia
    | rewrite match_items_dir2
        by first [ reflexivity
                 | eapply in_range_true; [reflexivity|lia] ]
    | rewrite match_items_lit
    | rewrite match_items_space
    | rewrite match_items_lit_ne by reflexivity
    | rewrite match_items_space_ne by reflexivity ].

Lemma compile_format_T_seconds :
  compile_format "%Y-%m-%dT%H:%M:%S"
  = Some [Dir DY; Lit "-"; Dir Dm; Lit "-"; Dir Dd; Lit "T"; Dir DH; Lit ":"; Dir DM;
          Lit ":"; Dir DS].
Proof. vm_compute. reflexivity. Qed.

Lemma compile_format_space_seconds :
  compile_format "%Y-%m-%d %H:%M:%S"
  = Some [Dir DY; Lit "-"; Dir Dm; Lit "-"; Dir Dd; Spaces; Dir DH; Lit ":"; Dir DM;
          Lit ":"; Dir DS].
Proof. vm_compute. reflexivity. Qed.

Lemma compile_format_T_minutes :
  compile_format "%Y-%m-%dT%H:%M"
  = Some [Dir DY; Lit "-"; Dir Dm; Lit "-"; Dir Dd; Lit "T"; Dir DH; Lit ":"; Dir DM].
Proof. vm_compute. reflexivity. Qed.

Lemma compile_format_space_minutes :
  compile_format "%Y-%m-%d %H:%M"
  = Some [Dir DY; Lit "-"; Dir Dm; Lit "-"; Dir Dd; Spaces; Dir DH; Lit ":"; Dir DM].
Proof. vm_compute. reflexivity. Qed.

(** The five formats, tried in order on a date and time written in one of
    the listed forms without the designator, give that date and time. *)
Lemma try_formats_render sep with_seconds dt :
  valid dt = true -> microsecond dt = 0 -> tzinfo dt = None ->
  (with_seconds = false -> second dt = 0) ->
  sep = "T"%char \/ sep = " "%char ->
  try_formats (render sep with_seconds false dt) formats = Some dt.
Proof.
  intros Hv Hus Htz Hsec Hsep.
  pose proof (valid_fields dt Hv) as (Hy & Hm & Hd & Hh & Hmi & Hs & _).
  assert (Hcheck : check_fields (year dt) (month dt) (day dt) (hour dt) (minute dt)
                     (second dt) 0 = true) by (unfold valid in Hv; rewrite Hus in Hv; exact Hv).
  destruct dt as [y m d hh mm ss us tz].
  cbn [year month day hour minute second microsecond tzinfo] in *. subst us tz.
  unfold try_formats, formats, strptime.
  rewrite compile_format_T_seconds, compile_format_space_seconds,
    compile_format_T_minutes, compile_format_space_minutes.
  unfold render. cbn [year month day hour minute second].
  destruct Hsep as [-> | ->], with_seconds;
    try (rewrite (Hsec eq_refl) in *); cbn [append]; run_format;
    cbn [match_items set_field default_fields fY fm fd fH fM fS];
    rewrite Hcheck; reflexivity.
Qed.

Lemma remove_char_app c (a b : string) :
  remove_char c (a ++ b) = remove_char c a ++ remove_char c b.
Proof.
  induction a as [|x a IH]; simpl; [reflexivity|].
  destruct (Ascii.eqb x c); simpl; congruence.
Qed.

Lemma digit_char_not_Z d : 0 <= d <= 9 -> Ascii.eqb (digit_char d) "Z" = false.
Proof. intros Hd. digit_cases d. Qed.

Lemma remove_Z_fixed w n : remove_char "Z" (fixed w n) = fixed w n.
Proof.
  revert n. induction w as [|w IH]; intros n; [reflexivity|].
  cbn [fixed]. rewrite remove_char_app, IH. cbn [remove_char].
  rewrite digit_char_not_Z by apply digit_mod. reflexivity.
Qed.

(** Taking the designator away from a listed form leaves the form
    without it. *)
Lemma remove_Z_render sep with_seconds with_z dt :
  sep = "T"%char \/ sep = " "%char ->
  remove_char "Z" (render sep with_seconds with_z dt) = render sep with_seconds false dt.
Proof.
  intros Hsep. unfold render.
  assert (Hs : Ascii.eqb sep "Z" = false) by (destruct Hsep as [-> | ->]; reflexivity).
  repeat first [ rewrite remove_char_app | rewrite remove_Z_fixed ].
  cbn [remove_char]. rewrite Hs.
  repeat first [ rewrite remove_char_app | rewrite remove_Z_fixed ].
  destruct with_seconds, with_z;
    repeat first [ rewrite remove_char_app | rewrite remove_Z_fixed ]; reflexivity.
Qed.





(** ** The construction of the client *)



(** ** What a query raises and what it returns *)

Lemma reraise_classes self e :
  exists msg, reraise self e = ConnectionError msg \/ reraise self e = ValueError msg.
Proof.
  destruct e; cbn [reraise]; eauto.
  destruct (code =? 401); [eauto|].
  destruct (code =? 429); [eauto|].
  destruct (500 <=? code); eauto.
Qed.

(** X2.  Whatever the network and the service do, [execute_query] raises
    nothing but [ConnectionError] and [ValueError], the two classes its
    documentation names: every failure of the transport, of the decoding
    and of the reading of the body is turned into one of them. *)
Theorem execute_query_raises_two_classes env self query variables log e :
  fst (execute_query env self query variables log) = inl e ->
  exists msg, e = ConnectionError msg \/ e = ValueError msg.
Proof.
  rewrite execute_query_spec. cbn [fst].
  assert (Hre : forall e0, inl (reraise self e0) = @inl exn json e ->
                exists msg, e = ConnectionError msg \/ e = ValueError msg).
  { intros e0 H. injection H as H. rewrite <- H. apply reraise_classes. }
  destruct (upstream env _) as [e0|r]; [apply Hre|].
  destruct ((200 <=? status_code r) && (status_code r <=? 299)); [|apply Hre].
  destruct (decoded r) as [result|err]; [|apply Hre].
  destruct (check_graphql_errors result) as [e0|v]; [apply Hre|discriminate].
Qed.

Lemma execute_query_raises_two_classes_witness :
  exists msg,
    ConnectionError "🚫 网络请求失败: no route" = ConnectionError msg
    \/ ConnectionError "🚫 网络请求失败: no route" = ValueError msg.
Proof.
  apply (execute_query_raises_two_classes
           (example_env (fails (HttpxRequestError "no route"))) example_client
           Documents.get_current_user JNull []).
  reflexivity.
Defined.

Lemma check_graphql_errors_inr result v :
  check_graphql_errors result = inr v ->
  v = result /\ contains_key "errors" result = inr false.
Proof.
  unfold check_graphql_errors. intros H.
  apply bind_inr in H as (has_errors & Hc & H).
  destruct has_errors.
  - apply bind_inr in H as (errors & _ & H).
    apply bind_inr in H as (items & _ & H).
    apply bind_inr in H as (error_msg & _ & H).
    discriminate H.
  - injection H as <-. split; [reflexivity|exact Hc].
Qed.

(** X3.  [execute_query] returns a value only for an answer with a status
    from 200 to 299 whose body decodes, and the value is that body; the
    body then has no [errors] in it (no such key of a dictionary, element
    of a list or part of a string), so that a caller never sees a body with
    [errors] at the top. *)
Theorem execute_query_returns_clean_body env self query variables log v :
  fst (execute_query env self query variables log) = inr v ->
  exists r,
    upstream env (request_of self query variables) = Returns r
    /\ 200 <= status_code r <= 299
    /\ decoded r = Json v
    /\ contains_key "errors" v = inr false.
Proof.
  rewrite execute_query_spec. cbn [fst].
  destruct (upstream env _) as [e0|r]; [discriminate|].
  destruct ((200 <=? status_code r) && (status_code r <=? 299)) eqn:Es; [|discriminate].
  destruct (decoded r) as [result|err] eqn:Ed; [|discriminate].
  destruct (check_graphql_errors result) as [e0|v'] eqn:Ec; [discriminate|].
  intros [= <-]. apply check_graphql_errors_inr in Ec as [-> Hc].
  exists r. apply andb_true_iff in Es as [H1 H2].
  repeat split; try assumption; lia.
Qed.

Lemma execute_query_returns_clean_body_witness :
  exists r,
    upstream (example_env (answers example_data))
      (request_of example_client Documents.get_current_session JNull) = Returns r
    /\ 200 <= status_code r <= 299
    /\ decoded r = Json (JObj [("data", example_data)])
    /\ contains_key "errors" (JObj [("data", example_data)]) = inr false.
Proof.
  apply (execute_query_returns_clean_body (example_env (answers example_data))
           example_client Documents.get_current_session JNull []).
  reflexivity.
Defined.

(** ** The test of the connection *)

(** X4.  [test_connection] never raises and sends exactly one request, the
    query for the e-mail of the current user.  It answers [True] with a
    message that starts with [[OK] Connection successful! User: ] only when
    the query returned a body, and [False] with a message that starts with
    [[ERROR] Connection failed: ] and ends with the message of the failure
    otherwise.  A body without [data], or without the user or the e-mail in
    it, is a success for the user [Unknown]. *)
Theorem test_connection_never_raises env self log :
  exists ok msg,
    test_connection env self log
    = (inr (ok, msg), (log ++ [request_of self Documents.test_connection JNull])%list)
    /\ (ok = true ->
        startswith "[OK] Connection successful! User: " msg = true
        /\ exists result,
             fst (execute_query env self Documents.test_connection JNull log) = inr result)
    /\ (ok = false -> startswith "[ERROR] Connection failed: " msg = true)
    /\ (forall e,
          fst (execute_query env self Documents.test_connection JNull log) = inl e ->
          ok = false /\ msg = "[ERROR] Connection failed: " ++ str_exn e)
    /\ (forall fields,
          fst (execute_query env self Documents.test_connection JNull log)
          = inr (JObj fields) ->
          lookup "data" fields = None ->
          ok = true /\ msg = "[OK] Connection successful! User: Unknown").
Proof.
  unfold test_connection. cbn [catch MonadExc_Py bind Monad_Py].
  pose proof (execute_query_sends env self Documents.test_connection JNull log) as Hs.
  destruct (execute_query env self Documents.test_connection JNull log) as [[e|result] log'].
  - cbn [snd] in Hs. subst log'. cbn [ret Monad_Py fst].
    exists false, ("[ERROR] Connection failed: " ++ str_exn e).
    split; [reflexivity|]. split; [discriminate|].
    split; [intros _; reflexivity|]. split.
    + intros e' [= <-]. split; reflexivity.
    + intros fields H. discriminate H.
  - cbn [snd] in Hs. subst log'. unfold lift. cbn [fst].
    destruct (get result "data" (JObj [])) as [e|data] eqn:E1.
    { cbn [ret Monad_Py]. exists false, ("[ERROR] Connection failed: " ++ str_exn e).
      split; [reflexivity|]. split; [discriminate|].
      split; [intros _; reflexivity|]. split; [discriminate|].
      intros fields [= ->] Hl. cbn [get] in E1. discriminate E1. }
    destruct (get data "currentUser" (JObj [])) as [e|user] eqn:E2.
    { cbn [ret Monad_Py]. exists false, ("[ERROR] Connection failed: " ++ str_exn e).
      split; [reflexivity|]. split; [discriminate|].
      split; [intros _; reflexivity|]. split; [discriminate|].
      intros fields [= ->] Hl. cbn [get] in E1. rewrite Hl in E1.
      injection E1 as <-. discriminate E2. }
    destruct (get user "email" (JStr "Unknown")) as [e|user_email] eqn:E3.
    { cbn [ret Monad_Py]. exists false, ("[ERROR] Connection failed: " ++ str_exn e).
      split; [reflexivity|]. split; [discriminate|].
      split; [intros _; reflexivity|]. split; [discriminate|].
      intros fields [= ->] Hl. cbn [get] in E1. rewrite Hl in E1.
      injection E1 as <-. cbn [get lookup] in E2. injection E2 as <-. discriminate E3. }
    cbn [ret Monad_Py].
    exists true, ("[OK] Connection successful! User: " ++ str user_email).
    split; [reflexivity|]. split.
    { intros _. split; [apply startswith_app|]. exists result. reflexivity. }
    split; [discriminate|]. split; [discriminate|].
    intros fields [= ->] Hl. cbn [get] in E1. rewrite Hl in E1.
    injection E1 as <-. cbn [get lookup] in E2. injection E2 as <-.
    cbn [get lookup] in E3. injection E3 as <-. split; reflexivity.
Qed.

Lemma test_connection_never_raises_witness :
  test_connection (example_env (answers JNull)) example_client []
  = (inr (false, "[ERROR] Connection failed: 'NoneType' object has no attribute 'get'"),
     [request_of example_client Documents.test_connection JNull]).
Proof.
  destruct (test_connection_never_raises (example_env (answers JNull)) example_client [])
    as (ok & msg & H & _ & _ & _ & _).
  rewrite H. vm_compute in H. injection H as <- <-. reflexivity.
Defined.

(** ** The token in the message of a refused authentication *)

Lemma take_all n (s : string) : (String.length s <= n)%nat -> take n s = s.
Proof.
  revert n. induction s as [|x s IH]; intros n H; destruct n; try reflexivity.
  - simpl in H. lia.
  - simpl in *. rewrite IH by lia. reflexivity.
Qed.

(** X5.  On a status 401 the message of [execute_query] is meant to show
    the ends of the token only, but a token of at most 8 characters is
    shown in full: its first 8 characters are the token itself. *)
Theorem auth_failure_shows_short_token env self query variables log r :
  upstream env (request_of self query variables) = Returns r ->
  status_code r = 401 ->
  (String.length (api_token self) <= 8)%nat ->
  exists rest,
    fst (execute_query env self query variables log)
    = inl (ValueError ("🔐 API认证失败，请检查token是否正确
当前token: " ++ api_token self ++ "..." ++ rest)).
Proof.
  intros Hup Hs Hlen. rewrite execute_query_spec, Hup, Hs. cbn [fst].
  exists (last_n 4 (api_token self)).
  change ((200 <=? 401) && (401 <=? 299)) with false. cbn iota.
  unfold reraise. change (401 =? 401) with true. cbn iota.
  rewrite (take_all 8) by exact Hlen. reflexivity.
Qed.

Lemma auth_failure_shows_short_token_witness :
  exists rest,
    fst (execute_query (example_env (answers_status 401 "Unauthorized"))
           (mkClient "s3cr3t" "https://api.rize.io/api/v1/graphql" [])
           Documents.get_current_user JNull [])
    = inl (ValueError ("🔐 API认证失败，请检查token是否正确
当前token: " ++ "s3cr3t" ++ "..." ++ rest)).
Proof.
  apply (auth_failure_shows_short_token
           (example_env (answers_status 401 "Unauthorized"))
           (mkClient "s3cr3t" "https://api.rize.io/api/v1/graphql" [])
           Documents.get_current_user JNull []
           (mkResponse 401 "Unauthorized" (NotJson "Expecting value"))).
  - reflexivity.
  - reflexivity.
  - simpl. lia.
Defined.

(** ** The requests of the operations *)

Lemma is_mutation_request_of self query variables :
  is_mutation (request_of self query variables)
  = startswith "mutation" (lstrip_space query).
Proof. reflexivity. Qed.

(** What an operation sends, from any log: nothing when [create_session]
    cannot resolve its window, one request otherwise. *)
Lemma run_sends env self op log :
  exists query variables,
    snd (run env self op log)
    = (log ++ match op with
              | CreateSession _ _ _ duration_minutes start_time end_time =>
                  match resolve_window env (of_int duration_minutes)
                          (of_opt_str start_time) (of_opt_str end_time) with
                  | inl _ => []
                  | inr _ => [request_of self query variables]
                  end
              | _ => [request_of self query variables]
              end)%list
    /\ startswith "mutation" (lstrip_space query) = negb (is_read op).
Proof.
  destruct op; cbn [run is_read negb];
    try (unfold get_current_user, get_projects, get_project, create_project,
           update_project, delete_project, get_tasks, get_task, create_task,
           update_task, delete_task, get_sessions, get_current_session,
           update_session, delete_session, start_session_timer, stop_session_timer,
           extend_current_session;
         eexists; eexists; split; [apply execute_query_sends|vm_compute; reflexivity]).
  unfold create_session. cbn [bind Monad_Py lift].
  destruct (resolve_window env _ _ _) as [e|[start_dt end_dt]].
  - exists Documents.create_session, JNull. cbn [snd]. rewrite app_nil_r.
    split; [reflexivity|vm_compute; reflexivity].
  - eexists; eexists; split; [apply execute_query_sends|vm_compute; reflexivity].
Qed.

(** X6.  The operations named [get_*] send a query and nothing else; every
    other operation of the client sends a mutation and nothing else.  So
    reading never changes anything on the service. *)
Theorem reads_send_queries env self op r :
  In r (snd (run env self op [])) ->
  is_mutation r = negb (is_read op).
Proof.
  destruct (run_sends env self op []) as (query & variables & -> & Hm).
  cbn [app]. intros H.
  assert (Hone : In r [request_of self query variables] ->
                 is_mutation r = negb (is_read op)).
  { intros [<-|[]]. rewrite is_mutation_request_of. exact Hm. }
  destruct op; try (apply Hone; exact H).
  destruct (resolve_window env _ _ _); [destruct H|apply Hone; exact H].
Qed.

Lemma reads_send_queries_witness :
  is_mutation (request_of example_client Documents.get_tasks
                 (JObj [("first", JNum 5); ("projectId", JStr "p1")])) = false
  /\ is_mutation (request_of example_client Documents.delete_task
                    (JObj [("input", JObj [("id", JStr "t1")])])) = true.
Proof.
  split.
  - apply (reads_send_queries (example_env (answers JNull)) example_client
             (GetTasks 5 (Some "p1"))).
    left. reflexivity.
  - apply (reads_send_queries (example_env (answers JNull)) example_client
             (DeleteTask "t1")).
    left. reflexivity.
Defined.

(** X7.  Every operation of the client sends exactly one request, to the
    URL of the client and with its headers, whether the call then returns
    or raises: a failed request is not sent again.  The one exception is
    [create_session], which sends nothing when it cannot work out the start
    and the end. *)
Theorem operations_send_one_request env self op log :
  exists sent_now,
    snd (run env self op log) = (log ++ sent_now)%list
    /\ (forall r, In r sent_now -> url r = base_url self /\ headers r = client_headers self)
    /\ match op with
       | CreateSession _ _ _ duration_minutes start_time end_time =>
           match resolve_window env (of_int duration_minutes)
                   (of_opt_str start_time) (of_opt_str end_time) with
           | inl e => sent_now = [] /\ fst (run env self op log) = inl e
           | inr _ => List.length sent_now = 1%nat
           end
       | _ => List.length sent_now = 1%nat
       end.
Proof.
  destruct (run_sends env self op log) as (query & variables & Hs & _).
  assert (Hone : forall r, In r [request_of self query variables] ->
                 url r = base_url self /\ headers r = client_headers self).
  { intros r [<-|[]]. split; reflexivity. }
  destruct op; try (eexists; split; [exact Hs|split; [exact Hone|reflexivity]]).
  cbn [run] in *. unfold create_session in *. cbn [bind Monad_Py lift] in *.
  destruct (resolve_window env _ _ _) as [e|[start_dt end_dt]].
  - exists []. split; [exact Hs|]. split; [intros r []|]. split; reflexivity.
  - eexists; split; [exact Hs|split; [exact Hone|reflexivity]].
Qed.

Lemma operations_send_one_request_witness :
  exists sent_now,
    snd (run (example_env (fails (HttpxConnectTimeout "timed out"))) example_client
           (DeleteTask "t1") []) = sent_now
    /\ List.length sent_now = 1%nat.
Proof.
  destruct (operations_send_one_request
              (example_env (fails (HttpxConnectTimeout "timed out"))) example_client
              (DeleteTask "t1") []) as (sent_now & H1 & _ & H2).
  exists sent_now. split; assumption.
Defined.

(** ** Optional arguments *)

Lemma lookup_setitem k k0 v d :
  lookup k (setitem k0 v d) = if String.eqb k k0 then Some v else lookup k d.
Proof.
  induction d as [|[k' v'] d IH]; cbn [setitem lookup].
  - reflexivity.
  - destruct (String.eqb k0 k') eqn:E0.
    + apply String.eqb_eq in E0. subst k'. cbn [lookup].
      destruct (String.eqb k k0); reflexivity.
    + cbn [lookup]. destruct (String.eqb k k') eqn:E1.
      * apply String.eqb_eq in E1. subst k'.
        rewrite String.eqb_sym, E0. reflexivity.
      * exact IH.
Qed.

Lemma lookup_set_if k c k0 v d :
  lookup k (set_if c k0 v d)
  = if c && String.eqb k k0 then Some v else lookup k d.
Proof. unfold set_if. destruct c; [apply lookup_setitem|reflexivity]. Qed.

(** X8.  An optional argument is passed on under its key with the value
    the caller gave, or it is left out, and the test differs.  The three
    updates ([update_project], [update_task], [update_session]) pass on
    every argument that is not [None], an empty string and a zero included.
    [create_project], [create_task], [create_session] and [get_tasks] pass
    on an argument only when it is true: they leave out an empty string and
    a zero as they leave out [None]. *)
Theorem optional_argument_passed_on env self op k v doc vars :
  In (k, v) (optional_values op) ->
  In (doc, Some vars) (sent env self op) ->
  input_field k vars
  = if (if tests_none op then is_not_none v else truthy v) then Some v else None.
Proof.
  intros Hk Hs. unfold sent in Hs.
  destruct op; cbn [optional_values] in Hk; try contradiction; cbn [run] in Hs.
  all: try rewrite sent_create_session in Hs.
  all: try (unfold create_project, update_project, get_tasks, create_task, update_task,
              update_session in Hs; rewrite sent_pair in Hs).
  all: try (destruct (resolve_window _ _ _ _) as [e|[start_dt end_dt]]; [contradiction|]).
  all: destruct Hs as [Hs|[]]; injection Hs as _ <-.
  all: cbn [In] in Hk;
       repeat match type of Hk with
       | _ \/ _ => destruct Hk as [Hk|Hk]
       | False => contradiction
       end; injection Hk as <- <-.
  all: cbn [tests_none truthy input_field lookup String.eqb Ascii.eqb Bool.eqb].
  all: rewrite ?lookup_set_if; cbn [lookup String.eqb Ascii.eqb Bool.eqb andb].
  all: rewrite ?andb_true_r, ?andb_false_r; cbn iota.
  all: try reflexivity.
  destruct (truthy (of_opt_str project_id)); reflexivity.
Qed.

Lemma optional_argument_passed_on_witness :
  input_field "timeBudget"
    (JObj [("input", JObj [("id", JStr "p1"); ("name", JStr ""); ("timeBudget", JNum 0)])])
  = Some (JNum 0)
  /\ input_field "timeBudget" (JObj [("input", JObj [("name", JStr "Thesis")])]) = None.
Proof.
  split.
  - apply (optional_argument_passed_on (example_env (answers JNull)) example_client
             (UpdateProject "p1" (Some "") None None (Some 0) None)
             "timeBudget" (JNum 0) (Some (JStr Documents.update_project))).
    + cbn. auto.
    + left. reflexivity.
  - apply (optional_argument_passed_on (example_env (answers JNull)) example_client
             (CreateProject "Thesis" None (Some "") None (Some 0) None)
             "timeBudget" (JNum 0) (Some (JStr Documents.create_project))).
    + cbn. auto.
    + left. reflexivity.
Defined.

(** ** Bounds that cannot be read *)



(** ** The time stamps sent are read back *)

Lemma strptime_whole_second s fmt dt :
  strptime s fmt = Some dt -> microsecond dt = 0.
Proof.
  unfold strptime. destruct (compile_format fmt) as [its|]; [|discriminate].
  destruct (match_items its s default_fields) as [[f [|c r]]|]; try discriminate.
  destruct (check_fields (fY f) (fm f) (fd f) (fH f) (fM f) (fS f) 0); [|discriminate].
  intros [= <-]. reflexivity.
Qed.

Lemma try_formats_whole_second s fmts dt :
  try_formats s fmts = Some dt -> microsecond dt = 0.
Proof.
  induction fmts as [|fmt fmts IH]; simpl; [discriminate|].
  destruct (strptime s fmt) as [dt'|] eqn:E; [|exact IH].
  intros [= <-]. eapply strptime_whole_second. exact E.
Qed.

Lemma parse_by_formats_whole_second env bound dt :
  by_formats bound = true -> truthy bound = true ->
  parse_time_string env bound = inr dt ->
  microsecond dt = 0.
Proof.
  destruct bound as [| | |s| |]; try discriminate.
  cbn [by_formats truthy parse_time_string]. intros Hb Ht.
  destruct (String.eqb s ""); [discriminate|]. cbn [orb] in Hb.
  destruct (try_formats (remove_char "Z" s) formats) as [dt'|] eqn:E; [|discriminate].
  intros [= <-]. eapply try_formats_whole_second. exact E.
Qed.

Lemma microsecond_of_to_us dt :
  valid dt = true -> microsecond dt = to_us dt mod 1000000.
Proof.
  intros Hv. apply valid_fields in Hv.
  destruct Hv as (_ & _ & _ & _ & _ & _ & Hus).
  unfold to_us, US_PER_DAY.
  set (ord := toordinal dt). set (secs := (hour dt * 60 + minute dt) * 60 + second dt).
  clearbody ord secs.
  Z.div_mod_to_equations. lia.
Qed.

Lemma shift_keeps_whole_second dt e k :
  valid dt = true -> valid e = true -> microsecond dt = 0 ->
  to_us e = to_us dt + k * 60000000 ->
  microsecond e = 0.
Proof.
  intros Hv He Hus Hto.
  rewrite (microsecond_of_to_us e He), Hto.
  rewrite (microsecond_of_to_us dt Hv) in Hus.
  Z.div_mod_to_equations. lia.
Qed.

Lemma timedelta_minutes_int n delta :
  timedelta_minutes (JNum n) = inr delta -> delta = n * 60000000.
Proof. cbn [timedelta_minutes]. apply check_delta_inr. Qed.

Lemma append_Z_not_empty (s : string) : String.eqb (s ++ "Z") "" = false.
Proof. destruct s; reflexivity. Qed.

(** The text sent for a date and time without microseconds and without
    offset is the first of the listed forms with the designator. *)
Lemma isoformat_render dt :
  valid dt = true -> tzinfo dt = None -> microsecond dt = 0 ->
  isoformat dt ++ "Z" = render "T" true true dt.
Proof.
  intros Hv Hn Hus. apply valid_fields in Hv.
  destruct Hv as (Hy & Hm & Hd & Hh & Hmi & Hs & _).
  unfold isoformat, render. rewrite Hn, Hus.
  rewrite (pad_d_fixed 4), !(pad_d_fixed 2) by (try (simpl; lia); lia).
  change (0 =? 0) with true. cbn iota. cbn [format_offset].
  rewrite !append_assoc. cbn [append]. rewrite ?append_nil_r.
  reflexivity.
Qed.

Lemma read_back env dt :
  valid dt = true -> tzinfo dt = None -> microsecond dt = 0 ->
  parse_time_string env (JStr (isoformat dt ++ "Z")) = inr dt.
Proof.
  intros Hv Hn Hus. rewrite (isoformat_render dt Hv Hn Hus).
  unfold parse_time_string.
  rewrite (remove_Z_render "T" true true dt) by (left; reflexivity).
  rewrite (try_formats_render "T" true dt Hv Hus Hn) by (try discriminate; left; reflexivity).
  reflexivity.
Qed.

(** X10.  When the bounds given are read by the five formats, and one at
    least is given, the two texts [create_session] sends as [startTime] and
    [endTime] are read back by [parse_time_string] as the start and the end
    they were made from.  So a session created again from the two texts
    sent has the same start and the same end, whatever the duration. *)
Theorem create_session_timestamps_read_back env n start_time end_time start_dt end_dt :
  by_formats start_time = true -> by_formats end_time = true ->
  truthy start_time || truthy end_time = true ->
  resolve_window env (JNum n) start_time end_time = inr (start_dt, end_dt) ->
  parse_time_string env (JStr (isoformat start_dt ++ "Z")) = inr start_dt
  /\ parse_time_string env (JStr (isoformat end_dt ++ "Z")) = inr end_dt
  /\ forall duration_minutes,
       resolve_window env duration_minutes
         (JStr (isoformat start_dt ++ "Z")) (JStr (isoformat end_dt ++ "Z"))
       = inr (start_dt, end_dt).
Proof.
  intros Hbs Hbe Hany H.
  assert (Hboth : (valid start_dt = true /\ tzinfo start_dt = None
                   /\ microsecond start_dt = 0)
                  /\ (valid end_dt = true /\ tzinfo end_dt = None
                      /\ microsecond end_dt = 0)).
  { unfold resolve_window in H.
    destruct (truthy start_time) eqn:Hs, (truthy end_time) eqn:He;
      cbn [andb orb] in H, Hany; try discriminate Hany.
    all: repeat match type of H with
         | bind _ _ = inr _ =>
             let x := fresh "x" in let E := fresh "E" in
             apply bind_inr in H as (x & E & H)
         end.
    all: injection H as <- <-.
    all: repeat match goal with
         | E : parse_time_string _ ?b = inr _,
           Hb : by_formats ?b = true, Ht : truthy ?b = true |- _ =>
             pose proof (parse_by_formats_whole_second _ _ _ Hb Ht E);
             apply (parse_by_formats _ _ _ Hb Ht) in E; destruct E
         | E : timedelta_minutes _ = inr _ |- _ => apply timedelta_minutes_int in E
         | E : add _ _ = inr _ |- _ => apply add_spec in E; destruct E as (? & ? & ?)
         | E : sub_delta _ _ = inr _ |- _ =>
             apply sub_delta_spec in E; destruct E as (? & ? & ?)
         end.
    all: subst.
    all: repeat split; try assumption; try congruence.
    - eapply (shift_keeps_whole_second x _ n); eassumption.
    - eapply (shift_keeps_whole_second x _ (- n)); try eassumption. lia. }
  destruct Hboth as [(Hv1 & Hn1 & Hu1) (Hv2 & Hn2 & Hu2)].
  pose proof (read_back env start_dt Hv1 Hn1 Hu1) as R1.
  pose proof (read_back env end_dt Hv2 Hn2 Hu2) as R2.
  split; [exact R1|split; [exact R2|]].
  intros duration_minutes. unfold resolve_window.
  cbn [truthy]. rewrite !append_Z_not_empty. cbn [negb andb].
  rewrite R1, R2. reflexivity.
Qed.

Lemma create_session_timestamps_read_back_witness :
  parse_time_string (example_env (answers JNull)) (JStr "2025-07-21T14:00:00Z")
  = inr (mkDatetime 2025 7 21 14 0 0 0 None)
  /\ parse_time_string (example_env (answers JNull)) (JStr "2025-07-21T15:30:00Z")
     = inr (mkDatetime 2025 7 21 15 30 0 0 None).
Proof.
  destruct (create_session_timestamps_read_back (example_env (answers JNull)) 90
              (JStr "2025-07-21 14:00") JNull
              (mkDatetime 2025 7 21 14 0 0 0 None) (mkDatetime 2025 7 21 15 30 0 0 None))
    as (H1 & H2 & _).
  - reflexivity.
  - reflexivity.
  - reflexivity.
  - vm_compute. reflexivity.
  - split; [exact H1|exact H2].
Defined.

(** ** The requests of a tool *)

Lemma snd_handle_call_tool env tool arguments log :
  snd (handle_call_tool env tool arguments log) = snd (tool_try env tool arguments log).
Proof.
  rewrite handle_call_tool_dispatch.
  destruct (tool_try env tool arguments log) as [[e|t] log']; reflexivity.
Qed.

Lemma quiet_ret {A : Type} (x : A) : quiet (ret x).
Proof. intros log. reflexivity. Qed.

Lemma quiet_lift {A : Type} (r : Exc A) : quiet (lift r).
Proof. intros log. reflexivity. Qed.

Lemma quiet_bind {A B : Type} (c : Py A) (f : A -> Py B) :
  quiet c -> (forall a, quiet (f a)) -> quiet (bind c f).
Proof.
  intros Hc Hf log. cbn [bind Monad_Py]. specialize (Hc log).
  destruct (c log) as [[e|a] log']; cbn [snd] in *; subst log'; [reflexivity|apply Hf].
Qed.

Lemma one_quiet {A : Type} env docs (c : Py A) : quiet c -> one_request env docs c.
Proof. intros Hc log. left. apply Hc. Qed.

Lemma one_bind_lift {A B : Type} env docs (r : Exc A) (f : A -> Py B) :
  (forall a, r = inr a -> one_request env docs (f a)) ->
  one_request env docs (bind (lift r) f).
Proof.
  intros Hf log. cbn [bind Monad_Py lift].
  destruct r as [e|a]; [left; reflexivity|]. apply (Hf a eq_refl).
Qed.

Lemma one_bind {A B : Type} env docs (c : Py A) (f : A -> Py B) :
  one_request env docs c -> (forall a, quiet (f a)) -> one_request env docs (bind c f).
Proof.
  intros Hc Hf log. cbn [bind Monad_Py]. specialize (Hc log).
  destruct (c log) as [[e|a] log'] eqn:E; cbn [snd] in *.
  - exact Hc.
  - rewrite (Hf a log'). exact Hc.
Qed.

Lemma one_catch {A : Type} env docs (c : Py A) (h : exn -> Py A) :
  one_request env docs c -> (forall e, quiet (h e)) -> one_request env docs (catch c h).
Proof.
  intros Hc Hh log. cbn [catch MonadExc_Py]. specialize (Hc log).
  destruct (c log) as [[e|a] log'] eqn:E; cbn [snd] in *.
  - rewrite (Hh e log'). exact Hc.
  - exact Hc.
Qed.

Lemma one_query env docs client query variables :
  init env None = inr client -> In query docs ->
  one_request env docs (execute_query env client query variables).
Proof.
  intros Hi Hq log. right. exists client, query, variables.
  split; [exact Hi|split; [exact Hq|apply execute_query_sends]].
Qed.

(** The steps after the query of a tool send nothing. *)
Ltac quiet_tac :=
  repeat (intros;
          match goal with
          | |- quiet (bind _ _) => apply quiet_bind
          | |- quiet (lift _) => apply quiet_lift
          | |- quiet (ret _) => apply quiet_ret
          | |- quiet (if ?c then _ else _) => destruct c
          | |- quiet (match ?c with (pair _ _) => _ end) => destruct c
          end).

Lemma tool_requests env tool arguments :
  one_request env (tool_documents tool arguments) (tool_try env tool arguments).
Proof.
  unfold tool_try, tool_documents.
  repeat match goal with
  | |- context [String.eqb tool ?s] => destruct (String.eqb tool s)
  end.
  - (* test_connection *)
    unfold test_connection_try. apply one_bind_lift. intros client Hi.
    apply one_bind; [|quiet_tac]. unfold test_connection.
    apply one_catch; [|quiet_tac].
    apply one_bind; [|quiet_tac].
    apply (one_query env _ client); [exact Hi|left; reflexivity].
  - (* list_projects *)
    unfold list_projects_try. apply one_bind_lift. intros client Hi.
    apply one_bind_lift. intros limit _. unfold get_projects.
    apply one_bind; [|quiet_tac].
    apply (one_query env _ client); [exact Hi|left; reflexivity].
  - (* create_project *)
    unfold create_project_try. apply one_bind_lift. intros client Hi.
    apply one_bind_lift. intros nm _.
    destruct (negb (truthy nm)); [apply one_quiet; quiet_tac|].
    apply one_bind_lift. intros emoji _. unfold create_project.
    apply one_bind; [|quiet_tac].
    apply (one_query env _ client); [exact Hi|left; reflexivity].
  - (* start_session_timer *)
    unfold start_session_timer_try. apply one_bind_lift. intros client Hi.
    apply one_bind_lift. intros session_type _. unfold start_session_timer.
    apply one_bind; [|quiet_tac].
    apply (one_query env _ client); [exact Hi|left; reflexivity].
  - (* stop_session_timer *)
    unfold stop_session_timer_try. apply one_bind_lift. intros client Hi.
    apply one_bind_lift. intros confirm Hc.
    destruct (normalized arguments) as [| | | | |d]; try discriminate Hc.
    cbn [get] in Hc. injection Hc as <-. fold (arg d "confirm" (JBool false)).
    destruct (truthy (arg d "confirm" (JBool false))).
    + unfold stop_confirmed, stop_session_timer.
      apply one_bind; [|quiet_tac].
      apply (one_query env _ client); [exact Hi|left; reflexivity].
    + unfold stop_unconfirmed, get_current_session.
      apply one_bind; [|quiet_tac].
      apply (one_query env _ client); [exact Hi|left; reflexivity].
  - (* get_current_session *)
    unfold get_current_session_try. apply one_bind_lift. intros client Hi.
    unfold get_current_session.
    apply one_bind; [|quiet_tac].
    apply (one_query env _ client); [exact Hi|left; reflexivity].
  - (* create_session *)
    unfold create_session_try. apply one_bind_lift. intros [needs_confirm confirm_msg] _.
    destruct needs_confirm; [apply one_quiet; quiet_tac|].
    apply one_bind_lift. intros client Hi.
    do 6 (apply one_bind_lift; intros ? _).
    apply one_bind; [|quiet_tac]. unfold create_session.
    apply one_bind_lift. intros [start_dt end_dt] _.
    apply (one_query env _ client); [exact Hi|left; reflexivity].
  - apply one_quiet. quiet_tac.
Qed.

(** X11.  A call of a tool sends at most one request, whatever the tool,
    the arguments and the answer: nothing is sent twice and no tool chains
    two operations.  The request goes to the URL of the client made from
    the settings, with its headers, and carries a document of the operation
    the tool stands for. *)
Theorem tool_sends_at_most_one_request env tool arguments log :
  exists sent_now,
    snd (handle_call_tool env tool arguments log) = (log ++ sent_now)%list
    /\ (List.length sent_now <= 1)%nat
    /\ forall r,
         In r sent_now ->
         exists client query,
           init env None = inr client
           /\ url r = base_url client /\ headers r = client_headers client
           /\ document_of r = Some (JStr query)
           /\ In query (tool_documents tool arguments).
Proof.
  rewrite snd_handle_call_tool.
  destruct (tool_requests env tool arguments log)
    as [H|(client & query & variables & Hi & Hq & H)]; rewrite H.
  - exists []. rewrite app_nil_r. split; [reflexivity|]. split; [simpl; lia|].
    intros r [].
  - exists [request_of client query variables].
    split; [reflexivity|]. split; [simpl; lia|].
    intros r [<-|[]]. exists client, query. repeat split; assumption.
Qed.

(** X12.  The tools that read send no mutation: whatever the arguments and
    the answers, a request sent by [test_connection], [list_projects] or
    [get_current_session], or by [stop_session_timer] called without
    [confirm], is a query. *)
Theorem reading_tools_send_no_mutation env tool arguments r :
  tool = "test_connection" \/ tool = "list_projects" \/ tool = "get_current_session"
  \/ (tool = "stop_session_timer"
      /\ exists d, normalized arguments = JObj d
                   /\ truthy (arg d "confirm" (JBool false)) = false) ->
  In r (snd (call_tool env tool arguments)) ->
  is_mutation r = false.
Proof.
  intros Htool. unfold call_tool. rewrite snd_handle_call_tool.
  destruct (tool_requests env tool arguments [])
    as [H|(client & query & variables & Hi & Hq & H)]; rewrite H; [intros []|].
  cbn [app]. intros [<-|[]]. rewrite is_mutation_request_of.
  destruct Htool as [->|[->|[->|[-> (d & Hn & Hc)]]]]; unfold tool_documents in Hq;
    cbn [String.eqb Ascii.eqb Bool.eqb] in Hq.
  4: rewrite Hn, Hc in Hq.
  all: destruct Hq as [<-|[]]; vm_compute; reflexivity.
Qed.

Lemma reading_tools_send_no_mutation_witness :
  is_mutation (request_of example_client Documents.get_current_session JNull) = false.
Proof.
  apply (reading_tools_send_no_mutation (example_env (answers example_data))
           "stop_session_timer" (JObj [("confirm", JBool false)])).
  - right. right. right. split; [reflexivity|].
    exists [("confirm", JBool false)]. split; reflexivity.
  - left. reflexivity.
Defined.

(** X13.  Without a token in the settings no tool sends anything, whatever
    the arguments.  Each tool but [create_session] answers with its error
    label followed by the message of the missing token; [create_session]
    checks its arguments first, and answers so when it gets past the
    check. *)
Theorem no_token_no_request env tool arguments log e :
  init env None = inl e ->
  snd (handle_call_tool env tool arguments log) = log
  /\ (known_tool tool = true -> tool <> "create_session" ->
      fst (handle_call_tool env tool arguments log)
      = inr [mkTextContent "text" (error_label tool ++ str_exn e)])
  /\ (tool = "create_session" ->
      validate_session_params (normalized arguments) = inr (false, "") ->
      fst (handle_call_tool env tool arguments log)
      = inr [mkTextContent "text" (error_label tool ++ str_exn e)]).
Proof.
  intros Hi. split; [|split].
  - rewrite snd_handle_call_tool.
    destruct (tool_requests env tool arguments log)
      as [H|(client & query & variables & Hc & _)]; [exact H|].
    rewrite Hi in Hc. discriminate Hc.
  - intros Hk Hne. rewrite handle_call_tool_dispatch.
    unfold known_tool, tool_names in Hk. cbn [existsb] in Hk.
    unfold tool_try.
    repeat match goal with
    | |- context [String.eqb tool ?s] =>
        let E := fresh "E" in
        destruct (String.eqb tool s) eqn:E;
        [apply String.eqb_eq in E; subst tool|]
    end.
    all: try (exfalso; apply Hne; reflexivity).
    all: try discriminate Hk.
    all: unfold test_connection_try, list_projects_try, create_project_try,
           start_session_timer_try, stop_session_timer_try, get_current_session_try;
         cbn [bind Monad_Py lift]; rewrite Hi; reflexivity.
  - intros -> Hv. rewrite handle_call_tool_dispatch.
    unfold tool_try. cbn [String.eqb Ascii.eqb Bool.eqb].
    unfold create_session_try. cbn [bind Monad_Py lift]. rewrite Hv, Hi. reflexivity.
Qed.

Lemma no_token_no_request_witness :
  handle_call_tool (example_env_no_token (answers example_data)) "stop_session_timer"
    (JObj [("confirm", JBool true)]) []
  = (inr [mkTextContent "text"
            ("[ERROR] Failed to process stop request: ❌ Rize API Token 未设置
请在.env文件中设置: RIZE_API_TOKEN=your_token_here
或在Rize应用中生成: Settings > API > Generate new token")], []).
Proof.
  destruct (no_token_no_request (example_env_no_token (answers example_data))
              "stop_session_timer" (JObj [("confirm", JBool true)]) []
              (ValueError "❌ Rize API Token 未设置
请在.env文件中设置: RIZE_API_TOKEN=your_token_here
或在Rize应用中生成: Settings > API > Generate new token") eq_refl) as (H1 & H2 & _).
  specialize (H2 eq_refl ltac:(discriminate)).
  destruct (handle_call_tool _ _ _ _) as [a b]. cbn [fst snd] in *. subst. reflexivity.
Defined.

Lemma tool_sends_at_most_one_request_witness :
  exists sent_now,
    snd (handle_call_tool (example_env (fails (HttpxConnectTimeout "timed out")))
           "list_projects" JNull []) = sent_now
    /\ (List.length sent_now <= 1)%nat.
Proof.
  destruct (tool_sends_at_most_one_request
              (example_env (fails (HttpxConnectTimeout "timed out")))
              "list_projects" JNull []) as (sent_now & H1 & H2 & _).
  exists sent_now. split; assumption.
Defined.

(** ** The catalogue and the dispatcher *)

(** X14.  The names the catalogue of [handle_list_tools] advertises are
    the names [handle_call_tool] handles: a name is outside the catalogue
    exactly when every call with it is answered [[ERROR] Unknown tool] and
    sends nothing. *)
Theorem catalogue_is_what_is_handled tool :
  ~ In tool advertised
  <-> (forall env arguments log,
         handle_call_tool env tool arguments log
         = (inr [mkTextContent "text" ("[ERROR] Unknown tool: " ++ tool)], log)).
Proof.
  split.
  - intros Hout env arguments log. rewrite handle_call_tool_dispatch. unfold tool_try.
    repeat match goal with
    | |- context [String.eqb tool ?s] =>
        let E := fresh "E" in
        destruct (String.eqb tool s) eqn:E;
        [apply String.eqb_eq in E; subst tool; exfalso; apply Hout; cbn; tauto|]
    end.
    reflexivity.
  - intros Hall Hin.
    specialize (Hall (example_env_no_token (answers JNull)) JNull []).
    cbn in Hin.
    repeat (destruct Hin as [<-|Hin]; [vm_compute in Hall; discriminate Hall|]).
    exact Hin.
Qed.

Lemma catalogue_is_what_is_handled_witness :
  handle_call_tool (example_env (answers example_data)) "delete_project" JNull []
  = (inr [mkTextContent "text" "[ERROR] Unknown tool: delete_project"], []).
Proof.
  apply (proj1 (catalogue_is_what_is_handled "delete_project")).
  cbn. intros H.
  repeat (destruct H as [H|H]; [discriminate H|]). exact H.
Defined.

(** X15.  A parameter the catalogue declares as required is checked by the
    handler: with a token configured, a call that leaves it out, or gives
    an empty value for it, is answered [[ERROR] Missing required
    parameter] with the name of the parameter, and sends nothing. *)
Theorem required_parameter_is_checked env t p arguments d client :
  In t handle_list_tools -> In p (required_of t) ->
  init env None = inr client ->
  normalized arguments = JObj d ->
  truthy (arg d p JNull) = false ->
  call_tool env (name t) arguments
  = (inr [mkTextContent "text" ("[ERROR] Missing required parameter: " ++ p)], []).
Proof.
  intros Ht Hp Hi Hn Hv. cbn in Ht.
  repeat (destruct Ht as [<-|Ht]; [cbn in Hp; try contradiction|]); [|contradiction].
  destruct Hp as [<-|[]]. cbn [name].
  unfold call_tool, handle_call_tool, dispatch. fold (normalized arguments).
  rewrite Hn. cbn [String.eqb Ascii.eqb Bool.eqb].
  unfold create_project_handler, create_project_try.
  cbn [catch MonadExc_Py bind Monad_Py lift get]. rewrite Hi.
  fold (arg d "name" JNull). rewrite Hv. reflexivity.
Qed.

Lemma required_parameter_is_checked_witness :
  call_tool (example_env (answers example_data)) "create_project"
    (JObj [("name", JStr ""); ("emoji", JStr "x")])
  = (inr [mkTextContent "text" "[ERROR] Missing required parameter: name"], []).
Proof.
  apply (required_parameter_is_checked (example_env (answers example_data))
           (mkTool "create_project" "Create a new project"
              (JObj [("type", JStr "object");
                     ("properties",
                      JObj [("name",
                             JObj [("type", JStr "string");
                                   ("description", JStr "Project name")]);
                            ("emoji",
                             JObj [("type", JStr "string");
                                   ("description", JStr "Project emoji (optional)")])]);
                     ("required", JArr [JStr "name"])]))
           "name" (JObj [("name", JStr ""); ("emoji", JStr "x")])
           [("name", JStr ""); ("emoji", JStr "x")] example_client).
  - cbn. tauto.
  - cbn. tauto.
  - reflexivity.
  - reflexivity.
  - reflexivity.
Defined.

(** ** The defaults of the catalogue *)

Lemma lookup_app_one k (d : dict) p v :
  lookup k (d ++ [(p, v)])%list
  = match lookup k d with
    | Some x => Some x
    | None => if String.eqb k p then Some v else None
    end.
Proof.
  induction d as [|[k' v'] d IH]; cbn [app lookup]; [reflexivity|].
  destruct (String.eqb k k'); [reflexivity|exact IH].
Qed.

Lemma option_id {A : Type} (o : option A) :
  match o with Some x => Some x | None => None end = o.
Proof. destruct o; reflexivity. Qed.

(** Reading the arguments with a default added at their end. *)
Ltac with_default Hl :=
  cbn [get]; rewrite ?lookup_app_one; cbn [String.eqb Ascii.eqb Bool.eqb];
  rewrite ?option_id, ?Hl; cbn iota.

(** The dispatcher on a dictionary of arguments. *)
Lemma dispatch_dict env tool (d : dict) :
  dispatch env tool (JObj d)
  = if String.eqb tool "test_connection" then test_connection_handler env
    else if String.eqb tool "list_projects" then list_projects_handler env (JObj d)
    else if String.eqb tool "create_project" then create_project_handler env (JObj d)
    else if String.eqb tool "start_session_timer"
         then start_session_timer_handler env (JObj d)
    else if String.eqb tool "stop_session_timer"
         then stop_session_timer_handler env (JObj d)
    else if String.eqb tool "get_current_session" then get_current_session_handler env
    else if String.eqb tool "create_session" then create_session_handler env (JObj d)
    else ret ("[ERROR] Unknown tool: " ++ tool).
Proof. unfold dispatch. destruct d; reflexivity. Qed.

(** The validation does not see a [session_type], and finds nothing wrong
    with a duration of 90. *)
Lemma validate_with_default (d : dict) p v :
  lookup p d = None ->
  (p = "session_type" \/ (p = "duration_minutes" /\ v = JNum 90)) ->
  match validate_session_params (JObj d),
        validate_session_params (JObj (d ++ [(p, v)])%list) with
  | inl e1, inl e2 => e1 = e2
  | inr (b1, m1), inr (b2, m2) => b1 = b2 /\ (b1 = false -> m1 = m2)
  | _, _ => False
  end.
Proof.
  intros Hl Hp. unfold validate_session_params.
  destruct Hp as [->|[-> ->]]; with_default Hl; cbn [bind Monad_Exc].
  - destruct (check_times _ _) as [issues1 suggestions1].
    destruct (check_title _) as [issues2 suggestions2].
    destruct (check_duration _) as [e|[issues3 suggestions3]]; [reflexivity|].
    cbn [bind Monad_Exc items ret].
    destruct (issues1 ++ issues2 ++ issues3)%list.
    + split; reflexivity.
    + cbn [bind Monad_Exc ret]. split; [reflexivity|discriminate].
  - change (check_duration JNull) with (@inr exn _ (@nil string, @nil string)).
    change (check_duration (JNum 90)) with (@inr exn _ (@nil string, @nil string)).
    destruct (check_times _ _) as [issues1 suggestions1].
    destruct (check_title _) as [issues2 suggestions2].
    cbn [bind Monad_Exc items ret].
    destruct (issues1 ++ issues2 ++ [])%list.
    + split; reflexivity.
    + cbn [bind Monad_Exc ret]. split; [reflexivity|discriminate].
Qed.

(** X16.  The defaults the catalogue declares are the defaults the
    handlers apply: for a tool of the catalogue and a property with a
    declared default, a call that leaves the property out sends the same
    requests as the call that gives the default for it, and gets the same
    answer.  The one difference is the confirmation message of
    [create_session], which lists the arguments as they were passed. *)
Theorem catalogue_defaults_are_applied env t p v (d : dict) :
  In t handle_list_tools -> In (p, v) (defaults_of t) ->
  lookup p d = None ->
  snd (call_tool env (name t) (JObj d))
  = snd (call_tool env (name t) (JObj (d ++ [(p, v)])%list))
  /\ (name t <> "create_session" \/ validate_session_params (JObj d) = inr (false, "") ->
      call_tool env (name t) (JObj d) = call_tool env (name t) (JObj (d ++ [(p, v)])%list)).
Proof.
  intros Ht Hp Hl. cbn in Ht.
  repeat (destruct Ht as [<-|Ht]; [cbn in Hp|]); try contradiction.
  all: repeat match type of Hp with
       | _ \/ _ => destruct Hp as [Hp|Hp]
       | False => contradiction
       end; injection Hp as <- <-; cbn [name].
  all: unfold call_tool, handle_call_tool; rewrite !dispatch_dict;
       cbn [String.eqb Ascii.eqb Bool.eqb].
  - (* list_projects, limit *)
    unfold list_projects_handler, list_projects_try.
    with_default Hl. split; reflexivity.
  - (* start_session_timer, session_type *)
    unfold start_session_timer_handler, start_session_timer_try.
    with_default Hl. split; reflexivity.
  - (* stop_session_timer, confirm *)
    unfold stop_session_timer_handler, stop_session_timer_try.
    with_default Hl. split; reflexivity.
  - (* create_session, session_type *)
    pose proof (validate_with_default d "session_type" (JStr "focus") Hl
                  (or_introl eq_refl)) as Hv.
    unfold create_session_handler, create_session_try.
    cbn [catch MonadExc_Py bind Monad_Py lift].
    destruct (validate_session_params (JObj d)) as [e1|[b1 m1]],
             (validate_session_params (JObj (d ++ [("session_type", JStr "focus")])%list))
      as [e2|[b2 m2]]; try contradiction.
    + subst e2. split; reflexivity.
    + destruct Hv as [<- Hm]. destruct b1.
      * split; [reflexivity|]. intros [H|H]; [exfalso; apply H; reflexivity|discriminate H].
      * rewrite (Hm eq_refl). with_default Hl. split; reflexivity.
  - (* create_session, duration_minutes *)
    pose proof (validate_with_default d "duration_minutes" (JNum 90) Hl
                  (or_intror (conj eq_refl eq_refl))) as Hv.
    unfold create_session_handler, create_session_try.
    cbn [catch MonadExc_Py bind Monad_Py lift].
    destruct (validate_session_params (JObj d)) as [e1|[b1 m1]],
             (validate_session_params (JObj (d ++ [("duration_minutes", JNum 90)])%list))
      as [e2|[b2 m2]]; try contradiction.
    + subst e2. split; reflexivity.
    + destruct Hv as [<- Hm]. destruct b1.
      * split; [reflexivity|]. intros [H|H]; [exfalso; apply H; reflexivity|discriminate H].
      * rewrite (Hm eq_refl). with_default Hl. split; reflexivity.
Qed.

Lemma catalogue_defaults_are_applied_witness :
  call_tool (example_env (answers example_data)) "create_session"
    (JObj [("title", JStr "Focus"); ("start_time", JStr "2025-07-21 14:00")])
  = call_tool (example_env (answers example_data)) "create_session"
      (JObj [("title", JStr "Focus"); ("start_time", JStr "2025-07-21 14:00");
             ("duration_minutes", JNum 90)]).
Proof.
  apply (catalogue_defaults_are_applied (example_env (answers example_data))
           (nth 6 handle_list_tools (mkTool "" "" JNull))
           "duration_minutes" (JNum 90)
           [("title", JStr "Focus"); ("start_time", JStr "2025-07-21 14:00")]).
  - cbn. tauto.
  - cbn. tauto.
  - reflexivity.
  - right. reflexivity.
Defined.

(** ** The answers of the tools *)

Lemma returns_only_ret {A : Type} (P : A -> Prop) (x : A) : P x -> returns_only P (ret x).
Proof. intros H log a log' [= <- _]. exact H. Qed.

Lemma returns_only_bind {A B : Type} (P : B -> Prop) (c : Py A) (f : A -> Py B) :
  (forall a, returns_only P (f a)) -> returns_only P (bind c f).
Proof.
  intros Hf log b log'. cbn [bind Monad_Py].
  destruct (c log) as [[e|a] l1]; [discriminate|]. apply Hf.
Qed.

Lemma honest_ret env t :
  tagged t = true -> reports_success t = false -> honest env (ret t).
Proof.
  intros Ht Hs log t' log' [= <- _]. split; [exact Ht|].
  rewrite Hs. discriminate.
Qed.

Lemma honest_bind_lift {A : Type} env (r : Exc A) (f : A -> Py string) :
  (forall a, r = inr a -> honest env (f a)) -> honest env (bind (lift r) f).
Proof.
  intros Hf log t log'. cbn [bind Monad_Py lift].
  destruct r as [e|a]; [discriminate|]. apply (Hf a eq_refl).
Qed.

Lemma honest_query env client query variables (f : json -> Py string) :
  (forall x, quiet (f x)) ->
  (forall x, returns_only (fun t => tagged t = true) (f x)) ->
  honest env (bind (execute_query env client query variables) f).
Proof.
  intros Hq Ht log t log'. cbn [bind Monad_Py].
  destruct (execute_query env client query variables log) as [[e|result] l1] eqn:E;
    [discriminate|].
  intros H. split; [exact (Ht result l1 t log' H)|].
  intros _. exists client, query, variables, result.
  pose proof (Hq result l1) as Hl. rewrite H in Hl. cbn [snd] in Hl. subst l1. exact E.
Qed.

Lemma honest_catch env (c : Py string) (label : string) :
  honest env c ->
  (forall m, tagged (label ++ m) = true /\ reports_success (label ++ m) = false) ->
  honest env (catch c (fun e => ret (label ++ str_exn e))).
Proof.
  intros Hc Hl log t log'. cbn [catch MonadExc_Py].
  destruct (c log) as [[e|t0] l1] eqn:E.
  - cbn [ret Monad_Py]. intros [= <- _].
    destruct (Hl (str_exn e)) as [H1 H2]. split; [exact H1|]. rewrite H2. discriminate.
  - intros [= <- <-]. exact (Hc log t0 l1 E).
Qed.

(** The message of the validation is tagged as a confirmation. *)
Lemma validate_confirm_tag args msg :
  validate_session_params args = inr (true, msg) -> startswith "[CONFIRM]" msg = true.
Proof.
  unfold validate_session_params. intros H.
  apply bind_inr in H as (start_time & _ & H).
  apply bind_inr in H as (end_time & _ & H).
  apply bind_inr in H as (duration_minutes & _ & H).
  destruct (check_times start_time end_time) as [issues1 suggestions1].
  apply bind_inr in H as (title & _ & H).
  destruct (check_title title) as [issues2 suggestions2].
  apply bind_inr in H as ([issues3 suggestions3] & _ & H).
  destruct (issues1 ++ issues2 ++ issues3)%list; [discriminate|].
  apply bind_inr in H as (d & _ & H).
  injection H as <-. reflexivity.
Qed.

(** The text of the listing starts with the text it was started from. *)
Lemma list_projects_lines_prefix l acc out :
  list_projects_lines l acc = inr out -> exists rest, out = acc ++ rest.
Proof.
  revert acc. induction l as [|edge l IH]; intros acc; cbn [list_projects_lines].
  - intros [= <-]. exists "". rewrite append_nil_r. reflexivity.
  - intros H.
    apply bind_inr in H as (project & _ & H).
    apply bind_inr in H as (emoji & _ & H).
    apply bind_inr in H as (nm & _ & H).
    apply bind_inr in H as (project_id & _ & H).
    apply IH in H as [rest ->]. rewrite append_assoc. eauto.
Qed.

Lemma rstrip_space_keeps (a : string) c (b : string) :
  is_space c = false ->
  rstrip_space (a ++ String c b) = a ++ String c (rstrip_space b).
Proof.
  intros Hc. induction a as [|x a IH]; cbn [append rstrip_space].
  - rewrite Hc. destruct (rstrip_space b); reflexivity.
  - rewrite IH. destruct a; reflexivity.
Qed.

Lemma strip_keeps_tag (rest : string) :
  startswith "[SUCCESS]" (strip ("[SUCCESS]" ++ rest)) = true.
Proof.
  unfold strip. cbn [append lstrip_space].
  change (is_space "[") with false. cbn iota.
  change (String "[" (String "S" (String "U" (String "C" (String "C" (String "E"
            (String "S" (String "S" (String "]" rest)))))))))
    with ("[SUCCESS" ++ String "]" rest).
  rewrite rstrip_space_keeps by reflexivity. reflexivity.
Qed.

Lemma returns_only_bind_lift {A B : Type} (P : B -> Prop) (r : Exc A) (f : A -> Py B) :
  (forall a, r = inr a -> returns_only P (f a)) -> returns_only P (bind (lift r) f).
Proof.
  intros Hf log b log'. cbn [bind Monad_Py lift].
  destruct r as [e|a]; [discriminate|]. apply (Hf a eq_refl).
Qed.

Lemma honest_bind_lift_first {A B : Type} env (r : Exc A) (g : A -> Py B)
  (f : B -> Py string) :
  (forall a, r = inr a -> honest env (bind (g a) f)) ->
  honest env (bind (bind (lift r) g) f).
Proof.
  intros Hf log t log'. cbn [bind Monad_Py lift].
  destruct r as [e|a]; [discriminate|]. apply (Hf a eq_refl).
Qed.

Lemma confirm_is_no_success t :
  startswith "[CONFIRM]" t = true -> tagged t = true /\ reports_success t = false.
Proof.
  destruct t as [|a t]; [discriminate|].
  destruct t as [|b t]; [cbn [startswith]; rewrite andb_false_r; discriminate|].
  cbn [startswith]. intros H.
  apply andb_true_iff in H as [Ha H]. apply andb_true_iff in H as [Hb H].
  apply Ascii.eqb_eq in Ha, Hb. subst a b.
  unfold tagged, tags, reports_success. cbn [existsb startswith].
  rewrite H. split; reflexivity.
Qed.

Lemma success_is_tagged t : startswith "[SUCCESS]" t = true -> tagged t = true.
Proof.
  intros H. unfold tagged, tags. cbn [existsb]. rewrite H.
  rewrite !orb_true_r. reflexivity.
Qed.

(** The texts returned after the query of a tool are tagged.  The one
    text that is not a literal with a tag in front is the listing of the
    projects. *)
Ltac tagged_tac :=
  repeat (intros;
          match goal with
          | |- returns_only _ (bind (lift _) _) => apply returns_only_bind_lift
          | |- returns_only _ (bind _ _) => apply returns_only_bind
          | |- returns_only _ (ret _) => apply returns_only_ret; try reflexivity
          | |- returns_only _ (if ?c then _ else _) => destruct c
          end).

Ltac honest_prefix :=
  repeat (intros;
          match goal with
          | |- honest _ (bind (lift _) _) => apply honest_bind_lift
          | |- honest _ (bind (bind (lift _) _) _) => apply honest_bind_lift_first
          | |- honest _ (bind (execute_query _ _ _ _) _) =>
              apply honest_query; [quiet_tac|tagged_tac]
          | |- honest _ (ret _) => apply honest_ret; reflexivity
          | |- honest _ (if ?c then _ else _) => destruct c
          | |- honest _ (match ?c with (pair _ _) => _ end) => destruct c
          | |- honest _ (bind (match ?c with (pair _ _) => _ end) _) => destruct c
          end).

Lemma test_connection_try_honest env : honest env (test_connection_try env).
Proof.
  unfold test_connection_try. apply honest_bind_lift. intros client _.
  unfold test_connection. intros log t log'.
  cbn [bind Monad_Py catch MonadExc_Py lift].
  pose proof (execute_query_sends env client Documents.test_connection JNull log) as Hs.
  destruct (execute_query env client Documents.test_connection JNull log)
    as [[e|result] l1] eqn:E; cbn [snd] in Hs; subst l1.
  - cbn [ret Monad_Py]. intros [= <- _]. split; [reflexivity|discriminate].
  - destruct (get result "data" (JObj [])) as [e|data];
      [cbn [ret Monad_Py]; intros [= <- _]; split; [reflexivity|discriminate]|].
    destruct (get data "currentUser" (JObj [])) as [e|user];
      [cbn [ret Monad_Py]; intros [= <- _]; split; [reflexivity|discriminate]|].
    destruct (get user "email" (JStr "Unknown")) as [e|user_email];
      [cbn [ret Monad_Py]; intros [= <- _]; split; [reflexivity|discriminate]|].
    cbn [ret Monad_Py]. intros [= <- <-]. split; [reflexivity|].
    intros _. exists client, Documents.test_connection, JNull, result. exact E.
Qed.

Lemma tool_try_honest env tool arguments : honest env (tool_try env tool arguments).
Proof.
  unfold tool_try.
  repeat match goal with
  | |- context [String.eqb tool ?s] => destruct (String.eqb tool s)
  end.
  - apply test_connection_try_honest.
  - unfold list_projects_try, get_projects. honest_prefix.
    match goal with
    | H : list_projects_lines _ _ = inr _ |- _ =>
        apply list_projects_lines_prefix in H as [rest ->]
    end.
    apply success_is_tagged. rewrite append_assoc. apply strip_keeps_tag.
  - unfold create_project_try, create_project. honest_prefix.
  - unfold start_session_timer_try, start_session_timer. honest_prefix.
  - unfold stop_session_timer_try, stop_confirmed, stop_unconfirmed,
      stop_session_timer, get_current_session. honest_prefix.
  - unfold get_current_session_try, get_current_session. honest_prefix.
  - unfold create_session_try. apply honest_bind_lift.
    intros [needs_confirm confirm_msg] Hv. destruct needs_confirm.
    + apply validate_confirm_tag in Hv. apply confirm_is_no_success in Hv as [H1 H2].
      apply honest_ret; assumption.
    + unfold create_session. honest_prefix.
  - apply honest_ret; reflexivity.
Qed.

(** X17.  Every call of a tool is answered with one text that starts with
    one of the tags [[OK]], [[INFO]], [[SUCCESS]], [[CONFIRM]] and
    [[ERROR]].  A text that reports a success ([[SUCCESS]] or [[OK]]) is
    returned only when the call sent exactly one request and the query of
    the client returned a body for it: no tool reports a success on a
    failed or missing answer. *)
Theorem tool_answers_are_tagged env tool arguments log :
  exists t log',
    handle_call_tool env tool arguments log = (inr [mkTextContent "text" t], log')
    /\ tagged t = true
    /\ (reports_success t = true ->
        exists client query variables result,
          execute_query env client query variables log = (inr result, log')
          /\ log' = (log ++ [request_of client query variables])%list).
Proof.
  rewrite handle_call_tool_dispatch.
  destruct (tool_try env tool arguments log) as [[e|t] log'] eqn:E.
  - exists (error_label tool ++ str_exn e), log'. split; [reflexivity|].
    pose proof (error_label_prefix tool e) as Hp.
    destruct (error_label tool ++ str_exn e) as [|a s]; [discriminate Hp|].
    destruct s as [|b s]; [cbn [startswith] in Hp; rewrite andb_false_r in Hp; discriminate Hp|].
    cbn [startswith] in Hp.
    apply andb_true_iff in Hp as [Ha Hp]. apply andb_true_iff in Hp as [Hb Hp].
    apply Ascii.eqb_eq in Ha, Hb. subst a b.
    unfold tagged, tags, reports_success. cbn [existsb startswith].
    rewrite Hp. split; [rewrite !orb_true_r; reflexivity|discriminate].
  - exists t, log'. split; [reflexivity|].
    destruct (tool_try_honest env tool arguments log t log' E) as [H1 H2].
    split; [exact H1|]. intros Hs.
    destruct (H2 Hs) as (client & query & variables & result & Hq).
    exists client, query, variables, result. split; [exact Hq|].
    pose proof (execute_query_sends env client query variables log) as Hl.
    rewrite Hq in Hl. exact Hl.
Qed.

Lemma tool_answers_are_tagged_witness :
  exists t log',
    handle_call_tool (example_env (answers example_data)) "get_current_session" JNull []
    = (inr [mkTextContent "text" t], log')
    /\ tagged t = true.
Proof.
  destruct (tool_answers_are_tagged (example_env (answers example_data))
              "get_current_session" JNull []) as (t & log' & H1 & H2 & _).
  exists t, log'. split; assumption.
Defined.

(** ** The tool that creates a session *)

Lemma call_tool_create_session env arguments d :
  normalized arguments = JObj d ->
  call_tool env "create_session" arguments
  = match create_session_try env (JObj d) [] with
    | (inl e, log') =>
        (inr [mkTextContent "text" ("[ERROR] Failed to create session: " ++ str_exn e)],
         log')
    | (inr t, log') => (inr [mkTextContent "text" t], log')
    end.
Proof.
  intros Hn. unfold call_tool. rewrite handle_call_tool_dispatch.
  unfold tool_try, error_label. rewrite Hn. reflexivity.
Qed.

(** X18.  A duration that is a text, as in ["90"], is not converted and
    is not refused by a message of its own: the comparison with 5 in the
    validation raises, and the tool answers with the [TypeError] of the
    interpreter under its error label, and sends nothing. *)
Theorem create_session_duration_must_be_number env arguments d s :
  normalized arguments = JObj d ->
  arg d "duration_minutes" JNull = JStr s -> s <> "" ->
  call_tool env "create_session" arguments
  = (inr [mkTextContent "text"
            "[ERROR] Failed to create session: '<' not supported between instances of 'str' and 'int'"],
     []).
Proof.
  intros Hn Hd Hs. rewrite (call_tool_create_session env arguments d Hn).
  unfold create_session_try. cbn [bind Monad_Py lift].
  assert (Hv : validate_session_params (JObj d)
               = inl (TypeError "'<' not supported between instances of 'str' and 'int'")).
  { unfold validate_session_params. cbn [get bind Monad_Exc].
    fold (arg d "duration_minutes" JNull). rewrite Hd.
    destruct (check_times _ _) as [issues1 suggestions1].
    destruct (check_title _) as [issues2 suggestions2].
    unfold check_duration, duration_out_of_range. cbn [truthy].
    apply String.eqb_neq in Hs. rewrite Hs. reflexivity. }
  rewrite Hv. reflexivity.
Qed.

Lemma create_session_duration_must_be_number_witness :
  call_tool (example_env (answers example_data)) "create_session"
    (JObj [("title", JStr "Focus"); ("start_time", JStr "2025-07-21 14:00");
           ("duration_minutes", JStr "90")])
  = (inr [mkTextContent "text"
            "[ERROR] Failed to create session: '<' not supported between instances of 'str' and 'int'"],
     []).
Proof.
  apply (create_session_duration_must_be_number (example_env (answers example_data))
           _ [("title", JStr "Focus"); ("start_time", JStr "2025-07-21 14:00");
              ("duration_minutes", JStr "90")] "90").
  - reflexivity.
  - reflexivity.
  - discriminate.
Defined.

Lemma validate_no_confirm_empty args msg :
  validate_session_params args = inr (false, msg) -> msg = "".
Proof.
  unfold validate_session_params. intros H.
  apply bind_inr in H as (start_time & _ & H).
  apply bind_inr in H as (end_time & _ & H).
  apply bind_inr in H as (duration_minutes & _ & H).
  destruct (check_times start_time end_time) as [issues1 suggestions1].
  apply bind_inr in H as (title & _ & H).
  destruct (check_title title) as [issues2 suggestions2].
  apply bind_inr in H as ([issues3 suggestions3] & _ & H).
  destruct (issues1 ++ issues2 ++ issues3)%list.
  - injection H as <-. reflexivity.
  - apply bind_inr in H as (d & _ & H). discriminate H.
Qed.

Lemma create_session_try_no_confirm env args :
  validate_session_params args = inr (false, "") ->
  returns_only (fun t => startswith "[CONFIRM]" t = false) (create_session_try env args).
Proof.
  intros Hv. unfold create_session_try. apply returns_only_bind_lift.
  intros [needs_confirm confirm_msg] E. rewrite Hv in E. injection E as <- <-.
  unfold create_session. tagged_tac.
Qed.

Lemma duration_out_of_range_opt duration :
  duration_out_of_range (of_opt_int duration)
  = inr match duration with
        | Some n => negb (n =? 0) && ((n <? 5) || (480 <? n))
        | None => false
        end.
Proof. destruct duration as [n|]; [apply duration_out_of_range_int|reflexivity]. Qed.

(** X19.  The rule of the confirmation, for a duration that is absent or
    an integer.  The tool asks for a confirmation, and sends nothing, when
    the start and the end are both missing or empty, or the title is
    missing or empty, or the duration is not zero and is below 5 or above
    480; its message is tagged [[CONFIRM]], names what is missing and lists
    the arguments as they were passed.  In every other case the validation
    has nothing to say and the answer of the tool is not a confirmation. *)
Theorem create_session_confirmation_rule env arguments d duration :
  normalized arguments = JObj d ->
  arg d "duration_minutes" JNull = of_opt_int duration ->
  let no_times := negb (truthy (arg d "start_time" JNull))
                  && negb (truthy (arg d "end_time" JNull)) in
  let no_title := negb (truthy (arg d "title" JNull)) in
  let bad := match duration with
             | Some n => negb (n =? 0) && ((n <? 5) || (480 <? n))
             | None => false
             end in
  (no_times || no_title || bad = true ->
   exists msg,
     call_tool env "create_session" arguments = (inr [mkTextContent "text" msg], [])
     /\ startswith "[CONFIRM]" msg = true
     /\ contains (echo_lines d) msg = true
     /\ (no_times = true -> contains "开始时间和结束时间都未指定" msg = true)
     /\ (no_title = true -> contains "会话标题未指定" msg = true)
     /\ (bad = true -> contains "• 建议持续时间在 5-480 分钟之间" msg = true))
  /\ (no_times || no_title || bad = false ->
      validate_session_params (JObj d) = inr (false, "")
      /\ forall t log',
           call_tool env "create_session" arguments = (inr [mkTextContent "text" t], log') ->
           startswith "[CONFIRM]" t = false).
Proof.
  intros Hn Hd no_times no_title bad.
  pose proof (duration_out_of_range_opt duration) as Hbad. rewrite <- Hd in Hbad.
  destruct (validate_session_params_spec d bad Hbad) as (msg & Hv & Hmsg).
  fold no_times no_title in Hv, Hmsg.
  rewrite (call_tool_create_session env arguments d Hn).
  split; intros Hask; rewrite Hask in Hv.
  - exists msg. destruct (Hmsg Hask) as (H1 & H2 & H3 & H4 & H5).
    unfold create_session_try. cbn [bind Monad_Py lift]. rewrite Hv.
    split; [reflexivity|]. split; [exact H1|]. split; [exact H2|].
    split; [exact H3|]. split; [exact H4|]. intros Hb. apply (H5 Hb).
  - pose proof (validate_no_confirm_empty _ _ Hv) as Hempty.
    subst msg. split; [exact Hv|].
    intros t log'.
    destruct (create_session_try env (JObj d) []) as [[e|t0] l0] eqn:E.
    + intros [= <- _]. reflexivity.
    + intros [= <- _]. exact (create_session_try_no_confirm env _ Hv [] t0 l0 E).
Qed.

Lemma create_session_confirmation_rule_witness :
  exists msg,
    call_tool (example_env (answers example_data)) "create_session"
      (JObj [("title", JStr "Focus"); ("start_time", JStr "2025-07-21 14:00");
             ("duration_minutes", JNum 3)])
    = (inr [mkTextContent "text" msg], [])
    /\ startswith "[CONFIRM]" msg = true.
Proof.
  destruct (create_session_confirmation_rule (example_env (answers example_data))
              (JObj [("title", JStr "Focus"); ("start_time", JStr "2025-07-21 14:00");
                     ("duration_minutes", JNum 3)])
              [("title", JStr "Focus"); ("start_time", JStr "2025-07-21 14:00");
               ("duration_minutes", JNum 3)] (Some 3) eq_refl eq_refl) as [H _].
  destruct (H eq_refl) as (msg & H1 & H2 & _).
  exists msg. split; assumption.
Defined.

(** The validation does not see the [session_type]. *)
Lemma validate_without_session_type (d : dict) v :
  match validate_session_params (JObj d),
        validate_session_params (JObj (setitem "session_type" v d)) with
  | inl e1, inl e2 => e1 = e2
  | inr (b1, m1), inr (b2, m2) => b1 = b2 /\ (b1 = false -> m1 = m2)
  | _, _ => False
  end.
Proof.
  unfold validate_session_params. cbn [get]. rewrite !lookup_setitem.
  cbn [String.eqb Ascii.eqb Bool.eqb bind Monad_Exc].
  destruct (check_times _ _) as [issues1 suggestions1].
  destruct (check_title _) as [issues2 suggestions2].
  destruct (check_duration _) as [e|[issues3 suggestions3]]; [reflexivity|].
  cbn [bind Monad_Exc items ret].
  destruct (issues1 ++ issues2 ++ issues3)%list.
  - split; reflexivity.
  - cbn [bind Monad_Exc ret]. split; [reflexivity|discriminate].
Qed.

(** X20.  The [session_type] of [create_session] has no effect: the
    operation of the client is the same computation for any two values of
    it, and the tool sends the same request and gives the same answer
    whether the argument is absent, or present with any value.  The one
    difference is the confirmation message, which lists the arguments as
    they were passed. *)
Theorem create_session_ignores_session_type env :
  (forall self t1 t2 title description duration_minutes start_time end_time,
     create_session env self t1 title description duration_minutes start_time end_time
     = create_session env self t2 title description duration_minutes start_time end_time)
  /\ (forall (d : dict) v,
        snd (call_tool env "create_session" (JObj d))
        = snd (call_tool env "create_session" (JObj (setitem "session_type" v d)))
        /\ (validate_session_params (JObj d) = inr (false, "") ->
            call_tool env "create_session" (JObj d)
            = call_tool env "create_session" (JObj (setitem "session_type" v d)))).
Proof.
  split; [reflexivity|]. intros d v.
  pose proof (validate_without_session_type d v) as Hv.
  unfold call_tool, handle_call_tool. rewrite !dispatch_dict.
  cbn [String.eqb Ascii.eqb Bool.eqb].
  unfold create_session_handler, create_session_try.
  cbn [catch MonadExc_Py bind Monad_Py lift].
  destruct (validate_session_params (JObj d)) as [e1|[b1 m1]],
           (validate_session_params (JObj (setitem "session_type" v d)))
    as [e2|[b2 m2]]; try contradiction.
  - subst e2. split; reflexivity.
  - destruct Hv as [<- Hm]. destruct b1.
    + split; [reflexivity|]. intros H. discriminate H.
    + rewrite (Hm eq_refl). cbn [get]. rewrite !lookup_setitem.
      cbn [String.eqb Ascii.eqb Bool.eqb]. unfold create_session.
      split; reflexivity.
Qed.

Lemma create_session_ignores_session_type_witness :
  call_tool (example_env (answers example_data)) "create_session"
    (JObj [("title", JStr "Focus"); ("start_time", JStr "2025-07-21 14:00")])
  = call_tool (example_env (answers example_data)) "create_session"
      (JObj [("title", JStr "Focus"); ("start_time", JStr "2025-07-21 14:00");
             ("session_type", JStr "meeting")]).
Proof.
  destruct (create_session_ignores_session_type (example_env (answers example_data)))
    as [_ H].
  destruct (H [("title", JStr "Focus"); ("start_time", JStr "2025-07-21 14:00")]
              (JStr "meeting")) as [_ H2].
  apply H2. reflexivity.
Defined.

(** ** The tool that creates a project *)

Lemma snd_bind_query {B : Type} env client query variables (f : json -> Py B) log :
  (forall x, quiet (f x)) ->
  snd (bind (execute_query env client query variables) f log)
  = (log ++ [request_of client query variables])%list.
Proof.
  intros Hq. cbn [bind Monad_Py].
  pose proof (execute_query_sends env client query variables log) as Hs.
  destruct (execute_query env client query variables log) as [[e|x] l1];
    cbn [snd] in *; subst l1; [reflexivity|apply Hq].
Qed.

(** X21.  The tool [create_project], called with a name and with a token
    configured, sends exactly one request, the mutation that creates a
    project, whose input holds the name, and the emoji when one is given,
    and nothing else of the arguments.  When the answer carries the project
    the tool returns the success text with its emoji, name and id. *)
Theorem create_project_tool env arguments d client :
  init env None = inr client ->
  normalized arguments = JObj d ->
  truthy (arg d "name" JNull) = true ->
  let request :=
    request_of client Documents.create_project
      (JObj [("input",
              JObj (("name", arg d "name" JNull)
                    :: if truthy (arg d "emoji" JNull)
                       then [("emoji", arg d "emoji" JNull)] else []))]) in
  snd (call_tool env "create_project" arguments) = [request]
  /\ is_mutation request = true
  /\ forall r result p fields n i,
       upstream env request = Returns r ->
       200 <= status_code r <= 299 ->
       decoded r = Json result ->
       contains_key "errors" result = inr false ->
       payload result "createProject" = inr p ->
       contains_key "errors" p = inr false ->
       get p "project" JNull = inr (JObj fields) ->
       lookup "name" fields = Some n ->
       lookup "id" fields = Some i ->
       fst (call_tool env "create_project" arguments)
       = inr [mkTextContent "text"
                ("[SUCCESS] Project created: " ++ str (arg fields "emoji" (JStr ""))
                 ++ " " ++ str n ++ " (ID: " ++ str i ++ ")")].
Proof.
  intros Hi Hn Hname request.
  assert (Hvars : forall log,
            create_project_try env (JObj d) log
            = bind (execute_query env client Documents.create_project
                      (JObj [("input",
                              JObj (("name", arg d "name" JNull)
                                    :: if truthy (arg d "emoji" JNull)
                                       then [("emoji", arg d "emoji" JNull)] else []))]))
                (fun result =>
                   p <- lift (payload result "createProject") ;;
                   has_errors <- lift (contains_key "errors" p) ;;
                   if has_errors : bool then
                     data <- lift (getitem result "data") ;;
                     p <- lift (getitem data "createProject") ;;
                     errors <- lift (getitem p "errors") ;;
                     items <- lift (iterate errors) ;;
                     ms <- lift (messages_of items) ;;
                     ret ("[ERROR] Failed to create project: " ++ str (JArr ms))
                   else
                     p <- lift (payload result "createProject") ;;
                     project <- lift (get p "project" JNull) ;;
                     if negb (truthy project) then
                       ret "[ERROR] Failed to create project: No response data"
                     else
                       emoji <- lift (get project "emoji" (JStr "")) ;;
                       project_name <- lift (getitem project "name") ;;
                       project_id <- lift (getitem project "id") ;;
                       ret ("[SUCCESS] Project created: " ++ str emoji ++ " "
                            ++ str project_name ++ " (ID: " ++ str project_id ++ ")"))
                log).
  { intros log. unfold create_project_try. cbn [bind Monad_Py lift get].
    rewrite Hi. fold (arg d "name" JNull) (arg d "emoji" JNull). rewrite Hname.
    cbn [negb]. unfold create_project. cbn [truthy set_if].
    destruct (truthy (arg d "emoji" JNull)); reflexivity. }
  split; [|split].
  - unfold call_tool. rewrite snd_handle_call_tool. unfold tool_try. rewrite Hn.
    cbn [String.eqb Ascii.eqb Bool.eqb]. rewrite Hvars.
    apply snd_bind_query. quiet_tac.
  - vm_compute. reflexivity.
  - intros r result p fields n i Hup Hs Hd He Hp Hpe Hproj Hname' Hid.
    unfold call_tool. rewrite handle_call_tool_dispatch. unfold tool_try. rewrite Hn.
    cbn [String.eqb Ascii.eqb Bool.eqb]. rewrite Hvars. cbn [bind Monad_Py].
    fold request. unfold request in Hup.
    rewrite (execute_query_answered _ _ _ _ _ _ _ Hup Hs Hd He).
    unfold lift. rewrite Hp, Hpe, Hproj.
    assert (Ht : truthy (JObj fields) = true) by (destruct fields; [discriminate|reflexivity]).
    rewrite Ht. cbn [negb getitem get]. rewrite Hname', Hid. reflexivity.
Qed.

Lemma create_project_tool_witness :
  snd (call_tool (example_env (answers example_data)) "create_project"
         (JObj [("name", JStr "Thesis"); ("color", JStr "#ff0000")]))
  = [request_of example_client Documents.create_project
       (JObj [("input", JObj [("name", JStr "Thesis")])])].
Proof.
  destruct (create_project_tool (example_env (answers example_data))
              (JObj [("name", JStr "Thesis"); ("color", JStr "#ff0000")])
              [("name", JStr "Thesis"); ("color", JStr "#ff0000")] example_client
              eq_refl eq_refl eq_refl) as [H _].
  exact H.
Defined.

(** ** The listing of the projects *)

Lemma concat_empty_cons x (l : list string) :
  String.concat "" (x :: l) = x ++ String.concat "" l.
Proof. destruct l; cbn [String.concat]; [rewrite append_nil_r|]; reflexivity. Qed.

Lemma listing_cons edge l :
  listing (edge :: l)
  = match project_of edge with
    | Some p => project_line p ++ nl
    | None => ""
    end ++ listing l.
Proof. unfold listing. cbn [map]. apply concat_empty_cons. Qed.

Lemma listing_app l1 l2 : listing (l1 ++ l2) = listing l1 ++ listing l2.
Proof.
  induction l1 as [|edge l1 IH]; [reflexivity|].
  cbn [app]. rewrite !listing_cons, IH, append_assoc. reflexivity.
Qed.

(** On edges that have a node with a name and an id, the loop adds the
    lines of the listing. *)
Lemma list_projects_lines_listing l acc :
  (forall edge, In edge l -> project_of edge <> None) ->
  list_projects_lines l acc = inr (acc ++ listing l).
Proof.
  revert acc. induction l as [|edge l IH]; intros acc Hall; cbn [list_projects_lines].
  - unfold listing. cbn. rewrite append_nil_r. reflexivity.
  - pose proof (Hall edge (or_introl eq_refl)) as He.
    rewrite listing_cons. unfold project_of in *.
    destruct edge as [| | | | |e]; try contradiction.
    destruct (lookup "node" e) as [[| | | | |p]|] eqn:En; try contradiction.
    destruct (lookup "name" p) as [n|] eqn:Enm; [|contradiction].
    destruct (lookup "id" p) as [i|] eqn:Eid; [|contradiction].
    cbn [getitem get bind Monad_Exc]. rewrite En. cbn [bind Monad_Exc getitem get].
    rewrite Enm, Eid. cbn [bind Monad_Exc].
    rewrite IH by (intros edge' H'; apply Hall; right; exact H').
    unfold project_line, arg. rewrite !append_assoc. reflexivity.
Qed.

(** Stripping a text that starts with a bracket and holds a character that
    is not white space: what is before that character stays. *)
Lemma strip_bracket (a : string) c (b : string) :
  is_space c = false ->
  strip ("[" ++ a ++ String c b) = "[" ++ a ++ String c (rstrip_space b).
Proof.
  intros Hc. unfold strip. cbn [append lstrip_space].
  change (is_space "[") with false. cbn iota.
  change (String "[" (a ++ String c b)) with (String "[" a ++ String c b).
  rewrite rstrip_space_keeps by exact Hc. reflexivity.
Qed.

Lemma truthy_nonempty_list (l : list json) : l <> [] -> truthy (JArr l) = true.
Proof. destruct l; [contradiction|reflexivity]. Qed.

(** The text of the listing starts with the number of the projects. *)
Lemma listing_text_header (count rest : string) :
  startswith ("[SUCCESS] Found " ++ count ++ " projects:")
    (strip (("[SUCCESS] Found " ++ count ++ " projects:" ++ nl ++ nl) ++ rest)) = true.
Proof.
  replace (("[SUCCESS] Found " ++ count ++ " projects:" ++ nl ++ nl) ++ rest)
    with ("[" ++ ("SUCCESS] Found " ++ count ++ " projects")
          ++ String ":" (nl ++ nl ++ rest))
    by (rewrite !append_assoc; reflexivity).
  rewrite strip_bracket by reflexivity.
  replace ("[" ++ ("SUCCESS] Found " ++ count ++ " projects")
           ++ String ":" (rstrip_space (nl ++ nl ++ rest)))
    with (("[SUCCESS] Found " ++ count ++ " projects:")
          ++ rstrip_space (nl ++ nl ++ rest))
    by (rewrite !append_assoc; reflexivity).
  apply startswith_app.
Qed.

(** The text of the listing holds the line of each project. *)
Lemma listing_text_line (header before after : string) p :
  contains (project_line p)
    (strip (("[" ++ header) ++ before ++ (project_line p ++ nl) ++ after)) = true.
Proof.
  destruct p as [[emoji n] i]. unfold project_line.
  replace (("[" ++ header) ++ before
           ++ ((str emoji ++ " " ++ str n ++ " (ID: " ++ str i ++ ")") ++ nl) ++ after)
    with ("[" ++ (header ++ before ++ str emoji ++ " " ++ str n ++ " (ID: " ++ str i)
          ++ String ")" (nl ++ after))
    by (rewrite !append_assoc; reflexivity).
  rewrite strip_bracket by reflexivity.
  replace ("[" ++ (header ++ before ++ str emoji ++ " " ++ str n ++ " (ID: " ++ str i)
           ++ String ")" (rstrip_space (nl ++ after)))
    with (("[" ++ header ++ before)
          ++ (str emoji ++ " " ++ str n ++ " (ID: " ++ str i ++ ")")
          ++ rstrip_space (nl ++ after))
    by (rewrite !append_assoc; reflexivity).
  apply contains_skip. apply contains_here.
Qed.

(** X22.  The tool [list_projects], with a token configured, sends
    exactly one request: the query for the projects, for [limit] of them
    and for 10 when no limit is given.  When the answer holds no edge the
    tool says that there is no project.  When every edge of the answer has
    a node with a name and an id, the text starts with the number of
    projects found and holds, for each of them, its emoji, its name and its
    id. *)
Theorem list_projects_lists_every_project env arguments d client :
  init env None = inr client ->
  normalized arguments = JObj d ->
  let request :=
    request_of client Documents.get_projects
      (JObj [("first", arg d "limit" (JNum 10))]) in
  snd (call_tool env "list_projects" arguments) = [request]
  /\ forall r result,
       upstream env request = Returns r ->
       200 <= status_code r <= 299 ->
       decoded r = Json result ->
       contains_key "errors" result = inr false ->
       (forall edges,
          edges_of result = inr edges -> truthy edges = false ->
          fst (call_tool env "list_projects" arguments)
          = inr [mkTextContent "text"
                   "[INFO] No projects found. Use create_project to create one."])
       /\ (forall l,
             edges_of result = inr (JArr l) -> l <> [] ->
             (forall edge, In edge l -> project_of edge <> None) ->
             exists msg,
               fst (call_tool env "list_projects" arguments)
               = inr [mkTextContent "text" msg]
               /\ startswith ("[SUCCESS] Found " ++ str_int (Z.of_nat (List.length l))
                              ++ " projects:") msg = true
               /\ forall edge p,
                    In edge l -> project_of edge = Some p ->
                    contains (project_line p) msg = true).
Proof.
  intros Hi Hn request.
  assert (Htry : forall log,
            list_projects_try env (JObj d) log
            = bind (execute_query env client Documents.get_projects
                      (JObj [("first", arg d "limit" (JNum 10))]))
                (fun result =>
                   has_errors <- lift (contains_key "errors" result) ;;
                   if has_errors : bool then
                     errors <- lift (getitem result "errors") ;;
                     ret ("[ERROR] Failed to get projects: " ++ str errors)
                   else
                     data <- lift (get result "data" (JObj [])) ;;
                     container <- lift (get data "projects" (JObj [])) ;;
                     projects <- lift (get container "edges" (JArr [])) ;;
                     if negb (truthy projects) then
                       ret "[INFO] No projects found. Use create_project to create one."
                     else
                       n <- lift (len projects) ;;
                       edges <- lift (iterate projects) ;;
                       output <- lift (list_projects_lines edges
                                         ("[SUCCESS] Found " ++ str_int n ++ " projects:"
                                          ++ nl ++ nl)) ;;
                       ret (strip output))
                log).
  { intros log. unfold list_projects_try. cbn [bind Monad_Py lift get].
    rewrite Hi. reflexivity. }
  split.
  - unfold call_tool. rewrite snd_handle_call_tool. unfold tool_try. rewrite Hn.
    cbn [String.eqb Ascii.eqb Bool.eqb]. rewrite Htry.
    apply snd_bind_query. quiet_tac.
  - intros r result Hup Hs Hd He.
    assert (Hrun : forall data container edges,
              get result "data" (JObj []) = inr data ->
              get data "projects" (JObj []) = inr container ->
              get container "edges" (JArr []) = inr edges ->
              fst (call_tool env "list_projects" arguments)
              = fst (match
                       (if negb (truthy edges) then
                          ret "[INFO] No projects found. Use create_project to create one."
                        else
                          n <- lift (len edges) ;;
                          items <- lift (iterate edges) ;;
                          output <- lift (list_projects_lines items
                                            ("[SUCCESS] Found " ++ str_int n ++ " projects:"
                                             ++ nl ++ nl)) ;;
                          ret (strip output)) [request] with
                     | (inl e, log') =>
                         (inr [mkTextContent "text"
                                 ("[ERROR] Failed to list projects: " ++ str_exn e)], log')
                     | (inr t, log') => (inr [mkTextContent "text" t], log')
                     end)).
    { intros data container edges H1 H2 H3.
      unfold call_tool. rewrite handle_call_tool_dispatch. unfold tool_try, error_label.
      rewrite Hn. cbn [String.eqb Ascii.eqb Bool.eqb]. rewrite Htry.
      cbn [bind Monad_Py]. unfold request in Hup.
      rewrite (execute_query_answered _ _ _ _ _ _ _ Hup Hs Hd He).
      unfold lift. rewrite He, H1, H2, H3. reflexivity. }
    split.
    + intros edges Hedges Hfalse. unfold edges_of in Hedges.
      apply bind_inr in Hedges as (data & H1 & Hedges).
      apply bind_inr in Hedges as (container & H2 & H3).
      rewrite (Hrun data container edges H1 H2 H3), Hfalse. reflexivity.
    + intros l Hedges Hne Hall. unfold edges_of in Hedges.
      apply bind_inr in Hedges as (data & H1 & Hedges).
      apply bind_inr in Hedges as (container & H2 & H3).
      rewrite (Hrun data container (JArr l) H1 H2 H3).
      rewrite (truthy_nonempty_list l Hne).
      cbn [negb bind Monad_Py lift len iterate]. unfold lift.
      rewrite (list_projects_lines_listing l _ Hall).
      cbn [ret Monad_Py fst].
      eexists. split; [reflexivity|]. split.
      * apply listing_text_header.
      * intros edge p Hin Hp.
        apply in_split in Hin as (l1 & l2 & ->).
        rewrite listing_app, listing_cons, Hp.
        apply listing_text_line.
Qed.

Lemma list_projects_lists_every_project_witness :
  exists msg,
    fst (call_tool
           (example_env
              (answers
                 (JObj [("projects",
                         JObj [("edges",
                                JArr [JObj [("node",
                                             JObj [("id", JStr "p1");
                                                   ("name", JStr "Thesis")])]])])])))
           "list_projects" JNull)
    = inr [mkTextContent "text" msg]
    /\ startswith "[SUCCESS] Found 1 projects:" msg = true
    /\ contains " Thesis (ID: p1)" msg = true.
Proof.
  pose (edge := JObj [("node", JObj [("id", JStr "p1"); ("name", JStr "Thesis")])]).
  pose (data := JObj [("projects", JObj [("edges", JArr [edge])])]).
  destruct (list_projects_lists_every_project (example_env (answers data))
              JNull [] example_client eq_refl eq_refl) as [_ H].
  destruct (H (mkResponse 200 "" (Json (JObj [("data", data)])))
              (JObj [("data", data)]) eq_refl ltac:(cbn; lia) eq_refl eq_refl) as [_ H2].
  destruct (H2 [edge] eq_refl ltac:(discriminate)) as (msg & H3 & H4 & H5).
  - intros e [<-|[]]. discriminate.
  - exists msg. split; [exact H3|]. split; [exact H4|].
    apply (H5 edge (JStr "", JStr "Thesis", JStr "p1")); [left|]; reflexivity.
Defined.

(** ** Errors in the payload of a mutation *)









(** ** The tools for the current session and for the timer *)

Lemma bind_lift_inr {A B : Type} (r : Exc A) (a : A) (f : A -> Py B) log :
  r = inr a -> bind (lift r) f log = f a log.
Proof. intros ->. reflexivity. Qed.

Lemma call_tool_try env tool arguments :
  call_tool env tool arguments
  = match tool_try env tool arguments [] with
    | (inl e, log') =>
        (inr [mkTextContent "text" (error_label tool ++ str_exn e)], log')
    | (inr t, log') => (inr [mkTextContent "text" t], log')
    end.
Proof. apply handle_call_tool_dispatch. Qed.

(** X24.  The tool [get_current_session], with a token configured, reads
    none of its arguments and sends exactly one request, the query for the
    current session.  When the answer holds no current session the tool
    says so; when it holds one with an id, the text gives its title
    ([Current session] when it has none), id, type and start. *)
Theorem get_current_session_tool env arguments client :
  init env None = inr client ->
  snd (call_tool env "get_current_session" arguments) = [current_session_request client]
  /\ is_mutation (current_session_request client) = false
  /\ forall r result,
       upstream env (current_session_request client) = Returns r ->
       200 <= status_code r <= 299 ->
       decoded r = Json result ->
       contains_key "errors" result = inr false ->
       (forall session,
          current_session_of result = inr session -> truthy session = false ->
          fst (call_tool env "get_current_session" arguments)
          = inr [mkTextContent "text"
                   "[INFO] No active session. Use start_session_timer to begin one."])
       /\ (forall fields session_id,
             current_session_of result = inr (JObj fields) ->
             lookup "id" fields = Some session_id ->
             fst (call_tool env "get_current_session" arguments)
             = inr [mkTextContent "text"
                      ("[SUCCESS] Active session: "
                       ++ str (arg fields "title" (JStr "Current session"))
                       ++ " (ID: " ++ str session_id
                       ++ ", Type: " ++ str (arg fields "type" (JStr ""))
                       ++ ", Started: " ++ str (arg fields "startTime" (JStr "")) ++ ")")]).
Proof.
  intros Hi. split; [|split].
  - unfold call_tool. rewrite snd_handle_call_tool. unfold tool_try.
    cbn [String.eqb Ascii.eqb Bool.eqb]. unfold get_current_session_try.
    rewrite (bind_lift_inr _ _ _ _ Hi). unfold get_current_session.
    apply snd_bind_query. quiet_tac.
  - vm_compute. reflexivity.
  - intros r result Hup Hs Hd He.
    assert (Hrun : forall session,
              current_session_of result = inr session ->
              tool_try env "get_current_session" arguments []
              = (if negb (truthy session) then
                   ret "[INFO] No active session. Use start_session_timer to begin one."
                 else
                   session_id <- lift (getitem session "id") ;;
                   title <- lift (get session "title" (JStr "Current session")) ;;
                   session_type <- lift (get session "type" (JStr "")) ;;
                   start_time <- lift (get session "startTime" (JStr "")) ;;
                   ret ("[SUCCESS] Active session: " ++ str title ++ " (ID: "
                        ++ str session_id ++ ", Type: " ++ str session_type
                        ++ ", Started: " ++ str start_time ++ ")"))
                  [current_session_request client]).
    { intros session Hcur. unfold tool_try. cbn [String.eqb Ascii.eqb Bool.eqb].
      unfold get_current_session_try. rewrite (bind_lift_inr _ _ _ _ Hi).
      unfold get_current_session. cbn [bind Monad_Py].
      unfold current_session_request in *.
      rewrite (execute_query_answered _ _ _ _ _ _ _ Hup Hs Hd He).
      unfold current_session_of in Hcur.
      apply bind_inr in Hcur as (data & Hdata & Hcur).
      unfold lift. rewrite He, Hdata, Hcur. reflexivity. }
    split.
    + intros session Hcur Hfalse.
      rewrite call_tool_try, (Hrun session Hcur), Hfalse. reflexivity.
    + intros fields session_id Hcur Hid.
      rewrite call_tool_try, (Hrun (JObj fields) Hcur), (truthy_with_id _ _ Hid).
      cbn [negb bind Monad_Py lift getitem get]. rewrite Hid. reflexivity.
Qed.

Lemma get_current_session_tool_witness :
  fst (call_tool (example_env (answers example_data)) "get_current_session" (JNum 7))
  = inr [mkTextContent "text"
           "[SUCCESS] Active session: Deep work (ID: sess_42, Type: , Started: 2025-07-21T14:00:00Z)"].
Proof.
  destruct (get_current_session_tool (example_env (answers example_data)) (JNum 7)
              example_client eq_refl) as (_ & _ & H).
  destruct (H (mkResponse 200 "" (Json (JObj [("data", example_data)])))
              (JObj [("data", example_data)]) eq_refl ltac:(cbn; lia) eq_refl eq_refl)
    as [_ H2].
  apply (H2 example_session (JStr "sess_42")); reflexivity.
Defined.

(** X25.  The tool [start_session_timer], with a token configured, sends
    exactly one request, the mutation that starts the timer, whose input
    holds nothing but a [clientMutationId] made of [start_timer_] and the
    time in seconds.  When the answer carries the session the tool returns
    the success text with its id and start; when it carries neither
    [errors] nor a session the tool reports that there is no response
    data. *)
Theorem start_session_timer_tool env arguments d client :
  init env None = inr client ->
  normalized arguments = JObj d ->
  let request :=
    request_of client Documents.start_session_timer
      (JObj [("input",
              JObj [("clientMutationId", JStr ("start_timer_" ++ str_int (time env)))])]) in
  snd (call_tool env "start_session_timer" arguments) = [request]
  /\ is_mutation request = true
  /\ forall r result p,
       upstream env request = Returns r ->
       200 <= status_code r <= 299 ->
       decoded r = Json result ->
       contains_key "errors" result = inr false ->
       payload result "startSessionTimer" = inr p ->
       contains_key "errors" p = inr false ->
       (forall session,
          get p "session" JNull = inr session -> truthy session = false ->
          fst (call_tool env "start_session_timer" arguments)
          = inr [mkTextContent "text" "[ERROR] Failed to start timer: No response data"])
       /\ (forall fields session_id,
             get p "session" JNull = inr (JObj fields) ->
             lookup "id" fields = Some session_id ->
             fst (call_tool env "start_session_timer" arguments)
             = inr [mkTextContent "text"
                      ("[SUCCESS] Timer started! Session ID: " ++ str session_id
                       ++ ", Start time: " ++ str (arg fields "startTime" (JStr "")))]).
Proof.
  intros Hi Hn request. split; [|split].
  - unfold call_tool. rewrite snd_handle_call_tool. unfold tool_try. rewrite Hn.
    cbn [String.eqb Ascii.eqb Bool.eqb]. unfold start_session_timer_try.
    rewrite (bind_lift_inr _ _ _ _ Hi).
    rewrite (bind_lift_inr _ (arg d "session_type" (JStr "FOCUS")) _ _ eq_refl).
    unfold start_session_timer. apply snd_bind_query. quiet_tac.
  - vm_compute. reflexivity.
  - intros r result p Hup Hs Hd He Hp Hpe.
    assert (Hrun : forall session,
              get p "session" JNull = inr session ->
              tool_try env "start_session_timer" arguments []
              = (if negb (truthy session) then
                   ret "[ERROR] Failed to start timer: No response data"
                 else
                   session_id <- lift (getitem session "id") ;;
                   start_time <- lift (get session "startTime" (JStr "")) ;;
                   ret ("[SUCCESS] Timer started! Session ID: " ++ str session_id
                        ++ ", Start time: " ++ str start_time)) [request]).
    { intros session Hsess. unfold tool_try. rewrite Hn.
      cbn [String.eqb Ascii.eqb Bool.eqb]. unfold start_session_timer_try.
      rewrite (bind_lift_inr _ _ _ _ Hi).
      rewrite (bind_lift_inr _ (arg d "session_type" (JStr "FOCUS")) _ _ eq_refl).
      unfold start_session_timer. cbn [bind Monad_Py]. unfold request in *.
      rewrite (execute_query_answered _ _ _ _ _ _ _ Hup Hs Hd He).
      unfold lift. rewrite Hp, Hpe, Hsess. reflexivity. }
    split.
    + intros session Hsess Hfalse.
      rewrite call_tool_try, (Hrun session Hsess), Hfalse. reflexivity.
    + intros fields session_id Hsess Hid.
      rewrite call_tool_try, (Hrun (JObj fields) Hsess), (truthy_with_id _ _ Hid).
      cbn [negb bind Monad_Py lift getitem get]. rewrite Hid. reflexivity.
Qed.

Lemma start_session_timer_tool_witness :
  snd (call_tool (example_env (answers example_data)) "start_session_timer"
         (JObj [("session_type", JStr "BREAK")]))
  = [request_of example_client Documents.start_session_timer
       (JObj [("input", JObj [("clientMutationId", JStr "start_timer_1753106400")])])].
Proof.
  destruct (start_session_timer_tool (example_env (answers example_data))
              (JObj [("session_type", JStr "BREAK")]) [("session_type", JStr "BREAK")]
              example_client eq_refl eq_refl) as [H _].
  exact H.
Defined.

(** ** From the arguments of the tool to the session asked for *)

(** X26.  The tool [create_session] end to end.  With a token configured,
    arguments that pass the validation and a window that resolves, the
    tool sends exactly one request: the mutation that creates a session,
    whose variables hold, under [input.args], the start and the end
    resolved from [start_time], [end_time] and [duration_minutes] (90 when
    absent) as [isoformat()] texts followed by [Z], the title, and the
    description when one is given.  When the answer carries the session the
    tool returns the success text with its title, id, type, start and
    end. *)
Theorem create_session_tool env arguments d client start_dt end_dt :
  init env None = inr client ->
  normalized arguments = JObj d ->
  validate_session_params (JObj d) = inr (false, "") ->
  resolve_window env (arg d "duration_minutes" (JNum 90))
    (arg d "start_time" JNull) (arg d "end_time" JNull) = inr (start_dt, end_dt) ->
  let title := arg d "title" JNull in
  let description := arg d "description" JNull in
  let request :=
    request_of client Documents.create_session
      (JObj [("input",
              JObj [("args",
                     JObj (set_if (truthy description) "description" description
                             (set_if (truthy title) "title" title
                                [("startTime", JStr (isoformat start_dt ++ "Z"));
                                 ("endTime", JStr (isoformat end_dt ++ "Z"))])))])]) in
  snd (call_tool env "create_session" arguments) = [request]
  /\ is_mutation request = true
  /\ forall r result p fields session_id,
       upstream env request = Returns r ->
       200 <= status_code r <= 299 ->
       decoded r = Json result ->
       contains_key "errors" result = inr false ->
       payload result "createSession" = inr p ->
       contains_key "errors" p = inr false ->
       get p "session" JNull = inr (JObj fields) ->
       lookup "id" fields = Some session_id ->
       fst (call_tool env "create_session" arguments)
       = inr [mkTextContent "text"
                ("[SUCCESS] Session created: "
                 ++ str (arg fields "title" (JStr "New session"))
                 ++ " (ID: " ++ str session_id
                 ++ ", Type: " ++ str (arg fields "type" (JStr ""))
                 ++ ", Duration: " ++ str (arg fields "startTime" (JStr ""))
                 ++ " to " ++ str (arg fields "endTime" (JStr "")) ++ ")")].
Proof.
  intros Hi Hn Hv Hw title description request.
  assert (Hpre : forall (B : Type) (f : json -> Py B) log,
            bind (create_session env client (arg d "session_type" (JStr "focus"))
                    title description (arg d "duration_minutes" (JNum 90))
                    (arg d "start_time" JNull) (arg d "end_time" JNull)) f log
            = bind (execute_query env client Documents.create_session
                      (JObj [("input",
                              JObj [("args",
                                     JObj (set_if (truthy description) "description"
                                             description
                                             (set_if (truthy title) "title" title
                                                [("startTime",
                                                  JStr (isoformat start_dt ++ "Z"));
                                                 ("endTime",
                                                  JStr (isoformat end_dt ++ "Z"))])))])]))
                f log).
  { intros B f log. unfold create_session. cbn [bind Monad_Py lift].
    rewrite Hw. reflexivity. }
  assert (Htry : forall log,
            tool_try env "create_session" arguments log
            = bind (create_session env client (arg d "session_type" (JStr "focus"))
                      title description (arg d "duration_minutes" (JNum 90))
                      (arg d "start_time" JNull) (arg d "end_time" JNull))
                (fun result =>
                   p <- lift (payload result "createSession") ;;
                   has_errors <- lift (contains_key "errors" p) ;;
                   if has_errors : bool then
                     data <- lift (getitem result "data") ;;
                     p <- lift (getitem data "createSession") ;;
                     errors <- lift (getitem p "errors") ;;
                     items <- lift (iterate errors) ;;
                     ms <- lift (messages_of items) ;;
                     ret ("[ERROR] Failed to create session: " ++ str (JArr ms))
                   else
                     p <- lift (payload result "createSession") ;;
                     session <- lift (get p "session" JNull) ;;
                     if negb (truthy session) then
                       ret "[ERROR] Failed to create session: No response data"
                     else
                       session_id <- lift (getitem session "id") ;;
                       session_title <- lift (get session "title" (JStr "New session")) ;;
                       session_type <- lift (get session "type" (JStr "")) ;;
                       start_time <- lift (get session "startTime" (JStr "")) ;;
                       end_time <- lift (get session "endTime" (JStr "")) ;;
                       ret ("[SUCCESS] Session created: " ++ str session_title ++ " (ID: "
                            ++ str session_id ++ ", Type: " ++ str session_type
                            ++ ", Duration: " ++ str start_time ++ " to "
                            ++ str end_time ++ ")"))
                log).
  { intros log. unfold tool_try. rewrite Hn. cbn [String.eqb Ascii.eqb Bool.eqb].
    unfold create_session_try.
    rewrite (bind_lift_inr _ _ _ _ Hv). cbn iota beta.
    rewrite (bind_lift_inr _ _ _ _ Hi).
    reflexivity. }
  split; [|split].
  - unfold call_tool. rewrite snd_handle_call_tool, Htry, Hpre.
    apply snd_bind_query. quiet_tac.
  - vm_compute. reflexivity.
  - intros r result p fields session_id Hup Hs Hd He Hp Hpe Hsess Hid.
    rewrite call_tool_try, Htry, Hpre. cbn [bind Monad_Py]. unfold request in Hup.
    rewrite (execute_query_answered _ _ _ _ _ _ _ Hup Hs Hd He).
    unfold lift. rewrite Hp, Hpe, Hsess, (truthy_with_id _ _ Hid).
    cbn [negb getitem get]. rewrite Hid. reflexivity.
Qed.

Lemma create_session_tool_witness :
  snd (call_tool (example_env (answers example_data)) "create_session"
         (JObj [("title", JStr "Focus"); ("end_time", JStr "2025-07-21T15:30:00Z");
                ("duration_minutes", JNum 45)]))
  = [request_of example_client Documents.create_session
       (JObj [("input",
               JObj [("args",
                      JObj [("startTime", JStr "2025-07-21T14:45:00Z");
                            ("endTime", JStr "2025-07-21T15:30:00Z");
                            ("title", JStr "Focus")])])])].
Proof.
  destruct (create_session_tool (example_env (answers example_data))
              (JObj [("title", JStr "Focus"); ("end_time", JStr "2025-07-21T15:30:00Z");
                     ("duration_minutes", JNum 45)])
              [("title", JStr "Focus"); ("end_time", JStr "2025-07-21T15:30:00Z");
               ("duration_minutes", JNum 45)]
              example_client
              (mkDatetime 2025 7 21 14 45 0 0 None) (mkDatetime 2025 7 21 15 30 0 0 None)
              eq_refl eq_refl) as [H _].
  - vm_compute. reflexivity.
  - vm_compute. reflexivity.
  - exact H.
Defined.

(** ** A window that leaves the calendar *)

Lemma check_delta_overflow us :
  (exists z, check_delta us = inr z) \/ (exists msg, check_delta us = inl (OverflowError msg)).
Proof.
  unfold check_delta. destruct (Z.abs (us / US_PER_DAY) <=? 999999999); eauto.
Qed.

(** Outside the years 1 to 9999 the sum is refused. *)
Lemma add_out_of_calendar dt delta :
  to_us dt + delta < US_PER_DAY \/ (MAXORDINAL + 1) * US_PER_DAY <= to_us dt + delta ->
  exists msg, add dt delta = inl (OverflowError msg).
Proof.
  intros H. unfold add.
  destruct (check_delta_overflow (to_us dt + delta)) as [[z Hz]|[msg Hm]].
  - rewrite Hz. apply check_delta_inr in Hz. subst z.
    set (total := to_us dt + delta) in *.
    assert (Hr : (0 <? total / US_PER_DAY) && (total / US_PER_DAY <=? MAXORDINAL) = false).
    { apply andb_false_iff. unfold US_PER_DAY, MAXORDINAL in *.
      destruct H as [H|H].
      - left. apply Z.ltb_ge.
        assert (total / 86400000000 < 1) by (apply Z.div_lt_upper_bound; lia). lia.
      - right. apply Z.leb_gt.
        assert (3652059 + 1 <= total / 86400000000)
          by (apply Z.div_le_lower_bound; lia).
        lia. }
    rewrite Hr. eauto.
  - rewrite Hm. eauto.
Qed.

(** X27.  [create_session] with a start only, and a duration that takes
    the end before the year 1 or after the year 9999, raises
    [OverflowError] and sends nothing: the end is not clamped and the
    session is not created. *)
Theorem create_session_out_of_calendar env self session_type title description n
  start_time end_time start_dt log :
  truthy start_time = true -> truthy end_time = false ->
  parse_time_string env start_time = inr start_dt ->
  to_us start_dt + n * 60000000 < US_PER_DAY
  \/ (MAXORDINAL + 1) * US_PER_DAY <= to_us start_dt + n * 60000000 ->
  exists msg,
    create_session env self session_type title description (JNum n) start_time end_time log
    = (inl (OverflowError msg), log).
Proof.
  intros Hs He Hp Hout.
  assert (Hw : exists msg,
            resolve_window env (JNum n) start_time end_time = inl (OverflowError msg)).
  { unfold resolve_window. rewrite Hs, He, Hp. cbn [andb bind Monad_Exc timedelta_minutes].
    destruct (check_delta_overflow (n * 60000000)) as [[z Hz]|[msg Hm]].
    - rewrite Hz. apply check_delta_inr in Hz. subst z.
      destruct (add_out_of_calendar start_dt (n * 60000000) Hout) as [msg Hm].
      rewrite Hm. eauto.
    - rewrite Hm. eauto. }
  destruct Hw as [msg Hw]. exists msg.
  unfold create_session. cbn [bind Monad_Py lift]. rewrite Hw. reflexivity.
Qed.

Lemma create_session_out_of_calendar_witness :
  exists msg,
    create_session (example_env (answers example_data)) example_client
      (JStr "focus") (JStr "New year") JNull (JNum 90) (JStr "9999-12-31 23:00") JNull []
    = (inl (OverflowError msg), []).
Proof.
  apply (create_session_out_of_calendar (example_env (answers example_data))
           example_client (JStr "focus") (JStr "New year") JNull 90
           (JStr "9999-12-31 23:00") JNull (mkDatetime 9999 12 31 23 0 0 0 None) []).
  - reflexivity.
  - reflexivity.
  - vm_compute. reflexivity.
  - right. vm_compute. discriminate.
Defined.

(** ** The fifth format *)

Lemma is_suffix_refl s : is_suffix s s = true.
Proof. destruct s; cbn [is_suffix]; rewrite String.eqb_refl; reflexivity. Qed.

Lemma is_suffix_tail r x s : is_suffix r s = true -> is_suffix r (String x s) = true.
Proof. intros H. cbn [is_suffix]. rewrite H. apply orb_true_r. Qed.

Lemma is_suffix_trans a b c :
  is_suffix a b = true -> is_suffix b c = true -> is_suffix a c = true.
Proof.
  intros Hab. induction c as [|x c IH]; cbn [is_suffix]; intros Hbc.
  - rewrite orb_false_r in Hbc. apply String.eqb_eq in Hbc. subst b. exact Hab.
  - apply orb_true_iff in Hbc as [Hbc|Hbc].
    + apply String.eqb_eq in Hbc. subst b. exact Hab.
    + rewrite (IH Hbc). apply orb_true_r.
Qed.

Lemma ends_with_ci_suffix c r s :
  is_suffix r s = true -> ends_with_ci c r = true -> ends_with_ci c s = true.
Proof.
  intros Hs Hr. induction s as [|x s IH]; cbn [is_suffix] in Hs.
  - rewrite orb_false_r in Hs. apply String.eqb_eq in Hs. subst r. exact Hr.
  - apply orb_true_iff in Hs as [Hs|Hs].
    + apply String.eqb_eq in Hs. subst r. exact Hr.
    + specialize (IH Hs). cbn [ends_with_ci]. destruct s; [discriminate IH|exact IH].
Qed.

Lemma match_classes_suffix cls s t r :
  match_classes cls s = Some (t, r) -> is_suffix r s = true.
Proof.
  revert s t r. induction cls as [|cl cls IH]; intros s t r; cbn [match_classes].
  - intros [= _ <-]. apply is_suffix_refl.
  - destruct s as [|x s]; [discriminate|].
    destruct (class_matches cl x); [|discriminate].
    destruct (match_classes cls s) as [[t' r']|] eqn:E; [|discriminate].
    intros [= _ <-]. apply is_suffix_tail. exact (IH _ _ _ E).
Qed.

Lemma first_alt_suffix {A : Type} alts (k : string -> string -> option A) s a :
  first_alt alts k s = Some a ->
  exists t r, k t r = Some a /\ is_suffix r s = true.
Proof.
  induction alts as [|cls alts IH]; cbn [first_alt]; [discriminate|].
  destruct (match_classes cls s) as [[t r]|] eqn:E; [|exact IH].
  destruct (k t r) as [a'|] eqn:Ek; [|exact IH].
  intros [= <-]. exists t, r. split; [exact Ek|exact (match_classes_suffix _ _ _ _ E)].
Qed.

Lemma spaces1_suffix {A : Type} (k : string -> option A) s a :
  spaces1 k s = Some a ->
  exists r, k r = Some a /\ is_suffix r s = true.
Proof.
  induction s as [|x s IH]; cbn [spaces1]; [discriminate|].
  destruct (is_space x); [|discriminate].
  destruct (spaces1 k s) as [a'|] eqn:E.
  - intros [= <-]. destruct (IH eq_refl) as (r & Hk & Hr).
    exists r. split; [exact Hk|apply is_suffix_tail; exact Hr].
  - intros Hk. exists s. split; [exact Hk|apply is_suffix_tail, is_suffix_refl].
Qed.

(** A text that a format ending in a literal reads to its end ends with
    that literal, in either case. *)
Lemma match_items_last_literal items c s f f' :
  match_items (items ++ [Lit c]) s f = Some (f', "") ->
  ends_with_ci c s = true.
Proof.
  revert s f. induction items as [|it items IH]; intros s f; cbn [app match_items].
  - destruct s as [|x s]; [discriminate|].
    destruct (Ascii.eqb (lower c) (lower x)) eqn:E; [|discriminate].
    intros [= _ ->]. cbn [ends_with_ci]. exact E.
  - destruct it as [c0| |d].
    + destruct s as [|x s]; [discriminate|].
      destruct (Ascii.eqb (lower c0) (lower x)); [|discriminate].
      intros H. apply IH in H. cbn [ends_with_ci]. destruct s; [discriminate H|exact H].
    + intros H. apply spaces1_suffix in H as (r & Hk & Hr).
      apply IH in Hk. exact (ends_with_ci_suffix _ _ _ Hr Hk).
    + intros H. apply first_alt_suffix in H as (t & r & Hk & Hr).
      apply IH in Hk. exact (ends_with_ci_suffix _ _ _ Hr Hk).
Qed.

Lemma compile_format_T_seconds_Z :
  compile_format "%Y-%m-%dT%H:%M:%SZ"
  = Some ([Dir DY; Lit "-"; Dir Dm; Lit "-"; Dir Dd; Lit "T"; Dir DH; Lit ":"; Dir DM;
           Lit ":"; Dir DS] ++ [Lit "Z"])%list.
Proof. vm_compute. reflexivity. Qed.

Lemma lower_is_z x : Ascii.eqb (lower "Z") (lower x) = true -> x = "z"%char \/ x = "Z"%char.
Proof.
  destruct x as [[] [] [] [] [] [] [] []]; vm_compute; intros H;
    first [discriminate H | left; reflexivity | right; reflexivity].
Qed.

(** After every [Z] is taken away, a text that ends with the designator in
    either case ends with a small [z], which the text had. *)
Lemma ends_with_z_after_removal s :
  ends_with_ci "Z" (remove_char "Z" s) = true -> char_in "z" s = true.
Proof.
  induction s as [|x s IH]; cbn [remove_char]; [discriminate|].
  unfold char_in in *. cbn [list_ascii_of_string existsb].
  destruct (Ascii.eqb x "Z") eqn:Ex.
  - intros H. rewrite (IH H). apply orb_true_r.
  - cbn [ends_with_ci]. destruct (remove_char "Z" s) as [|y r] eqn:Er.
    + intros H. apply lower_is_z in H as [->| ->]; [reflexivity|discriminate Ex].
    + intros H. rewrite (IH H). apply orb_true_r.
Qed.

Lemma match_items_lit_ci c x items rest f :
  Ascii.eqb (lower c) (lower x) = true ->
  match_items (Lit c :: items) (String x rest) f = match_items items rest f.
Proof. intros H. cbn [match_items]. rewrite H. reflexivity. Qed.

Lemma remove_Z_keeps_small_z s : remove_char "Z" (s ++ "z") = remove_char "Z" s ++ "z".
Proof. rewrite remove_char_app. reflexivity. Qed.

(** X28.  The fifth format of [parse_time_string], written for the
    designator [Z], never reads a text for it: every capital [Z] is taken
    out of the text before the formats are tried, so the format, matched
    without regard to case, reads only a text that holds a small [z].  A
    date and time in the first form followed by a small [z] is read, by the
    fifth format alone. *)
Theorem fifth_format_reads_small_z_only env :
  (forall s dt,
     strptime (remove_char "Z" s) "%Y-%m-%dT%H:%M:%SZ" = Some dt ->
     char_in "z" s = true)
  /\ (forall dt,
        valid dt = true -> microsecond dt = 0 -> tzinfo dt = None ->
        try_formats (render "T" true false dt ++ "z") (firstn 4 formats) = None
        /\ strptime (render "T" true false dt ++ "z") "%Y-%m-%dT%H:%M:%SZ" = Some dt
        /\ parse_time_string env (JStr (render "T" true false dt ++ "z")) = inr dt).
Proof.
  split.
  - intros s dt. unfold strptime. rewrite compile_format_T_seconds_Z.
    destruct (match_items _ (remove_char "Z" s) default_fields) as [[f [|c r]]|] eqn:E;
      try discriminate.
    intros _. apply match_items_last_literal in E.
    exact (ends_with_z_after_removal s E).
  - intros dt Hv Hus Htz.
    pose proof (valid_fields dt Hv) as (Hy & Hm & Hd & Hh & Hmi & Hs & _).
    assert (Hcheck : check_fields (year dt) (month dt) (day dt) (hour dt) (minute dt)
                       (second dt) 0 = true)
      by (unfold valid in Hv; rewrite Hus in Hv; exact Hv).
    assert (H4 : try_formats (render "T" true false dt ++ "z") (firstn 4 formats) = None).
    { destruct dt as [y m d hh mm ss us tz].
      cbn [year month day hour minute second microsecond tzinfo] in *. subst us tz.
      cbn [firstn formats]. unfold try_formats, strptime.
      rewrite compile_format_T_seconds, compile_format_space_seconds,
        compile_format_T_minutes, compile_format_space_minutes.
      unfold render. cbn [year month day hour minute second].
      repeat (progress (rewrite ?append_assoc, ?append_nil_r; cbn [append])). run_format.
      cbn [match_items set_field default_fields fY fm fd fH fM fS].
      reflexivity. }
    assert (H5 : strptime (render "T" true false dt ++ "z") "%Y-%m-%dT%H:%M:%SZ" = Some dt).
    { destruct dt as [y m d hh mm ss us tz].
      cbn [year month day hour minute second microsecond tzinfo] in *. subst us tz.
      unfold strptime. rewrite compile_format_T_seconds_Z. cbn [app].
      unfold render. cbn [year month day hour minute second].
      repeat (progress (rewrite ?append_assoc, ?append_nil_r; cbn [append])). run_format.
      rewrite match_items_lit_ci by reflexivity.
      cbn [match_items set_field default_fields fY fm fd fH fM fS].
      rewrite Hcheck. reflexivity. }
    split; [exact H4|split; [exact H5|]].
    unfold parse_time_string.
    rewrite remove_Z_keeps_small_z, (remove_Z_render "T" true false dt) by (left; reflexivity).
    cbn [firstn formats try_formats] in H4.
    unfold formats. cbn [try_formats].
    destruct (strptime (render "T" true false dt ++ "z") "%Y-%m-%dT%H:%M:%S");
      [discriminate H4|].
    destruct (strptime (render "T" true false dt ++ "z") "%Y-%m-%d %H:%M:%S");
      [discriminate H4|].
    destruct (strptime (render "T" true false dt ++ "z") "%Y-%m-%dT%H:%M");
      [discriminate H4|].
    destruct (strptime (render "T" true false dt ++ "z") "%Y-%m-%d %H:%M");
      [discriminate H4|].
    rewrite H5. reflexivity.
Qed.

Lemma fifth_format_reads_small_z_only_witness :
  parse_time_string (example_env (answers JNull)) (JStr "2024-07-21T09:00:00z")
  = inr (mkDatetime 2024 7 21 9 0 0 0 None).
Proof.
  change "2024-07-21T09:00:00z"
    with (render "T" true false (mkDatetime 2024 7 21 9 0 0 0 None) ++ "z").
  destruct (fifth_format_reads_small_z_only (example_env (answers JNull))) as [_ H].
  apply (H (mkDatetime 2024 7 21 9 0 0 0 None)); reflexivity.
Defined.

(** ** Error texts that are never returned *)

Lemma returns_only_catch {A : Type} (P : A -> Prop) (c : Py A) (h : exn -> Py A) :
  returns_only P c -> (forall e, returns_only P (h e)) -> returns_only P (catch c h).
Proof.
  intros Hc Hh log a log'. cbn [catch MonadExc_Py].
  destruct (c log) as [[e|a0] l1] eqn:E.
  - apply Hh.
  - intros [= <- _]. exact (Hc log a0 l1 E).
Qed.

Lemma returns_only_bind_from {A B : Type} (Q : A -> Prop) (P : B -> Prop)
  (c : Py A) (f : A -> Py B) :
  returns_only Q c -> (forall a, Q a -> returns_only P (f a)) ->
  returns_only P (bind c f).
Proof.
  intros Hc Hf log b log'. cbn [bind Monad_Py].
  destruct (c log) as [[e|a] l1] eqn:E; [discriminate|].
  apply Hf. exact (Hc log a l1 E).
Qed.

(** A query returns only a body without [errors]. *)
Lemma returns_only_query {B : Type} (P : B -> Prop) env client query variables
  (f : json -> Py B) :
  (forall result, contains_key "errors" result = inr false -> returns_only P (f result)) ->
  returns_only P (bind (execute_query env client query variables) f).
Proof.
  intros Hf log b log'. cbn [bind Monad_Py]. rewrite execute_query_spec.
  destruct (upstream env _) as [e|r]; [discriminate|].
  destruct ((200 <=? status_code r) && (status_code r <=? 299)); [|discriminate].
  destruct (decoded r) as [result|err]; [|discriminate].
  destruct (check_graphql_errors result) as [e|v] eqn:Ec; [discriminate|].
  apply check_graphql_errors_inr in Ec as [-> Hc]. apply (Hf result Hc).
Qed.

Lemma tag_is_not_never_returned t :
  startswith "[SUCCESS]" t = true \/ startswith "[CONFIRM]" t = true ->
  never_returned t = false.
Proof.
  destruct t as [|a t]; [intros [H|H]; discriminate H|].
  destruct t as [|b t];
    [cbn [startswith]; rewrite !andb_false_r; intros [H|H]; discriminate H|].
  cbn [startswith]. intros H.
  assert (Hb : b = "S"%char \/ b = "C"%char).
  { destruct H as [H|H]; apply andb_true_iff in H as [_ H];
      apply andb_true_iff in H as [H _]; apply Ascii.eqb_eq in H; auto. }
  unfold never_returned. cbn [startswith].
  destruct Hb as [-> | ->]; cbn [Ascii.eqb Bool.eqb andb];
    rewrite ?andb_false_r; reflexivity.
Qed.

(** The texts returned by the steps of a tool, none of them among the
    two. *)
Ltac returned_tac :=
  repeat (intros;
          match goal with
          | |- returns_only _ (bind (lift _) _) => apply returns_only_bind_lift
          | |- returns_only _ (bind (execute_query _ _ _ _) _) => apply returns_only_query
          | |- returns_only _ (bind _ _) => apply returns_only_bind
          | |- returns_only _ (catch _ _) => apply returns_only_catch
          | |- returns_only _ (ret _) => apply returns_only_ret; try reflexivity
          | |- returns_only _ (if ?c then _ else _) => destruct c eqn:?
          | |- returns_only _ (match ?c with (pair _ _) => _ end) => destruct c
          end).

Lemma tool_try_returned env tool arguments :
  returns_only (fun t => never_returned t = false) (tool_try env tool arguments).
Proof.
  unfold tool_try.
  repeat match goal with
  | |- context [String.eqb tool ?s] =>
      let E := fresh "E" in destruct (String.eqb tool s) eqn:E
  end.
  - unfold test_connection_try. apply returns_only_bind_lift. intros client _.
    apply (returns_only_bind_from (fun sm => never_returned (snd sm) = false)).
    + unfold test_connection. returned_tac.
    + intros [success message] Hm. apply returns_only_ret. exact Hm.
  - unfold list_projects_try, get_projects. returned_tac.
    + match goal with
      | H : contains_key "errors" ?r = inr false, H' : contains_key "errors" ?r = inr true
        |- _ => rewrite H in H'; discriminate H'
      end.
    + match goal with
      | H : list_projects_lines _ _ = inr _ |- _ =>
          apply list_projects_lines_prefix in H as [rest ->]
      end.
      apply tag_is_not_never_returned. left.
      rewrite append_assoc. apply strip_keeps_tag.
  - unfold create_project_try, create_project. returned_tac.
  - unfold start_session_timer_try, start_session_timer. returned_tac.
  - unfold stop_session_timer_try, stop_confirmed, stop_unconfirmed,
      stop_session_timer, get_current_session. returned_tac.
  - unfold get_current_session_try, get_current_session. returned_tac.
  - unfold create_session_try. apply returns_only_bind_lift.
    intros [needs_confirm confirm_msg] Hv. destruct needs_confirm.
    + apply returns_only_ret. apply tag_is_not_never_returned. right.
      exact (validate_confirm_tag _ _ Hv).
    + unfold create_session. returned_tac.
  - apply returns_only_ret. unfold never_returned.
    cbn [append startswith Ascii.eqb Bool.eqb andb orb]. reflexivity.
Qed.

(** X29.  Two error texts of the server are never returned.  No answer
    starts with [[ERROR] Tool call failed], the label of the [except] clause
    of [handle_call_tool]: every handler turns its own exceptions into a
    text, so nothing reaches the clause.  No answer starts with [[ERROR]
    Failed to get projects], the label of the check of
    [list_projects_handler] for [errors] in the body: [execute_query] has
    raised on such a body before, and the failure is reported as [[ERROR]
    Failed to list projects]. *)
Theorem unreachable_error_texts env tool arguments log t log' :
  handle_call_tool env tool arguments log = (inr [mkTextContent "text" t], log') ->
  startswith "[ERROR] Tool call failed" t = false
  /\ startswith "[ERROR] Failed to get projects" t = false.
Proof.
  intros H. apply orb_false_iff. fold (never_returned t).
  rewrite handle_call_tool_dispatch in H.
  destruct (tool_try env tool arguments log) as [[e|t0] l0] eqn:E.
  - injection H as <- _. unfold tool_try, error_label in *.
    repeat match type of E with
    | context [String.eqb tool ?s] =>
        let Et := fresh "Et" in destruct (String.eqb tool s) eqn:Et
    end.
    all: try reflexivity.
    discriminate E.
  - injection H as <- _. exact (tool_try_returned env tool arguments log t0 l0 E).
Qed.

Lemma unreachable_error_texts_witness :
  startswith "[ERROR] Tool call failed"
    "[ERROR] Failed to list projects: ❌ 未知错误: GraphQL错误: boom" = false
  /\ startswith "[ERROR] Failed to get projects"
       "[ERROR] Failed to list projects: ❌ 未知错误: GraphQL错误: boom" = false.
Proof.
  apply (unreachable_error_texts
           (example_env (fun _ => Returns (mkResponse 200 ""
                                             (Json (JObj [("errors",
                                                           JArr [JObj [("message",
                                                                        JStr "boom")]])])))))
           "list_projects" JNull []
           "[ERROR] Failed to list projects: ❌ 未知错误: GraphQL错误: boom"
           [request_of example_client Documents.get_projects (JObj [("first", JNum 10)])]).
  vm_compute. reflexivity.
Defined.
